(** * Section-property retrieval: a shallow embedding of
      [uc_ub_data_retrieval.py] and the properties of its lookup core.

    Modelling conventions.
    - A Python [str] is a [string] whose characters are the code points
      U+0000..U+00FF (Latin-1); the multiplication sign U+00D7 is the
      character of code 215.  Code points above U+00FF are outside the model.
    - A Python [float] is an implementation of the interface [PyFloat]
      below; two implementations are given, exact rationals and IEEE
      binary64.
    - A raised exception is the [Raise] branch of [result]. *)

From Stdlib Require Import String Ascii List Bool Arith ZArith QArith Lia.
From Stdlib Require Import Floats DecimalString.
Import ListNotations.

Local Close Scope Q_scope.
Local Open Scope string_scope.
Local Open Scope list_scope.
Local Open Scope nat_scope.

(** ** Characters and strings *)

Module Str.

Definition code (c : ascii) : nat := nat_of_ascii c.

(** [str.isspace] and the class [\s] of [re], restricted to Latin-1:
    U+0009..U+000D, U+001C..U+0020, U+0085 and U+00A0. *)
Definition is_space (c : ascii) : bool :=
  let n := code c in
  ((9 <=? n) && (n <=? 13)) || ((28 <=? n) && (n <=? 32))
  || (n =? 133) || (n =? 160).

(** The class [\d] of [re], restricted to Latin-1. *)
Definition is_digit (c : ascii) : bool :=
  let n := code c in (48 <=? n) && (n <=? 57).

Definition is_upper (c : ascii) : bool :=
  let n := code c in
  ((65 <=? n) && (n <=? 90))
  || ((192 <=? n) && (n <=? 222) && negb (n =? 215)).

(** [str.lower] on one Latin-1 character. *)
Definition lower_char (c : ascii) : ascii :=
  if is_upper c then ascii_of_nat (code c + 32) else c.

Fixpoint lower (s : string) : string :=
  match s with
  | EmptyString => EmptyString
  | String c s' => String (lower_char c) (lower s')
  end.

Fixpoint lstrip (s : string) : string :=
  match s with
  | EmptyString => EmptyString
  | String c s' => if is_space c then lstrip s' else s
  end.

Fixpoint all_space (s : string) : bool :=
  match s with
  | EmptyString => true
  | String c s' => is_space c && all_space s'
  end.

Fixpoint rstrip (s : string) : string :=
  match s with
  | EmptyString => EmptyString
  | String c s' => if all_space s then EmptyString else String c (rstrip s')
  end.

(** [str.strip()] *)
Definition strip (s : string) : string := rstrip (lstrip s).

Fixpoint remove_if (p : ascii -> bool) (s : string) : string :=
  match s with
  | EmptyString => EmptyString
  | String c s' => if p c then remove_if p s' else String c (remove_if p s')
  end.

(** [s.replace(' ', '')]: only U+0020 is removed. *)
Definition remove_blanks (s : string) : string :=
  remove_if (fun c => code c =? 32) s.

(** [re.sub(r'\s+', '', s)] *)
Definition remove_spaces (s : string) : string := remove_if is_space s.

Fixpoint starts_with (p s : string) : option string :=
  match p, s with
  | EmptyString, _ => Some s
  | String a p', String b s' =>
      if Ascii.eqb a b then starts_with p' s' else None
  | String _ _, EmptyString => None
  end.

Fixpoint drop (n : nat) (s : string) : string :=
  match n, s with
  | O, _ => s
  | S n', String _ s' => drop n' s'
  | S _, EmptyString => EmptyString
  end.

Fixpoint forallb (p : ascii -> bool) (s : string) : bool :=
  match s with
  | EmptyString => true
  | String c s' => p c && forallb p s'
  end.

Fixpoint last_char (s : string) : option ascii :=
  match s with
  | EmptyString => None
  | String c EmptyString => Some c
  | String _ s' => last_char s'
  end.

(** Plain substring test (what [in] does on two strings). *)
Fixpoint is_substring (p s : string) : bool :=
  match starts_with p s with
  | Some _ => true
  | None => match s with
            | EmptyString => false
            | String _ s' => is_substring p s'
            end
  end.

End Str.

(** ** The regular expressions of the source, each as a matcher *)

Module Re.
Import Str.

Definition comma : ascii := ascii_of_nat 44.
Definition dot : ascii := ascii_of_nat 46.
Definition newline : ascii := ascii_of_nat 10.
Definition times_sign : ascii := ascii_of_nat 215.
Definition letter_x : ascii := ascii_of_nat 120.

(** The class [[x×\s,]] of the two [re.split] calls. *)
Definition is_sep (c : ascii) : bool :=
  Ascii.eqb c letter_x || Ascii.eqb c times_sign || is_space c
  || Ascii.eqb c comma.

(** The class [[,\s]] that follows the prefix in both [re.match] calls. *)
Definition is_gap (c : ascii) : bool := is_space c || Ascii.eqb c comma.

(** [re.split(r'[x×\s,]+', s)]: the pieces between maximal runs of
    separators; a run at either end leaves an empty piece there.
    [cur] is the piece being read, [skipping] says that the previous
    character was a separator. *)
Fixpoint split_go (s cur : string) (skipping : bool) : list string :=
  match s with
  | EmptyString => [cur]
  | String c s' =>
      if is_sep c
      then if skipping then split_go s' EmptyString true
           else cur :: split_go s' EmptyString true
      else split_go s' (cur ++ String c EmptyString) false
  end.

Definition split (s : string) : list string := split_go s EmptyString false.

(** [re.findall(r"\d+(?:\.\d+)?", s)] as a scanner.  [Int cur]: inside the
    integer part; [Dot cur]: [cur] was followed by a dot, whose fraction is
    still to come; [Frac cur]: inside the fraction. *)
Inductive scan : Type :=
| Out
| Int (cur : string)
| Dot (cur : string)
| Frac (cur : string).

Definition snoc (s : string) (c : ascii) : string := s ++ String c EmptyString.

Fixpoint findall_go (st : scan) (s : string) : list string :=
  match s with
  | EmptyString =>
      match st with
      | Out => []
      | Int cur | Dot cur | Frac cur => [cur]
      end
  | String c s' =>
      if is_digit c then
        match st with
        | Out => findall_go (Int (String c EmptyString)) s'
        | Int cur => findall_go (Int (snoc cur c)) s'
        | Dot cur => findall_go (Frac (snoc (snoc cur dot) c)) s'
        | Frac cur => findall_go (Frac (snoc cur c)) s'
        end
      else
        match st with
        | Out => findall_go Out s'
        | Int cur =>
            if Ascii.eqb c dot then findall_go (Dot cur) s'
            else cur :: findall_go Out s'
        | Dot cur | Frac cur => cur :: findall_go Out s'
        end
  end.

Definition findall_numbers (s : string) : list string := findall_go Out s.

(** [re.search(r"(\d+(?:\.\d+)?)", s)]: the first match, if any. *)
Definition search_number (s : string) : option string :=
  match findall_numbers s with
  | [] => None
  | n :: _ => Some n
  end.

Fixpoint span_len (p : ascii -> bool) (s : string) : nat :=
  match s with
  | EmptyString => 0
  | String c s' => if p c then S (span_len p s') else 0
  end.

(** [$] also matches before a final newline. *)
Fixpoint chomp (s : string) : string :=
  match s with
  | EmptyString => EmptyString
  | String c EmptyString =>
      if Ascii.eqb c newline then EmptyString else s
  | String c s' => String c (chomp s')
  end.

(** The tail [\s*[,\s]*(.+)$] of both [re.match] patterns, on the text
    [t] that follows the prefix.  The two greedy stars give up characters
    until [(.+)] has something to match: the group starts after the
    longest run of [[,\s]] that leaves one character, and it holds no
    newline. *)
Definition match_tail (t : string) : option string :=
  let t' := chomp t in
  match String.length t' with
  | O => None
  | S k =>
      let g := drop (Nat.min (span_len is_gap t) k) t' in
      if Str.forallb (fun c => negb (Ascii.eqb c newline)) g
      then Some g else None
  end.

(** [re.match(r"^\s*h\s*[,\s]*(.+)$", s)], giving group 1. *)
Definition match_h (s : string) : option string :=
  match starts_with "h" (lstrip s) with
  | Some t => match_tail t
  | None => None
  end.

(** [re.match(r"^\s*(uc|ub)\s*[,\s]*(.+)$", s)], giving groups 1 and 2. *)
Definition match_uc_ub (s : string) : option (string * string) :=
  let s1 := lstrip s in
  match starts_with "uc" s1 with
  | Some t => option_map (fun g => ("uc", g)) (match_tail t)
  | None =>
      match starts_with "ub" s1 with
      | Some t => option_map (fun g => ("ub", g)) (match_tail t)
      | None => None
      end
  end.

End Re.

(** ** Exceptions

    [OverflowError] is that of [x ** n] on floats.  [KeyError] is that of
    [df[label]] on a frame without the column.  [ReError] is the exception
    with which [re] refuses a pattern: [re.error], or another that it raises
    while it compiles (for a repetition count over its limit it is an
    [OverflowError] of its own); none of them is a [ValueError], which is
    all that the callers tell apart. *)

Inductive exn : Type :=
| ValueError (msg : string)
| OverflowError
| KeyError (label : string)
| ReError.

Inductive result (A : Type) : Type :=
| Ok (a : A)
| Raise (e : exn).
Arguments Ok {A} a.
Arguments Raise {A} e.

Definition bind {A B : Type} (r : result A) (k : A -> result B) : result B :=
  match r with
  | Ok a => k a
  | Raise e => Raise e
  end.

Notation "x <- r ;; k" := (bind r (fun x => k))
  (at level 61, r at next level, right associativity).

(** ** Python floats, as an interface

    [Arith] is what [_h_section_properties] needs of [float]: the four
    operations, negation, the literals [2.0] and [12.0], and [x ** n] for a
    literal integer [n], the one operation that can raise: [fpow] is
    [None] when [**] raises [OverflowError], its only exception on a float
    and a positive integer.  [PyFloat] adds what [find_section] needs: [float(s)]
    ([None] when it raises), [str(x)], [==] and [math.isnan]. *)

Class Arith (F : Type) : Type := {
  fadd : F -> F -> F;
  fsub : F -> F -> F;
  fmul : F -> F -> F;
  fdiv : F -> F -> F;
  fneg : F -> F;
  fpow : F -> positive -> option F;
  f2 : F;
  f12 : F
}.

Class PyFloat (F : Type) : Type := {
  py_arith :: Arith F;
  float_of_str : string -> option F;
  str_of_float : F -> string;
  feqb : F -> F -> bool;
  fisnan : F -> bool
}.

Declare Scope pyfloat_scope.
Delimit Scope pyfloat_scope with F.
Infix "+" := fadd : pyfloat_scope.
Infix "-" := fsub : pyfloat_scope.
Infix "*" := fmul : pyfloat_scope.
Infix "/" := fdiv : pyfloat_scope.
Notation "- x" := (fneg x) : pyfloat_scope.

(** ** [_h_section_properties] *)

Section HSection.
Context {F : Type} `{Arith F}.

(** [x ** n] *)
Definition power (x : F) (n : positive) : result F :=
  match fpow x n with
  | Some y => Ok y
  | None => Raise OverflowError
  end.

Definition h_section_properties (D B T t : F) : result (F * F) :=
  (* Areas of components *)
  let A_flange := (B * T)%F in
  let A_top := A_flange in
  let A_bot := A_flange in
  let A_web := (t * (D - f2 * T))%F in
  (* Total area *)
  let A := (A_top + A_bot + A_web)%F in
  let y_top := (D / f2 - T / f2)%F in
  let y_bot := (- y_top)%F in
  T3 <- power T 3 ;;
  let I_top_centroid := (B * T3 / f12)%F in
  let I_bot_centroid := I_top_centroid in
  h3 <- power (D - f2 * T)%F 3 ;;
  let I_web_centroid := (t * h3 / f12)%F in
  (* parallel-axis theorem *)
  yt2 <- power y_top 2 ;;
  let I_top := (I_top_centroid + A_top * yt2)%F in
  yb2 <- power y_bot 2 ;;
  let I_bot := (I_bot_centroid + A_bot * yb2)%F in
  let I_web := I_web_centroid in
  let Ixx := (I_top + I_bot + I_web)%F in
  Ok (A, Ixx).

End HSection.

(** ** Loaded tables

    [_load_single_table] leaves a [DataFrame] whose rows carry the sheet's
    own columns ([cells], under their renamed labels) followed by the three
    columns it computes: [lookup_key] and [full_lookup_key], always strings,
    and [extra_numeric], a float or null.  The two key columns are those of
    the frame that [apply(build_keys)] makes of its results, one for each
    row: a table that is left without rows has no key column at all
    ([apply] on an empty column gives an empty column back, and [concat]
    adds nothing under these labels). *)

Inductive value (F : Type) : Type :=
| VNull
| VNum (x : F)
| VStr (s : string).
Arguments VNull {F}.
Arguments VNum {F} x.
Arguments VStr {F} s.

Record Row (F : Type) : Type := {
  cells : list (string * value F);
  lookup_key : string;
  full_lookup_key : string;
  extra_numeric : option F
}.
Arguments cells {F} r.
Arguments lookup_key {F} r.
Arguments full_lookup_key {F} r.
Arguments extra_numeric {F} r.

Record DataFrame (F : Type) : Type := {
  columns : list string;
  rows : list (Row F)
}.
Arguments columns {F} d.
Arguments rows {F} d.

Record LookupResult (F : Type) : Type := {
  type : string;
  section : string;
  properties : list (string * value F)
}.
Arguments type {F} l.
Arguments section {F} l.
Arguments properties {F} l.

(** [build_keys] of the loader, on a cell that is null ([None]) or text. *)
Definition build_keys (s : option string) : string * string :=
  let txt := match s with Some t => t | None => EmptyString end in
  let nums := Re.findall_numbers txt in
  let key2 :=
    match nums with
    | n0 :: n1 :: _ => (n0 ++ "x" ++ n1)%string
    | _ => EmptyString
    end in
  let key3 :=
    match nums with
    | n0 :: n1 :: n2 :: _ => (n0 ++ "x" ++ n1 ++ "x" ++ n2)%string
    | _ => EmptyString
    end in
  (Str.lower key2, Str.lower key3).

(** The [ValueError]s that [find_section] raises itself. *)
Definition err_h_dimensions : exn :=
  ValueError
    "H-section requires 4 dimensions: D x B x T x t (e.g. 'h 300x150x20x10')".

Definition err_h_numbers : exn :=
  ValueError "Could not parse H-section dimensions as numbers".

Definition err_prefix : exn :=
  ValueError
    "Input must start with 'uc' or 'ub' followed by a designation, e.g. 'uc 356x406' or 'ub,914x305x576'".

Definition err_not_loaded (section_type : string) : exn :=
  ValueError (section_type ++ " table not loaded").

Definition err_not_found (section_type designation : string) : exn :=
  ValueError (section_type ++ " section '" ++ designation ++ "' not found").

Section Lookup.
Context {F : Type} `{PyFloat F}.

(** [re.compile] on a pattern chosen by the caller, as
    [Series.str.contains] uses it: [None] when the pattern is rejected
    ([re.error]), otherwise the test [search(s) is not None]. *)
Variable re_compile : string -> option (string -> bool).

(** [pd.notna] *)
Definition notna (v : value F) : bool :=
  match v with
  | VNull => false
  | VNum x => negb (fisnan x)
  | VStr _ => true
  end.

(** A row as the [Series] that [iloc[0]] gives. *)
Definition to_series (r : Row F) : list (string * value F) :=
  cells r ++
  [ ("lookup_key", VStr (lookup_key r));
    ("full_lookup_key", VStr (full_lookup_key r));
    ("extra_numeric",
      match extra_numeric r with Some x => VNum x | None => VNull end) ].

Definition mem (k : string) (ks : list string) : bool :=
  existsb (String.eqb k) ks.

(** [Series.drop(labels)] *)
Definition drop_labels (ks : list string) (s : list (string * value F))
  : list (string * value F) :=
  filter (fun kv => negb (mem (fst kv) ks)) s.

Definition format_row (s : list (string * value F))
  : list (string * value F) :=
  filter (fun kv => notna (snd kv)) s.

Fixpoint cell (k : string) (s : list (string * value F)) : value F :=
  match s with
  | [] => VNull
  | (k', v) :: s' => if String.eqb k k' then v else cell k s'
  end.

(** [Series.astype(str)] on one cell. *)
Definition astype_str (v : value F) : string :=
  match v with
  | VNull => "nan"
  | VNum x => str_of_float x
  | VStr s => s
  end.

Fixpoint lookup_table (k : string) (tables : list (string * DataFrame F))
  : option (DataFrame F) :=
  match tables with
  | [] => None
  | (k', d) :: tables' =>
      if String.eqb k k' then Some d else lookup_table k tables'
  end.

(** [str.upper] on ASCII letters, all that [(uc|ub)] can capture. *)
Definition upper_char (c : ascii) : ascii :=
  let n := Str.code c in
  if (97 <=? n) && (n <=? 122) then ascii_of_nat (n - 32) else c.

Fixpoint upper (s : string) : string :=
  match s with
  | EmptyString => EmptyString
  | String c s' => String (upper_char c) (upper s')
  end.

Definition norm_key (s : string) : string :=
  Str.lower (Str.remove_blanks s).

(** The key of the query, from the split designation. *)
Definition query_key (designation : string) (parts : list string) : string :=
  match parts with
  | p0 :: p1 :: _ => norm_key (p0 ++ "x" ++ p1)%string
  | _ => norm_key designation
  end.

(** Exact matches first, [str.contains] when there is none.  On a table
    without rows [df['lookup_key']] raises [KeyError]: such a table has no
    key column. *)
Definition candidates (df : DataFrame F) (key : string)
  : result (list (Row F)) :=
  match rows df with
  | [] => Raise (KeyError "lookup_key")
  | _ :: _ =>
      let matches :=
        filter (fun r => String.eqb (lookup_key r) key) (rows df) in
      match matches with
      | _ :: _ => Ok matches
      | [] =>
          match re_compile key with
          | None => Raise ReError
          | Some found =>
              Ok (filter (fun r => found (lookup_key r)) (rows df))
          end
      end
  end.

(** The three selections of the refinement, on the candidates. *)
Definition fk_matches (matches : list (Row F)) (p0 p1 p2 : string)
  : list (Row F) :=
  let full_key := norm_key (p0 ++ "x" ++ p1 ++ "x" ++ p2)%string in
  filter (fun r => String.eqb (full_lookup_key r) full_key) matches.

Definition en_matches (matches : list (Row F)) (third_val : F)
  : list (Row F) :=
  filter (fun r =>
            match extra_numeric r with
            | Some x => negb (fisnan x) && feqb x third_val
            | None => false
            end) matches.

Definition norm_extra (v : value F) : string :=
  Str.lower (Str.remove_spaces (Str.strip (astype_str v))).

Definition te_matches (matches : list (Row F)) (third_raw : string)
  : list (Row F) :=
  let norm :=
    ("x" ++ Str.lower (Str.remove_blanks (Str.strip third_raw)))%string in
  filter (fun r =>
            String.eqb
              (norm_extra (cell "section_designation_extra" (cells r))) norm)
         matches.

Definition is_empty (s : string) : bool :=
  match s with EmptyString => true | _ => false end.

(** The row that wins and the labels dropped from it; [None] when there
    is no candidate, where the source has raised [not found] before it
    comes to the refinement (no selection from no candidate holds a
    row). *)
Definition refine (df : DataFrame F) (matches : list (Row F))
  (parts : list string) : option (Row F * list string) :=
  let fallback :=
    match matches with
    | row :: _ => Some (row, ["lookup_key"])
    | [] => None
    end in
  match parts with
  | p0 :: p1 :: third_raw :: _ =>
      let third_val := float_of_str third_raw in
      let tier3 :=
        if mem "section_designation_extra" (columns df) then
          match te_matches matches third_raw with
          | row :: _ => Some (row, ["lookup_key"; "full_lookup_key"])
          | [] => fallback
          end
        else fallback in
      let tier2 :=
        match third_val with
        | Some v =>
            match en_matches matches v with
            | row :: _ => Some (row, ["lookup_key"; "full_lookup_key"])
            | [] => tier3
            end
        | None => tier3
        end in
      if negb (is_empty third_raw)
         && existsb (fun r => 0 <? String.length (full_lookup_key r)) matches
      then
        match fk_matches matches p0 p1 third_raw with
        | row :: _ => Some (row, ["lookup_key"; "full_lookup_key"])
        | [] => tier2
        end
      else tier2
  | _ => fallback
  end.

Definition h_request (designation : string) : result (LookupResult F) :=
  let parts := Re.split designation in
  if List.length parts <? 4 then
    Raise err_h_dimensions
  else
    match map float_of_str (firstn 4 parts) with
    | [Some D; Some B; Some T; Some t] =>
        ai <- h_section_properties D B T t ;;
        Ok {| type := "H-BuiltUp";
              section := ("h " ++ designation)%string;
              properties :=
                [ ("Area (A) (mm^2)", VNum (fst ai));
                  ("Second moment of area (Ixx) (mm^4)", VNum (snd ai)) ] |}
    | _ => Raise err_h_numbers
    end.

Definition uc_ub_request (tables : list (string * DataFrame F))
  (section_type designation : string) : result (LookupResult F) :=
  match lookup_table section_type tables with
  | None => Raise (err_not_loaded section_type)
  | Some df =>
      let parts := Re.split designation in
      let key := query_key designation parts in
      matches <- candidates df key ;;
      match refine df matches parts with
      | None =>
          Raise (err_not_found section_type designation)
      | Some (row, dropped) =>
          Ok {| type := section_type;
                section := designation;
                properties :=
                  format_row (drop_labels dropped (to_series row)) |}
      end
  end.

Definition find_section (tables : list (string * DataFrame F))
  (input_string : string) : result (LookupResult F) :=
  let input_lower := Str.strip (Str.lower input_string) in
  match Re.match_h input_lower with
  | Some g => h_request (Str.strip g)
  | None =>
      match Re.match_uc_ub input_lower with
      | None =>
          Raise err_prefix
      | Some (ty, g) => uc_ub_request tables (upper ty) (Str.strip g)
      end
  end.

End Lookup.

(** ** Exact arithmetic: [float] as a rational number

    The values are reduced fractions, so that equal numbers are equal
    terms.  There is no overflow, no infinity and no NaN.  [float(s)] reads
    the decimal literals [[+-]digits[.digits][e[+-]digits]] (a digit on one
    side of the point is enough); the other spellings that Python accepts
    (underscores, [inf], [nan]) denote nothing here and are refused. *)

Module Exact.

Fixpoint take_digits (s : string) : string * string :=
  match s with
  | EmptyString => (EmptyString, EmptyString)
  | String c s' =>
      if Str.is_digit c
      then let (d, r) := take_digits s' in (String c d, r)
      else (EmptyString, s)
  end.

Fixpoint digits_value (acc : Z) (s : string) : Z :=
  match s with
  | EmptyString => acc
  | String c s' => digits_value (10 * acc + Z.of_nat (Str.code c - 48))%Z s'
  end.

Definition take_sign (s : string) : bool * string :=
  match s with
  | String c s' =>
      if Ascii.eqb c (ascii_of_nat 45) then (true, s')
      else if Ascii.eqb c (ascii_of_nat 43) then (false, s')
      else (false, s)
  | EmptyString => (false, s)
  end.

Definition parse_exponent (s : string) : option Z :=
  match s with
  | EmptyString => Some 0%Z
  | String c s' =>
      if Ascii.eqb c (ascii_of_nat 101) || Ascii.eqb c (ascii_of_nat 69) then
        let (neg, s1) := take_sign s' in
        match take_digits s1 with
        | (String d ds, EmptyString) =>
            let n := digits_value 0 (String d ds) in
            Some (if neg then (- n)%Z else n)
        | _ => None
        end
      else None
  end.

Definition parse_decimal (s : string) : option Q :=
  let (neg, s1) := take_sign s in
  let (ip, s2) := take_digits s1 in
  let (fp, s3) :=
    match s2 with
    | String c r => if Ascii.eqb c Re.dot then take_digits r
                    else (EmptyString, s2)
    | EmptyString => (EmptyString, s2)
    end in
  match (ip ++ fp)%string with
  | EmptyString => None
  | String _ _ as ds =>
      match parse_exponent s3 with
      | None => None
      | Some ex =>
          let mant := digits_value 0 ds in
          let mant := if neg then (- mant)%Z else mant in
          let scale := (ex - Z.of_nat (String.length fp))%Z in
          Some (Qred (match scale with
                      | Z0 => mant # 1
                      | Zpos p => (mant * 10 ^ Zpos p)%Z # 1
                      | Zneg p => mant # (10 ^ p)%positive
                      end))
      end
  end.

(** [str(x)] for a whole number is its digits followed by [.0]; a
    fraction is printed as numerator, slash, denominator. *)
Definition print (x : Q) : string :=
  let n := NilZero.string_of_int (Z.to_int (Qnum x)) in
  match Qden x with
  | xH => (n ++ ".0")%string
  | d => (n ++ "/" ++ NilZero.string_of_uint (Pos.to_uint d))%string
  end.

#[global] Instance arith : Arith Q := {
  fadd x y := Qred (Qplus x y);
  fsub x y := Qred (Qminus x y);
  fmul x y := Qred (Qmult x y);
  fdiv x y := Qred (Qdiv x y);
  fneg x := Qred (Qopp x);
  fpow x n := Some (Qred (Qpower_positive x n));
  f2 := 2 # 1;
  f12 := 12 # 1
}.

#[global] Instance pyfloat : PyFloat Q := {
  py_arith := arith;
  float_of_str := parse_decimal;
  str_of_float := print;
  feqb := Qeq_bool;
  fisnan := fun _ => false
}.

End Exact.

(** ** IEEE binary64 arithmetic

    [+], [-], [*], [/] and unary minus are the primitive operations.
    [x ** n] follows [float_pow] of CPython: NaN, the infinities and the
    zeros are answered without calling [pow]; otherwise the result of
    [pow], here the exact power rounded to nearest even, is returned unless
    it is infinite, which raises [OverflowError].  The [pow] of a C library
    gives this value when the power is a binary64 number, as in the
    examples below; where it is not, the library may be one unit in the
    last place away. *)

Module Binary64.

Definition odd (n : positive) : bool :=
  match n with xO _ => false | _ => true end.

Definition pow (x : float) (n : positive) : option float :=
  match Prim2SF x with
  | S754_nan => Some x
  | S754_infinity s => Some (SF2Prim (S754_infinity (s && odd n)))
  | S754_zero s => Some (SF2Prim (S754_zero (s && odd n)))
  | S754_finite s m e =>
      match binary_round prec emax (s && odd n) (m ^ n)%positive
                         (e * Zpos n)%Z with
      | S754_infinity _ => None
      | r => Some (SF2Prim r)
      end
  end.

#[global] Instance arith : Arith float := {
  fadd := PrimFloat.add;
  fsub := PrimFloat.sub;
  fmul := PrimFloat.mul;
  fdiv := PrimFloat.div;
  fneg := PrimFloat.opp;
  fpow := pow;
  f2 := 2%float;
  f12 := 12%float
}.

End Binary64.

(** ** A regular-expression engine for the plain patterns

    Patterns made of literal characters and dots: a dot matches any
    character but the newline.  A pattern that holds one of the other
    special characters of [re] is refused, which [re] itself does only
    when the pattern is malformed: such patterns are outside this engine. *)

Module PlainRe.

Definition is_special (c : ascii) : bool :=
  existsb (fun n => Str.code c =? n)
          [92; 94; 36; 42; 43; 63; 123; 125; 91; 93; 124; 40; 41].

Fixpoint match_here (p s : string) : bool :=
  match p, s with
  | EmptyString, _ => true
  | String a p', String b s' =>
      (if Ascii.eqb a Re.dot then negb (Ascii.eqb b Re.newline)
       else Ascii.eqb a b)
      && match_here p' s'
  | String _ _, EmptyString => false
  end.

Fixpoint search (p s : string) : bool :=
  match_here p s
  || match s with
     | EmptyString => false
     | String _ s' => search p s'
     end.

Definition compile (p : string) : option (string -> bool) :=
  if Str.forallb (fun c => negb (is_special c)) p
  then Some (search p) else None.

End PlainRe.

(** ** Sample data

    A UC table of two rows under the heading [356 x 406]: the first has a
    full key, the second only the extra column; and a UB table in which one
    key holds another. *)

Module Sample.

Definition r1299 : Row Q := {|
  cells := [ ("Section designation", VStr "356 x 406 x 1299");
             ("section_designation_extra", VNull);
             ("Mass per metre        kg/m", VNum (1299 # 1)%Q) ];
  lookup_key := "356x406";
  full_lookup_key := "356x406x1299";
  extra_numeric := None |}.

Definition r283 : Row Q := {|
  cells := [ ("Section designation", VStr "356 x 406");
             ("section_designation_extra", VStr "x 283");
             ("Mass per metre        kg/m", VNull) ];
  lookup_key := "356x406";
  full_lookup_key := "";
  extra_numeric := Some (283 # 1)%Q |}.

Definition uc : DataFrame Q := {|
  columns := [ "Section designation"; "section_designation_extra";
               "Mass per metre        kg/m" ];
  rows := [r1299; r283] |}.

Definition ub_row (designation key key3 : string) : Row Q := {|
  cells := [ ("Section designation", VStr designation) ];
  lookup_key := key;
  full_lookup_key := key3;
  extra_numeric := None |}.

Definition ub : DataFrame Q := {|
  columns := [ "Section designation" ];
  rows := [ ub_row "11016 x 3051 x 7" "11016x3051" "11016x3051x7";
            ub_row "1016 x 305 x 584" "1016x305" "1016x305x584";
            ub_row "1016 x 305 x 494" "1016x305" "1016x305x494" ] |}.

Definition tables : list (string * DataFrame Q) := [("UC", uc); ("UB", ub)].





Definition lookup : list (string * DataFrame Q) -> string
                    -> result (LookupResult Q) :=
  find_section PlainRe.compile.

(** [float('1e200')] *)
Definition huge : float := 0x1.4e718d7d7625ap+664%float.

End Sample.

(** ** Vocabulary of the statements *)

(** A non-empty run of digits. *)
Definition all_digits (s : string) : bool :=
  Str.forallb Str.is_digit s && negb (is_empty s).

(** The texts that [\d+(?:\.\d+)?] matches: an integer or a decimal. *)
Definition number_shape (s : string) : Prop :=
  all_digits s = true \/
  exists a b, s = (a ++ "." ++ b)%string /\
              all_digits a = true /\ all_digits b = true.

(** Digits and dots only. *)
Definition plain (s : string) : bool :=
  Str.forallb (fun c => Str.is_digit c || Ascii.eqb c Re.dot) s.

(** What the scanner holds in each state. *)
Definition scan_ok (st : Re.scan) : Prop :=
  match st with
  | Re.Out => True
  | Re.Int cur | Re.Dot cur => all_digits cur = true
  | Re.Frac cur =>
      exists a b, cur = (a ++ "." ++ b)%string /\
                  all_digits a = true /\ all_digits b = true
  end.

Definition starts_with_digit (s : string) : bool :=
  match s with
  | String c _ => Str.is_digit c
  | EmptyString => false
  end.

(** The number [n] cannot be made longer with the text [s] that follows
    it: no digit follows, and after an integer no dot and digit. *)
Definition maximal (n s : string) : Prop :=
  starts_with_digit s = false /\
  (all_digits n = true ->
   forall s', s = String Re.dot s' -> starts_with_digit s' = false).

(** The maximal numeric substrings of a text, in order: a character that
    is no digit is passed over, and at a digit the longest number is
    taken. *)
Inductive numbers_of : string -> list string -> Prop :=
| numbers_end : numbers_of EmptyString []
| numbers_skip (c : ascii) (s : string) (l : list string) :
    Str.is_digit c = false -> numbers_of s l -> numbers_of (String c s) l
| numbers_take (n s : string) (l : list string) :
    number_shape n -> maximal n s -> numbers_of s l ->
    numbers_of (n ++ s) (n :: l).

(** The number that the scanner is reading, and the text that follows
    it. *)
Definition scan_cur (st : Re.scan) : option string :=
  match st with
  | Re.Out => None
  | Re.Int cur | Re.Dot cur | Re.Frac cur => Some cur
  end.

Definition scan_text (st : Re.scan) (s : string) : string :=
  match st with
  | Re.Dot _ => String Re.dot s
  | _ => s
  end.

(** The keys of a row are those that the loader derives from some
    designation cell. *)
Definition keys_built {F : Type} (r : Row F) : Prop :=
  exists s, (lookup_key r, full_lookup_key r) = build_keys s.

Section Tiers.
Context {F : Type} `{PyFloat F}.




End Tiers.


(** The disambiguation in the words of the specification: what each tier
    asks of a record, and which record is returned. *)
Section Disambiguation.
Context {F : Type} `{PyFloat F}.







End Disambiguation.

(** The tables that the model speaks for.  A record keeps the sheet's
    cells apart from the three computed columns, as they are in a table
    whose sheet has distinct labels after the renaming, none of them the
    label of a computed column (under such a label pandas would overwrite
    the sheet's column, or select two columns at once): the labels of the
    table are distinct, none is computed, and every row has them all, in
    their order. *)
Definition computed_labels : list string :=
  ["lookup_key"; "full_lookup_key"; "extra_numeric"].

Fixpoint distinct (ks : list string) : bool :=
  match ks with
  | [] => true
  | k :: ks' => negb (mem k ks') && distinct ks'
  end.

Fixpoint same_labels (a b : list string) : bool :=
  match a, b with
  | [], [] => true
  | x :: a', y :: b' => String.eqb x y && same_labels a' b'
  | _, _ => false
  end.

Definition well_labelled {F : Type} (df : DataFrame F) : bool :=
  distinct (columns df ++ computed_labels)
  && List.forallb (fun r => same_labels (map fst (cells r)) (columns df))
                  (rows df).

Definition well_labelled_tables {F : Type}
  (tables : list (string * DataFrame F)) : bool :=
  List.forallb (fun kd => well_labelled (snd kd)) tables.

(** The occurrences of a character in a text. *)
Fixpoint count_char (x : ascii) (s : string) : nat :=
  match s with
  | EmptyString => 0
  | String c s' => (if Ascii.eqb c x then 1 else 0) + count_char x s'
  end.

(** ** The loader, once the sheet is read

    [_load_single_table] from the frame that [read_excel] returns to the
    table it hands over; the reading itself, and the search of the header
    row before it, are input and output and stay outside.  A frame is
    rectangular and its labels are distinct, as [read_excel] makes them.
    Labels are only ever compared; those of [col_map] that hold a
    character beyond Latin-1, the superscripts of the units, are written as
    the bytes of their UTF-8 form. *)

Record RawFrame (F : Type) : Type := {
  raw_columns : list string;
  raw_rows : list (list (value F))
}.
Arguments raw_columns {F} r.
Arguments raw_rows {F} r.

Definition col_map : list (string * string) :=
  [
    ("Unnamed: 0",
     "extra_col_0");
    ("Unnamed: 1",
     "section_designation_extra");
    ("Unnamed: 2",
     "extra_col_2");
    ("Mass per metre",
     "Mass per metre        kg/m");
    ("Depth of section",
     "Depth of section      h (mm)");
    ("Width of section",
     "Width of section      b (mm)");
    ("Thickness",
     "Web thickness         tw (mm)");
    ("Unnamed: 7",
     "Flange thickness      tf (mm)");
    ("Root radius",
     "Root radius           r (mm)");
    ("Depth between fillets",
     "Depth between fillets d (mm)");
    ("Ratios for local buckling",
     "cw / tw (Web slenderness ratio)");
    ("Unnamed: 11",
     "cf / tf (Flange slenderness ratio)");
    ("Dimensions for detailing",
     "C (End clearance) (mm)");
    ("Unnamed: 13",
     "N (Notch distance) (mm)");
    ("Unnamed: 14",
     "n (Notch distance) (mm)");
    ("Surface area",
     "Surface area (Per metre) (m²/m)");
    ("Unnamed: 16",
     "Surface area (Per tonne) (m²/t)");
    ("Second moment of area",
     "Second moment of area (Axis y-y) (Iy) (cm⁴)");
    ("Unnamed: 18",
     "Second moment of area (Axis z-z) (Iz) (cm⁴)");
    ("Radius of gyration",
     "Radius of gyration (Axis y-y) (ry) (cm)");
    ("Unnamed: 20",
     "Radius of gyration (Axis z-z) (rz) (cm)");
    ("Elastic modulus",
     "Elastic modulus (Axis y-y) (W_el,y) (cm³)");
    ("Unnamed: 22",
     "Elastic modulus (Axis z-z) (W_el,z) (cm³)");
    ("Plastic modulus",
     "Plastic modulus (Axis y-y) (W_pl,y) (cm³)");
    ("Unnamed: 24",
     "Plastic modulus (Axis z-z) (W_pl,z) (cm³)");
    ("Buckling parameter",
     "Buckling parameter (u)");
    ("Torsional index",
     "Torsional index (x)");
    ("Warping constant",
     "Warping constant (Iw) (dm⁶)");
    ("Torsional constant",
     "Torsional constant (IT) (cm⁴)");
    ("Area of section",
     "Area of section (A) (cm²)")
  ].

Definition designation_label : string := "Section designation".
Definition extra_label : string := "section_designation_extra".

(** [df.rename(columns=m)] on one label. *)
Fixpoint rename_label (m : list (string * string)) (c : string) : string :=
  match m with
  | [] => c
  | (k, v) :: m' => if String.eqb k c then v else rename_label m' c
  end.

(** The two renamings; [None] for [IndexError], when there is no first
    column. *)
Definition rename_columns (cols : list string) : option (list string) :=
  match cols with
  | [] => None
  | first_col :: _ =>
      Some (map (rename_label col_map)
                (map (rename_label [(first_col, designation_label)]) cols))
  end.

(** How often a label occurs among the labels of a frame. *)
Definition occurrences (k : string) (ks : list string) : nat :=
  List.length (filter (String.eqb k) ks).

(** The renaming can give the label of the designation to a second
    column (a sheet with a column [Section designation] that is not its
    first) and that of the extra column to two (a sheet with both
    [Unnamed: 1] and [section_designation_extra]): [false] then. *)
Definition single_labels (cols : list string) : bool :=
  (occurrences designation_label cols <=? 1)
  && (occurrences extra_label cols <=? 1).

Section Loader.
Context {F : Type} `{PyFloat F}.

Fixpoint set_cell (k : string) (v : value F) (s : list (string * value F))
  : list (string * value F) :=
  match s with
  | [] => []
  | (k', v') :: s' =>
      if String.eqb k k' then (k', v) :: s' else (k', v') :: set_cell k v s'
  end.

(** [df[k] = df[k].ffill()]: a null cell takes the last cell above it that
    is not null, if there is one; [last] is that cell. *)
Fixpoint ffill (k : string) (last : value F)
  (rs : list (list (string * value F))) : list (list (string * value F)) :=
  match rs with
  | [] => []
  | r :: rs' =>
      if notna (cell k r) then r :: ffill k (cell k r) rs'
      else (if notna last then set_cell k last r else r) :: ffill k last rs'
  end.

(** [df.dropna(subset=[k])] *)
Definition dropna (k : string) (rs : list (list (string * value F)))
  : list (list (string * value F)) :=
  filter (fun r => notna (cell k r)) rs.

(** [str(s) if pd.notna(s) else ''], as the argument of [build_keys]. *)
Definition cell_text (v : value F) : option string :=
  if notna v then Some (astype_str v) else None.

(** [extra_num]; the outer [None] is for [float] raising. *)
Definition extra_num (v : value F) : option (option F) :=
  if notna v then
    match Re.search_number (astype_str v) with
    | Some n =>
        match float_of_str n with
        | Some x => Some (Some x)
        | None => None
        end
    | None => Some None
    end
  else Some None.

(** The three computed columns of one row. *)
Definition load_row (has_extra : bool) (r : list (string * value F))
  : option (Row F) :=
  let keys := build_keys (cell_text (cell designation_label r)) in
  match (if has_extra then extra_num (cell extra_label r) else Some None) with
  | Some en =>
      Some {| cells := r;
              lookup_key := fst keys;
              full_lookup_key := snd keys;
              extra_numeric := en |}
  | None => None
  end.

Fixpoint load_rows (has_extra : bool) (rs : list (list (string * value F)))
  : option (list (Row F)) :=
  match rs with
  | [] => Some []
  | r :: rs' =>
      match load_row has_extra r with
      | Some row =>
          match load_rows has_extra rs' with
          | Some rows => Some (row :: rows)
          | None => None
          end
      | None => None
      end
  end.

(** [_load_single_table] from the frame on; [None] when it raises.  Under
    a label that two columns bear, [df[label]] is a frame and not a column:
    [apply] then hands whole columns to [build_keys] or to [extra_num],
    whose test [if pd.notna(s)] raises [ValueError] on a column.  (That
    needs a row to be left; with such labels and no row left pandas has
    nothing to apply the function to, a case that is not told apart
    here.) *)
Definition load_frame (raw : RawFrame F) : option (DataFrame F) :=
  match rename_columns (raw_columns raw) with
  | None => None
  | Some cols =>
      if single_labels cols then
        let rs := map (combine cols) (raw_rows raw) in
        let rs := ffill designation_label VNull rs in
        let rs := dropna designation_label rs in
        match load_rows (mem extra_label cols) rs with
        | Some rows => Some {| columns := cols; rows := rows |}
        | None => None
        end
      else None
  end.

End Loader.

(** ** Vocabulary of the loader *)

(** The renaming of these labels leaves one column of designations and at
    most one extra column. *)
Definition renamed_single (cols : list string) : bool :=
  match rename_columns cols with
  | Some cols' => single_labels cols'
  | None => true
  end.

Section LoaderVocabulary.
Context {F : Type} `{PyFloat F}.

(** Every row of the frame has a cell for every column. *)
Definition rectangular (raw : RawFrame F) : Prop :=
  Forall (fun vals => List.length vals = List.length (raw_columns raw))
         (raw_rows raw).

(** The rows from the first one on whose cell [k] is not null. *)
Fixpoint skip_null (k : string) (rs : list (list (string * value F)))
  : list (list (string * value F)) :=
  match rs with
  | [] => []
  | r :: rs' => if notna (cell k r) then rs else skip_null k rs'
  end.

(** The last cell of [vs] that is not null, and [last] when there is
    none. *)
Definition last_seen (last : value F) (vs : list (value F)) : value F :=
  fold_left (fun acc v => if notna v then v else acc) vs last.

(** A cell, or what fills it when it is null. *)
Definition filled (last v : value F) : value F :=
  if notna v then v else if notna last then last else v.

(** The first cell of the row is that of column [k]. *)
Definition headed (k : string) (r : list (string * value F)) : Prop :=
  match r with
  | (k', _) :: _ => k' = k
  | [] => False
  end.

End LoaderVocabulary.

(** A sheet of two headings: the first has a second row, which repeats
    only the extra column; a note stands above them. *)
Module SampleSheet.

Definition raw : RawFrame Q := {|
  raw_columns := ["Unnamed: 0"; "Unnamed: 1"; "Mass per metre"];
  raw_rows :=
    [ [VNull; VStr "note"; VNull];
      [VStr "356 x 406"; VStr "x 1299"; VNum (1299 # 1)%Q];
      [VNull; VStr "x 1202"; VNum (1202 # 1)%Q];
      [VStr "305 x 305 x 283"; VNull; VNum (283 # 1)%Q] ] |}.

End SampleSheet.

(** A run of separators, not empty, on one line. *)
Definition separator_run (s : string) : bool :=
  negb (is_empty s)
  && Str.forallb (fun c => Re.is_sep c && negb (Ascii.eqb c Re.newline)) s.

(** ** The callers: loading at start, the HTTP route, the interactive loop

    The file system and the reading of a sheet are parameters:
    [path_join] is [os.path.join], [path_exists] is [os.path.exists] and
    [read_sheet] is the part of [_load_single_table] that ends with the
    frame of [read_excel], [None] when it raises.  What is printed is kept
    as a list of events, one for each [print] and each prompt; the text of
    the exception that [load_all_tables] prints after a failure is left
    out of its event. *)

Definition uc_file : string :=
  "UC-secpropsdimsprops-EC3UKNA-UK-1-31-2026.xlsx".
Definition ub_file : string :=
  "UB-secpropsdimsprops-EC3UKNA-UK-1-31-2026.xlsx".

(** The outcome of the handler of the route [/section/{input_string}]:
    the value it returns, the [HTTPException] it raises, or an exception
    that it does not catch.  What the framework makes of the returned
    value, when it writes the response, is outside. *)
Inductive response (F : Type) : Type :=
| Returned (result : LookupResult F)
| HTTPException (status_code : nat) (detail : string)
| Unhandled (e : exn).
Arguments Returned {F} result.
Arguments HTTPException {F} status_code detail.
Arguments Unhandled {F} e.

Inductive printed (F : Type) : Type :=
| Loaded (section_type : string) (n : nat)
| LoadFailed (section_type file_path : string)
| Missing (file_path : string)
| Banner
| Prompt
| Found (section_type section_text : string)
| Rule
| Property (param : string) (v : value F)
| More (n : Z)
| Failure (msg : string).
Arguments Loaded {F} section_type n.
Arguments LoadFailed {F} section_type file_path.
Arguments Missing {F} file_path.
Arguments Banner {F}.
Arguments Prompt {F}.
Arguments Found {F} section_type section_text.
Arguments Rule {F}.
Arguments Property {F} param v.
Arguments More {F} n.
Arguments Failure {F} msg.

(** How the loop ends: [quit], the end of the input ([EOFError] of
    [input]), or an exception that is no [ValueError]. *)
Inductive ending : Type :=
| Quit
| EndOfInput
| Uncaught (e : exn).

Section Callers.
Context {F : Type} `{PyFloat F}.
Variable re_compile : string -> option (string -> bool).
Variable path_join : string -> string -> string.
Variable path_exists : string -> bool.
Variable read_sheet : string -> option (RawFrame F).

Definition load_single_table (path : string) : option (DataFrame F) :=
  match read_sheet path with
  | Some raw => load_frame raw
  | None => None
  end.

(** [self.tables[k] = d] *)
Fixpoint set_table (k : string) (d : DataFrame F)
  (tables : list (string * DataFrame F)) : list (string * DataFrame F) :=
  match tables with
  | [] => [(k, d)]
  | (k', d') :: tables' =>
      if String.eqb k k' then (k, d) :: tables'
      else (k', d') :: set_table k d tables'
  end.

(** One turn of the loop of [load_all_tables]: a file that is missing, or
    whose loading raises, leaves the tables as they are. *)
Definition load_table
  (state : list (string * DataFrame F) * list (printed F))
  (entry : string * string)
  : list (string * DataFrame F) * list (printed F) :=
  let (tables, out) := state in
  let (section_type, file_path) := entry in
  if path_exists file_path then
    match load_single_table file_path with
    | Some df =>
        (set_table section_type df tables,
         out ++ [Loaded section_type (List.length (rows df))])
    | None => (tables, out ++ [LoadFailed section_type file_path])
    end
  else (tables, out ++ [Missing file_path]).

(** The tables after the loading and what was printed. *)
Definition load_all_tables (tables : list (string * DataFrame F))
  (folder_path : string)
  : list (string * DataFrame F) * list (printed F) :=
  fold_left load_table
            [ ("UC", path_join folder_path uc_file);
              ("UB", path_join folder_path ub_file) ]
            (tables, []).

Definition lookup_section (input_string : string)
  : result (LookupResult F) :=
  find_section re_compile (fst (load_all_tables [] ".")) input_string.

(** [get_section] of [create_fastapi_app], on the tables loaded at the
    start. *)
Definition get_section (tables : list (string * DataFrame F))
  (input_string : string) : response F :=
  match find_section re_compile tables input_string with
  | Ok r => Returned r
  | Raise (ValueError msg) => HTTPException 404 msg
  | Raise e => Unhandled e
  end.

(** The loop of [interactive_test] on the lines that [input] returns. *)
Fixpoint interactive_loop (tables : list (string * DataFrame F))
  (lines : list string) : list (printed F) * ending :=
  match lines with
  | [] => ([Prompt], EndOfInput)
  | line :: lines' =>
      let user_input := Str.strip line in
      if String.eqb (Str.lower user_input) "quit" then ([Prompt], Quit)
      else
        match find_section re_compile tables user_input with
        | Ok r =>
            let props := properties r in
            let (out, e) := interactive_loop tables lines' in
            (Prompt :: Found (type r) (section r) :: Rule
               :: map (fun kv => Property (fst kv) (snd kv)) (firstn 12 props)
               ++ More (Z.of_nat (List.length props) - 12) :: out, e)
        | Raise (ValueError msg) =>
            let (out, e) := interactive_loop tables lines' in
            (Prompt :: Failure msg :: out, e)
        | Raise e => ([Prompt], Uncaught e)
        end
  end.

Definition interactive_test (lines : list string)
  : list (printed F) * ending :=
  let (tables, log) := load_all_tables [] "." in
  let (out, e) := interactive_loop tables lines in
  (log ++ Banner :: out, e).

End Callers.

(** The file of a table. *)
Definition table_file (section_type : string) : string :=
  if String.eqb section_type "UC" then uc_file else ub_file.

(** A file system without files, and one in which every path holds the
    sample sheet. *)
Module SampleFiles.

Definition join (folder file : string) : string :=
  (folder ++ "/" ++ file)%string.

Definition nothing (path : string) : bool := false.
Definition anything (path : string) : bool := true.

Definition read (path : string) : option (RawFrame Q) :=
  Some SampleSheet.raw.

End SampleFiles.

(** * Properties *)

(** ** The built-up H section *)

Local Open Scope Q_scope.

Lemma exact_h_section (D B T t : Q) :
  exists A Ixx,
    h_section_properties D B T t = Ok (A, Ixx) /\
    A == 2 * B * T + t * (D - 2 * T) /\
    Ixx == 2 * (B * T ^ 3 / 12 + B * T * (D / 2 - T / 2) ^ 2)
           + t * (D - 2 * T) ^ 3 / 12.
Proof.
  eexists; eexists; split; [reflexivity | ].
  cbn [fadd fsub fmul fdiv fneg f2 f12 Exact.arith].
  repeat rewrite Qred_correct.
  change (2 # 1) with 2; change (12 # 1) with 12.
  unfold Qpower, Qpower_positive; cbn [pow_pos].
  split; [ring | field].
Qed.

Section HSectionFacts.
Context {F : Type} `{Arith F}.

Lemma power_cases (x : F) (n : positive) :
  power x n = Raise OverflowError \/ exists y, power x n = Ok y.
Proof.
  unfold power. destruct (fpow x n) as [y | ]; [right; eauto | left; reflexivity].
Qed.

(** No other exception than that of a power leaves the computation. *)
Lemma h_section_cases (D B T t : F) :
  h_section_properties D B T t = Raise OverflowError
  \/ exists r, h_section_properties D B T t = Ok r.
Proof.
  unfold h_section_properties.
  destruct (power_cases T 3) as [-> | [a ->]]; [left; reflexivity | ].
  cbn [bind].
  destruct (power_cases (D - f2 * T)%F 3) as [-> | [b ->]];
    [left; reflexivity | ].
  cbn [bind].
  destruct (power_cases (D / f2 - T / f2)%F 2) as [-> | [c ->]];
    [left; reflexivity | ].
  cbn [bind].
  destruct (power_cases (- (D / f2 - T / f2))%F 2) as [-> | [d ->]];
    [left; reflexivity | ].
  right. eexists. reflexivity.
Qed.

(** It returns exactly when the four powers do. *)
Lemma h_section_returns_iff (D B T t : F) :
  (exists r, h_section_properties D B T t = Ok r) <->
  (fpow T 3 <> None /\ fpow (D - f2 * T)%F 3 <> None /\
   fpow (D / f2 - T / f2)%F 2 <> None /\
   fpow (- (D / f2 - T / f2))%F 2 <> None).
Proof.
  unfold h_section_properties, power.
  destruct (fpow T 3) as [a | ]; cbn [bind].
  2:{ split; [intros [r Hr]; discriminate | intros [Hn _]; congruence]. }
  destruct (fpow (D - f2 * T)%F 3) as [b | ]; cbn [bind].
  2:{ split; [intros [r Hr]; discriminate | intros (_ & Hn & _); congruence]. }
  destruct (fpow (D / f2 - T / f2)%F 2) as [c | ]; cbn [bind].
  2:{ split; [intros [r Hr]; discriminate
             | intros (_ & _ & Hn & _); congruence]. }
  destruct (fpow (- (D / f2 - T / f2))%F 2) as [d | ]; cbn [bind].
  2:{ split; [intros [r Hr]; discriminate
             | intros (_ & _ & _ & Hn); congruence]. }
  split; [intros _; repeat split; discriminate | intros _; eexists; reflexivity].
Qed.

End HSectionFacts.



(** C9, counterexample.  On binary64 floats the inputs
    [(float('1e200'), 1.0, 1.0, 1.0)] make [(D - 2.0 * T) ** 3] overflow:
    the computation raises [OverflowError] and returns nothing. *)
Lemma h_section_overflow :
  h_section_properties Sample.huge 1%float 1%float 1%float
  = Raise OverflowError.
Proof. vm_compute. reflexivity. Qed.

(** C9, amended.  In exact arithmetic the computation is total: for every
    four inputs, degenerate ones included, it raises nothing and returns
    the values of the formula; nothing guards [D <= 2T], where the web term
    [t(D - 2T)^3/12] can be negative.  On binary64 floats it returns
    exactly when none of its four powers overflows, and raises
    [OverflowError] otherwise. *)
Theorem h_section_total :
  (forall D B T t : Q, exists A Ixx,
      h_section_properties D B T t = Ok (A, Ixx) /\
      A == 2 * B * T + t * (D - 2 * T) /\
      Ixx == 2 * (B * T ^ 3 / 12 + B * T * (D / 2 - T / 2) ^ 2)
             + t * (D - 2 * T) ^ 3 / 12)
  /\ (exists D B T t : Q,
        D <= 2 * T /\ t * (D - 2 * T) ^ 3 / 12 < 0 /\
        exists r, h_section_properties D B T t = Ok r)
  /\ (forall D B T t : float,
        h_section_properties D B T t = Raise OverflowError
        \/ exists r, h_section_properties D B T t = Ok r)
  /\ (forall D B T t : float,
        (exists r, h_section_properties D B T t = Ok r) <->
        (fpow T 3 <> None /\ fpow (D - f2 * T)%F 3 <> None /\
         fpow (D / f2 - T / f2)%F 2 <> None /\
         fpow (- (D / f2 - T / f2))%F 2 <> None)).
Proof.
  split; [exact exact_h_section | ].
  split.
  - exists 30, 150, 20, 10. split; [ | split].
    + vm_compute. discriminate.
    + vm_compute. reflexivity.
    + eexists. vm_compute. reflexivity.
  - split; intros D B T t;
      [apply h_section_cases | apply h_section_returns_iff].
Qed.

(** ** Key derivation *)

Local Close Scope Q_scope.

Lemma lower_app (a b : string) :
  Str.lower (a ++ b) = (Str.lower a ++ Str.lower b)%string.
Proof. induction a as [ | c a IH]; simpl; [reflexivity | now rewrite IH]. Qed.

Lemma lower_char_plain (c : ascii) :
  Str.is_digit c || Ascii.eqb c Re.dot = true -> Str.lower_char c = c.
Proof.
  destruct c as [[] [] [] [] [] [] [] []]; intros Hc;
    try reflexivity; discriminate Hc.
Qed.

Lemma lower_plain (s : string) : plain s = true -> Str.lower s = s.
Proof.
  induction s as [ | c s IH]; simpl; [reflexivity | ].
  intros Hs. apply andb_prop in Hs as [Hc Hs].
  rewrite (lower_char_plain c Hc), (IH Hs). reflexivity.
Qed.

Lemma forallb_app (p : ascii -> bool) (a b : string) :
  Str.forallb p (a ++ b) = Str.forallb p a && Str.forallb p b.
Proof.
  induction a as [ | c a IH]; simpl; [reflexivity | ].
  rewrite IH. now rewrite andb_assoc.
Qed.

Lemma forallb_weaken (p q : ascii -> bool) (s : string) :
  (forall c, p c = true -> q c = true) ->
  Str.forallb p s = true -> Str.forallb q s = true.
Proof.
  intros Hpq. induction s as [ | c s IH]; simpl; [reflexivity | ].
  intros Hs. apply andb_prop in Hs as [Hc Hs].
  now rewrite (Hpq c Hc), (IH Hs).
Qed.

Lemma all_digits_plain (s : string) : all_digits s = true -> plain s = true.
Proof.
  unfold all_digits, plain. intros Hs. apply andb_prop in Hs as [Hs _].
  revert Hs. apply forallb_weaken. intros c ->. reflexivity.
Qed.

Lemma number_shape_plain (s : string) : number_shape s -> plain s = true.
Proof.
  intros [Hs | (a & b & -> & Ha & Hb)]; [now apply all_digits_plain | ].
  unfold plain. rewrite !forallb_app.
  apply all_digits_plain in Ha, Hb. unfold plain in Ha, Hb.
  now rewrite Ha, Hb.
Qed.

Lemma all_digits_nonempty (s : string) :
  all_digits s = true -> s <> EmptyString.
Proof. intros Hs ->. discriminate Hs. Qed.

Lemma number_shape_nonempty (s : string) :
  number_shape s -> s <> EmptyString.
Proof.
  intros [Hs | (a & b & -> & Ha & _)]; [now apply all_digits_nonempty | ].
  destruct a; [discriminate Ha | discriminate].
Qed.

Lemma all_digits_snoc (s : string) (c : ascii) :
  Str.is_digit c = true ->
  (s = EmptyString \/ all_digits s = true) ->
  all_digits (Re.snoc s c) = true.
Proof.
  intros Hc Hs. unfold all_digits, Re.snoc. rewrite forallb_app. simpl.
  rewrite Hc. destruct Hs as [-> | Hs]; [reflexivity | ].
  apply andb_prop in Hs as [Hs _]. rewrite Hs.
  destruct s; reflexivity.
Qed.

Lemma app_snoc (a b : string) (c : ascii) :
  Re.snoc (a ++ b) c = (a ++ Re.snoc b c)%string.
Proof.
  unfold Re.snoc. induction a as [ | x a IH]; simpl; [reflexivity | ].
  now rewrite IH.
Qed.

Lemma snoc_snoc (s : string) (d c : ascii) :
  Re.snoc (Re.snoc s d) c = (s ++ String d (String c EmptyString))%string.
Proof.
  unfold Re.snoc. induction s as [ | x s IH]; simpl; [reflexivity | ].
  now rewrite IH.
Qed.

Lemma findall_go_shape (s : string) :
  forall st, scan_ok st -> Forall number_shape (Re.findall_go st s).
Proof.
  induction s as [ | c s IH]; intros st Hst.
  - destruct st as [ | cur | cur | cur]; simpl in *;
      [constructor | | | ]; (constructor; [ | constructor]);
      [left | left | right]; assumption.
  - simpl. destruct (Str.is_digit c) eqn:Hc.
    + destruct st as [ | cur | cur | cur]; apply IH; simpl in *.
      * now apply (all_digits_snoc EmptyString c Hc); left.
      * apply all_digits_snoc; auto.
      * exists cur, (String c EmptyString). split; [ | split].
        -- apply snoc_snoc.
        -- exact Hst.
        -- now apply (all_digits_snoc EmptyString c Hc); left.
      * destruct Hst as (a & b & -> & Ha & Hb).
        exists a, (Re.snoc b c). split; [ | split].
        -- rewrite app_snoc. reflexivity.
        -- exact Ha.
        -- apply all_digits_snoc; auto.
    + destruct st as [ | cur | cur | cur]; simpl in *.
      * now apply IH.
      * destruct (Ascii.eqb c Re.dot); [now apply IH | ].
        constructor; [now left | now apply IH].
      * constructor; [now left | now apply IH].
      * constructor; [now right | now apply IH].
Qed.

Lemma findall_numbers_shape (s : string) :
  Forall number_shape (Re.findall_numbers s).
Proof. apply findall_go_shape. exact I. Qed.

Lemma append_assoc_s (a b c : string) :
  ((a ++ b) ++ c)%string = (a ++ b ++ c)%string.
Proof. induction a as [ | x a IH]; simpl; [reflexivity | now rewrite IH]. Qed.

Lemma append_empty_r (a : string) : (a ++ "")%string = a.
Proof. induction a as [ | x a IH]; simpl; [reflexivity | now rewrite IH]. Qed.

Lemma snoc_app (s d : string) (c : ascii) :
  (Re.snoc s c ++ d)%string = (s ++ String c d)%string.
Proof.
  unfold Re.snoc. induction s as [ | x s IH]; simpl; [reflexivity | ].
  now rewrite IH.
Qed.

Lemma decimal_not_all_digits (a b : string) :
  all_digits (a ++ "." ++ b) = false.
Proof.
  unfold all_digits. rewrite forallb_app.
  change ("." ++ b)%string with (String "." b). cbn [Str.forallb].
  change (Str.is_digit ".") with false.
  now rewrite andb_false_r.
Qed.

Lemma scan_ok_head (st : Re.scan) (s x : string) (l : list string) :
  scan_ok st -> Re.findall_go st s = x :: l -> number_shape x.
Proof.
  intros Hst E. pose proof (findall_go_shape s st Hst) as Hall.
  rewrite E in Hall. now inversion Hall.
Qed.

(** The scanner yields the maximal numeric substrings, in order. *)
Lemma findall_go_numbers (s : string) :
  forall st, scan_ok st ->
    match scan_cur st with
    | None => numbers_of s (Re.findall_go st s)
    | Some cur =>
        exists d s' l,
          scan_text st s = (d ++ s')%string /\
          Re.findall_go st s = (cur ++ d)%string :: l /\
          maximal (cur ++ d) s' /\ numbers_of s' l
    end.
Proof.
  induction s as [ | c s IH]; intros st Hst.
  - destruct st as [ | cur | cur | cur]; cbn [scan_cur scan_text Re.findall_go].
    + constructor.
    + exists EmptyString, EmptyString, []. rewrite !append_empty_r.
      repeat split; try constructor. intros _ s' E. discriminate E.
    + exists EmptyString, (String Re.dot EmptyString), [].
      rewrite !append_empty_r. repeat split.
      * intros _ s' E. injection E as <-. reflexivity.
      * apply numbers_skip; [reflexivity | constructor].
    + exists EmptyString, EmptyString, []. rewrite !append_empty_r.
      repeat split; try constructor. intros _ s' E. discriminate E.
  - destruct (Str.is_digit c) eqn:Hc.
    + destruct st as [ | cur | cur | cur];
        cbn [scan_cur scan_text Re.findall_go]; rewrite Hc.
      * assert (Hok : scan_ok (Re.Int (String c EmptyString)))
          by (now apply (all_digits_snoc EmptyString c Hc); left).
        destruct (IH _ Hok) as (d & s' & l & Hs & Hgo & Hmax & Hl).
        cbn [scan_text] in Hs. rewrite Hgo, Hs.
        change (String c (d ++ s')) with ((String c EmptyString ++ d) ++ s')%string.
        apply numbers_take; [ | exact Hmax | exact Hl].
        exact (scan_ok_head _ _ _ _ Hok Hgo).
      * assert (Hok : scan_ok (Re.Int (Re.snoc cur c)))
          by (apply all_digits_snoc; auto).
        destruct (IH _ Hok) as (d & s' & l & Hs & Hgo & Hmax & Hl).
        cbn [scan_text] in Hs. rewrite snoc_app in Hgo, Hmax.
        exists (String c d), s', l. subst s.
        split; [reflexivity | ]. split; [exact Hgo | ].
        split; [exact Hmax | exact Hl].
      * assert (Hok : scan_ok (Re.Frac (Re.snoc (Re.snoc cur Re.dot) c))).
        { exists cur, (String c EmptyString). split; [apply snoc_snoc | ].
          split; [exact Hst | ].
          now apply (all_digits_snoc EmptyString c Hc); left. }
        destruct (IH _ Hok) as (d & s' & l & Hs & Hgo & Hmax & Hl).
        cbn [scan_text] in Hs. rewrite !snoc_app in Hgo, Hmax.
        exists (String Re.dot (String c d)), s', l. subst s.
        split; [reflexivity | ]. split; [exact Hgo | ].
        split; [exact Hmax | exact Hl].
      * assert (Hok : scan_ok (Re.Frac (Re.snoc cur c))).
        { destruct Hst as (a & b & -> & Ha & Hb).
          exists a, (Re.snoc b c). split; [ | split].
          - rewrite app_snoc. reflexivity.
          - exact Ha.
          - apply all_digits_snoc; auto. }
        destruct (IH _ Hok) as (d & s' & l & Hs & Hgo & Hmax & Hl).
        cbn [scan_text] in Hs. rewrite snoc_app in Hgo, Hmax.
        exists (String c d), s', l. subst s.
        split; [reflexivity | ]. split; [exact Hgo | ].
        split; [exact Hmax | exact Hl].
    + pose proof (IH Re.Out I) as Hout. cbn [scan_cur] in Hout.
      destruct st as [ | cur | cur | cur];
        cbn [scan_cur scan_text Re.findall_go]; rewrite Hc.
      * now apply numbers_skip.
      * destruct (Ascii.eqb c Re.dot) eqn:Hdot.
        -- apply Ascii.eqb_eq in Hdot. subst c.
           destruct (IH (Re.Dot cur) Hst) as (d & s' & l & Hs & Hgo & Hmax & Hl).
           cbn [scan_text] in Hs. exists d, s', l.
           split; [exact Hs | ]. split; [exact Hgo | ].
           split; [exact Hmax | exact Hl].
        -- exists EmptyString, (String c s), (Re.findall_go Re.Out s).
           rewrite !append_empty_r. repeat split.
           ++ exact Hc.
           ++ intros _ s' E. injection E as -> _.
              rewrite Ascii.eqb_refl in Hdot. discriminate Hdot.
           ++ now apply numbers_skip.
      * exists EmptyString, (String Re.dot (String c s)),
               (Re.findall_go Re.Out s).
        rewrite !append_empty_r. repeat split.
        -- intros _ s' E. injection E as <-. exact Hc.
        -- apply numbers_skip; [reflexivity | now apply numbers_skip].
      * exists EmptyString, (String c s), (Re.findall_go Re.Out s).
        rewrite !append_empty_r. repeat split.
        -- exact Hc.
        -- destruct Hst as (a & b & -> & _ & _).
           rewrite decimal_not_all_digits. discriminate.
        -- now apply numbers_skip.
Qed.

Lemma findall_numbers_maximal (s : string) :
  numbers_of s (Re.findall_numbers s).
Proof. exact (findall_go_numbers s Re.Out I). Qed.

Lemma lower_number (n rest : string) :
  number_shape n ->
  Str.lower (n ++ rest) = (n ++ Str.lower rest)%string.
Proof.
  intros Hn. rewrite lower_app, (lower_plain n); [reflexivity | ].
  now apply number_shape_plain.
Qed.

Lemma lower_number_end (n : string) : number_shape n -> Str.lower n = n.
Proof. intros Hn. apply lower_plain. now apply number_shape_plain. Qed.

Lemma app_nonempty (a b : string) :
  a <> EmptyString -> (a ++ b)%string <> EmptyString.
Proof. destruct a; [congruence | discriminate]. Qed.

(** C6.  [build_keys] is a total function of the designation text.  With
    [nums] the maximal numeric substrings of the text, in order, each an
    integer or a decimal, the first key is [nums[0] x nums[1]] and is empty exactly
    when there are fewer than two numbers, the second key is
    [nums[0] x nums[1] x nums[2]] and is empty exactly when there are fewer
    than three; both keys are lowercase. *)
Theorem build_keys_total : forall txt : string,
  let nums := Re.findall_numbers txt in
  let key2 := fst (build_keys (Some txt)) in
  let key3 := snd (build_keys (Some txt)) in
  numbers_of txt nums /\
  Forall number_shape nums /\
  key2 = match nums with
         | n0 :: n1 :: _ => (n0 ++ "x" ++ n1)%string
         | _ => EmptyString
         end /\
  key3 = match nums with
         | n0 :: n1 :: n2 :: _ => (n0 ++ "x" ++ n1 ++ "x" ++ n2)%string
         | _ => EmptyString
         end /\
  (key2 = EmptyString <-> List.length nums < 2) /\
  (key3 = EmptyString <-> List.length nums < 3) /\
  Str.lower key2 = key2 /\ Str.lower key3 = key3.
Proof.
  intros txt nums key2 key3.
  assert (Hshape : Forall number_shape nums) by apply findall_numbers_shape.
  split; [apply findall_numbers_maximal | ].
  split; [exact Hshape | ].
  subst key2 key3. unfold build_keys. fold nums. cbn [fst snd].
  destruct nums as [ | n0 [ | n1 [ | n2 rest]]].
  - cbn. repeat split; auto; lia.
  - cbn. repeat split; auto; lia.
  - inversion Hshape as [ | ? ? H0 Hs]; subst.
    inversion Hs as [ | ? ? H1 _]; subst.
    assert (E2 : Str.lower (n0 ++ "x" ++ n1) = (n0 ++ "x" ++ n1)%string).
    { rewrite (lower_number n0 _ H0). f_equal.
      change ("x" ++ n1)%string with (String "x" n1). cbn [Str.lower].
      now rewrite (lower_number_end n1 H1). }
    rewrite E2. cbn [List.length Str.lower].
    repeat split; auto; try lia.
    intros E. exfalso. revert E.
    apply app_nonempty. now apply number_shape_nonempty.
  - inversion Hshape as [ | ? ? H0 Hs]; subst.
    inversion Hs as [ | ? ? H1 Hs']; subst.
    inversion Hs' as [ | ? ? H2 _]; subst.
    assert (E2 : Str.lower (n0 ++ "x" ++ n1) = (n0 ++ "x" ++ n1)%string).
    { rewrite (lower_number n0 _ H0). f_equal.
      change ("x" ++ n1)%string with (String "x" n1). cbn [Str.lower].
      now rewrite (lower_number_end n1 H1). }
    assert (E3 : Str.lower (n0 ++ "x" ++ n1 ++ "x" ++ n2)
                 = (n0 ++ "x" ++ n1 ++ "x" ++ n2)%string).
    { rewrite (lower_number n0 _ H0). f_equal.
      change ("x" ++ n1 ++ "x" ++ n2)%string
        with (String "x" (n1 ++ "x" ++ n2)).
      cbn [Str.lower]. rewrite (lower_number n1 _ H1).
      change ("x" ++ n2)%string with (String "x" n2). cbn [Str.lower].
      now rewrite (lower_number_end n2 H2). }
    rewrite E2, E3. cbn [List.length].
    repeat split; auto; try lia;
      intros E; exfalso; revert E;
      apply app_nonempty; now apply number_shape_nonempty.
Qed.

(** ** Requests *)

Section LookupFacts.
Context {F : Type} `{PyFloat F}.
Variable re_compile : string -> option (string -> bool).

Lemma find_section_h (tables : list (string * DataFrame F))
  (input g : string) :
  Re.match_h (Str.strip (Str.lower input)) = Some g ->
  find_section re_compile tables input = h_request (Str.strip g).
Proof. intros Hm. unfold find_section. now rewrite Hm. Qed.

Lemma find_section_uc_ub (tables : list (string * DataFrame F))
  (input ty g : string) :
  Re.match_h (Str.strip (Str.lower input)) = None ->
  Re.match_uc_ub (Str.strip (Str.lower input)) = Some (ty, g) ->
  find_section re_compile tables input
  = uc_ub_request re_compile tables (upper ty) (Str.strip g).
Proof. intros Hh Hm. unfold find_section. now rewrite Hh, Hm. Qed.

Lemma h_request_short (designation : string) :
  List.length (Re.split designation) < 4 ->
  h_request (F:=F) designation = Raise err_h_dimensions.
Proof.
  intros Hlen. unfold h_request.
  apply Nat.ltb_lt in Hlen. now rewrite Hlen.
Qed.

Lemma h_request_parsed (designation p0 p1 p2 p3 : string)
  (rest : list string) (D B T t : F) :
  Re.split designation = p0 :: p1 :: p2 :: p3 :: rest ->
  float_of_str p0 = Some D -> float_of_str p1 = Some B ->
  float_of_str p2 = Some T -> float_of_str p3 = Some t ->
  h_request designation
  = (ai <- h_section_properties D B T t ;;
     Ok {| type := "H-BuiltUp";
           section := ("h " ++ designation)%string;
           properties :=
             [ ("Area (A) (mm^2)", VNum (fst ai));
               ("Second moment of area (Ixx) (mm^4)", VNum (snd ai)) ] |}).
Proof.
  intros Hs H0 H1 H2 H3. unfold h_request. rewrite Hs.
  cbn [List.length Nat.ltb Nat.leb firstn map].
  now rewrite H0, H1, H2, H3.
Qed.

Lemma h_request_unparsed (designation : string) :
  4 <= List.length (Re.split designation) ->
  Exists (fun p => float_of_str p = None) (firstn 4 (Re.split designation)) ->
  h_request (F:=F) designation = Raise err_h_numbers.
Proof.
  intros Hlen Hex. unfold h_request.
  destruct (Re.split designation) as [ | p0 [ | p1 [ | p2 [ | p3 rest]]]];
    cbn [List.length] in Hlen; try lia.
  cbn [List.length Nat.ltb Nat.leb firstn map] in *.
  destruct (float_of_str p0) as [D | ] eqn:E0; [ | reflexivity].
  destruct (float_of_str p1) as [B | ] eqn:E1; [ | reflexivity].
  destruct (float_of_str p2) as [T | ] eqn:E2; [ | reflexivity].
  destruct (float_of_str p3) as [t | ] eqn:E3; [ | reflexivity].
  exfalso.
  repeat match goal with
         | Hx : Exists _ (_ :: _) |- _ =>
             inversion Hx; subst; clear Hx; try congruence
         | Hx : Exists _ [] |- _ => inversion Hx
         end.
Qed.

Lemma h_request_all_parsed (designation : string) :
  4 <= List.length (Re.split designation) ->
  Forall (fun p => float_of_str p <> None) (firstn 4 (Re.split designation)) ->
  exists p0 p1 p2 p3 rest D B T t,
    Re.split designation = p0 :: p1 :: p2 :: p3 :: rest /\
    float_of_str p0 = Some D /\ float_of_str p1 = Some B /\
    float_of_str p2 = Some T /\ float_of_str p3 = Some t.
Proof.
  intros Hlen Hall.
  destruct (Re.split designation) as [ | p0 [ | p1 [ | p2 [ | p3 rest]]]];
    cbn [List.length] in Hlen; try lia.
  cbn [firstn] in Hall.
  inversion Hall as [ | ? ? H0 Hall1]; subst.
  inversion Hall1 as [ | ? ? H1 Hall2]; subst.
  inversion Hall2 as [ | ? ? H2 Hall3]; subst.
  inversion Hall3 as [ | ? ? H3 _]; subst.
  destruct (float_of_str p0) as [D | ] eqn:E0; [ | congruence].
  destruct (float_of_str p1) as [B | ] eqn:E1; [ | congruence].
  destruct (float_of_str p2) as [T | ] eqn:E2; [ | congruence].
  destruct (float_of_str p3) as [t | ] eqn:E3; [ | congruence].
  exists p0, p1, p2, p3, rest, D, B, T, t. repeat split; assumption.
Qed.

Lemma parsed_or_not (ps : list string) :
  Exists (fun p => float_of_str (F:=F) p = None) ps
  \/ Forall (fun p => float_of_str (F:=F) p <> None) ps.
Proof.
  induction ps as [ | p ps IH]; [right; constructor | ].
  destruct (float_of_str p) eqn:E; [ | left; now constructor].
  destruct IH as [IH | IH]; [left; now constructor 2 | right].
  constructor; [congruence | assumption].
Qed.

End LookupFacts.

(** C7.  On an input recognized as a built-up H request, [find_section]
    raises the insufficient-dimensions [ValueError] when the remainder
    splits into fewer than four tokens, the non-numeric [ValueError] when
    there are four and one of the first four is not read by [float], and
    goes on to the H computation otherwise; it raises a [ValueError] in
    these two cases only. *)
Theorem h_request_parse_errors {F : Type} `{PyFloat F}
  (re_compile : string -> option (string -> bool))
  (tables : list (string * DataFrame F)) (input g : string) :
  Re.match_h (Str.strip (Str.lower input)) = Some g ->
  let parts := Re.split (Str.strip g) in
  let r := find_section re_compile tables input in
  (List.length parts < 4 -> r = Raise err_h_dimensions) /\
  (4 <= List.length parts ->
   Exists (fun p => float_of_str p = None) (firstn 4 parts) ->
   r = Raise err_h_numbers) /\
  (4 <= List.length parts ->
   Forall (fun p => float_of_str p <> None) (firstn 4 parts) ->
   exists p0 p1 p2 p3 rest D B T t,
     parts = p0 :: p1 :: p2 :: p3 :: rest /\
     float_of_str p0 = Some D /\ float_of_str p1 = Some B /\
     float_of_str p2 = Some T /\ float_of_str p3 = Some t /\
     r = (ai <- h_section_properties D B T t ;;
          Ok {| type := "H-BuiltUp";
                section := ("h " ++ Str.strip g)%string;
                properties :=
                  [ ("Area (A) (mm^2)", VNum (fst ai));
                    ("Second moment of area (Ixx) (mm^4)",
                     VNum (snd ai)) ] |})) /\
  ((exists msg, r = Raise (ValueError msg)) <->
   (List.length parts < 4 \/
    Exists (fun p => float_of_str p = None) (firstn 4 parts))).
Proof.
  intros Hm parts r.
  assert (Er : r = h_request (Str.strip g))
    by (subst r; now apply find_section_h).
  assert (Hshort : List.length parts < 4 -> r = Raise err_h_dimensions).
  { intros Hlen. rewrite Er. now apply h_request_short. }
  assert (Hbad : 4 <= List.length parts ->
                 Exists (fun p => float_of_str p = None) (firstn 4 parts) ->
                 r = Raise err_h_numbers).
  { intros Hlen Hex. rewrite Er. now apply h_request_unparsed. }
  assert (Hgood : 4 <= List.length parts ->
     Forall (fun p => float_of_str p <> None) (firstn 4 parts) ->
     exists p0 p1 p2 p3 rest D B T t,
       parts = p0 :: p1 :: p2 :: p3 :: rest /\
       float_of_str p0 = Some D /\ float_of_str p1 = Some B /\
       float_of_str p2 = Some T /\ float_of_str p3 = Some t /\
       r = (ai <- h_section_properties D B T t ;;
            Ok {| type := "H-BuiltUp";
                  section := ("h " ++ Str.strip g)%string;
                  properties :=
                    [ ("Area (A) (mm^2)", VNum (fst ai));
                      ("Second moment of area (Ixx) (mm^4)",
                       VNum (snd ai)) ] |})).
  { intros Hlen Hall.
    destruct (h_request_all_parsed (Str.strip g) Hlen Hall)
      as (p0 & p1 & p2 & p3 & rest & D & B & T & t & Hs & H0 & H1 & H2 & H3).
    exists p0, p1, p2, p3, rest, D, B, T, t.
    repeat (split; [assumption | ]).
    rewrite Er. now apply (h_request_parsed _ p0 p1 p2 p3 rest). }
  repeat (split; [assumption | ]).
  split.
  - intros [msg Hmsg].
    destruct (Nat.lt_ge_cases (List.length parts) 4) as [Hlen | Hlen];
      [now left | ].
    destruct (parsed_or_not (F:=F) (firstn 4 parts)) as [Hex | Hall];
      [now right | exfalso].
    destruct (Hgood Hlen Hall)
      as (p0 & p1 & p2 & p3 & rest & D & B & T & t & _ & _ & _ & _ & _ & Hr).
    rewrite Hmsg in Hr.
    destruct (h_section_cases D B T t) as [E | [ai E]];
      rewrite E in Hr; discriminate Hr.
  - intros [Hlen | Hex].
    + rewrite (Hshort Hlen). eexists. reflexivity.
    + destruct (Nat.lt_ge_cases (List.length parts) 4) as [Hlen | Hlen].
      * rewrite (Hshort Hlen). eexists. reflexivity.
      * rewrite (Hbad Hlen Hex). eexists. reflexivity.
Qed.

Lemma h_request_parse_errors_witness :
  Re.match_h (Str.strip (Str.lower "H 300x150x20")) = Some "300x150x20" /\
  Sample.lookup [] "H 300x150x20" = Raise err_h_dimensions /\
  Sample.lookup [] "h 300x150x20xa" = Raise err_h_numbers.
Proof.
  split; [reflexivity | split].
  - apply (h_request_parse_errors PlainRe.compile [] "H 300x150x20"
             "300x150x20" eq_refl).
    vm_compute. lia.
  - apply (h_request_parse_errors PlainRe.compile [] "h 300x150x20xa"
             "300x150x20xa" eq_refl).
    + vm_compute. lia.
    + vm_compute. do 3 constructor 2. constructor. reflexivity.
Defined.

(** C10.  When a built-up H request succeeds, the result has type
    [H-BuiltUp], its section is [h] and a blank followed by the remainder
    of the lowercased and trimmed input, and its properties are the two
    entries of area and second moment, computed from the first four tokens
    alone; the tables are not read: whatever tables are loaded, none
    included, the same result is returned. *)
Theorem h_request_result {F : Type} `{PyFloat F}
  (re_compile : string -> option (string -> bool))
  (tables : list (string * DataFrame F)) (input g : string)
  (res : LookupResult F) :
  Re.match_h (Str.strip (Str.lower input)) = Some g ->
  find_section re_compile tables input = Ok res ->
  type res = "H-BuiltUp" /\
  section res = ("h " ++ Str.strip g)%string /\
  (exists p0 p1 p2 p3 rest D B T t A Ixx,
     Re.split (Str.strip g) = p0 :: p1 :: p2 :: p3 :: rest /\
     float_of_str p0 = Some D /\ float_of_str p1 = Some B /\
     float_of_str p2 = Some T /\ float_of_str p3 = Some t /\
     h_section_properties D B T t = Ok (A, Ixx) /\
     properties res =
       [ ("Area (A) (mm^2)", VNum A);
         ("Second moment of area (Ixx) (mm^4)", VNum Ixx) ]) /\
  (forall re_compile' tables',
     find_section re_compile' tables' input = Ok res) /\
  find_section re_compile [] input = Ok res.
Proof.
  intros Hm Hres.
  assert (Hany : forall rc tb, find_section rc tb input = Ok res).
  { intros rc tb. rewrite (find_section_h rc tb input g Hm).
    now rewrite <- (find_section_h re_compile tables input g Hm). }
  rewrite (find_section_h re_compile tables input g Hm) in Hres.
  destruct (Nat.lt_ge_cases (List.length (Re.split (Str.strip g))) 4)
    as [Hlen | Hlen].
  { rewrite (h_request_short _ Hlen) in Hres. discriminate Hres. }
  destruct (parsed_or_not (F:=F) (firstn 4 (Re.split (Str.strip g))))
    as [Hex | Hall].
  { rewrite (h_request_unparsed _ Hlen Hex) in Hres. discriminate Hres. }
  destruct (h_request_all_parsed _ Hlen Hall)
    as (p0 & p1 & p2 & p3 & rest & D & B & T & t & Hs & H0 & H1 & H2 & H3).
  rewrite (h_request_parsed _ p0 p1 p2 p3 rest D B T t Hs H0 H1 H2 H3)
    in Hres.
  destruct (h_section_properties D B T t) as [[A Ixx] | e] eqn:Eh;
    cbn [bind] in Hres; [ | discriminate Hres].
  injection Hres as <-. cbn [type section properties fst snd].
  split; [reflexivity | ]. split; [reflexivity | ].
  split.
  - exists p0, p1, p2, p3, rest, D, B, T, t, A, Ixx.
    repeat (split; [assumption | ]). reflexivity.
  - split; [exact Hany | apply Hany].
Qed.

Lemma h_request_result_witness :
  exists res,
    Sample.lookup Sample.tables "H, 300x150x20x10x999" = Ok res /\
    Sample.lookup [] "H, 300x150x20x10x999" = Ok res /\
    type res = "H-BuiltUp" /\
    section res = "h 300x150x20x10x999".
Proof.
  eexists.
  assert (Hrun : Sample.lookup Sample.tables "H, 300x150x20x10x999"
                 = Ok {| type := "H-BuiltUp";
                         section := "h 300x150x20x10x999";
                         properties :=
                           [ ("Area (A) (mm^2)", VNum (8600 # 1)%Q);
                             ("Second moment of area (Ixx) (mm^4)",
                              VNum (397340000 # 3)%Q) ] |})
    by (vm_compute; reflexivity).
  destruct (h_request_result PlainRe.compile Sample.tables
              "H, 300x150x20x10x999" "300x150x20x10x999" _ eq_refl Hrun)
    as (Ht & Hsec & _ & _ & Hnone).
  split; [exact Hrun | ]. split; [exact Hnone | ].
  split; [exact Ht | exact Hsec].
Defined.

(** ** Keys of the loader and keys of the query *)

Lemma remove_if_app (p : ascii -> bool) (a b : string) :
  Str.remove_if p (a ++ b)
  = (Str.remove_if p a ++ Str.remove_if p b)%string.
Proof.
  induction a as [ | x a IH]; simpl; [reflexivity | ].
  destruct (p x); simpl; now rewrite IH.
Qed.

Lemma last_char_app (a b : string) :
  b <> EmptyString -> Str.last_char (a ++ b) = Str.last_char b.
Proof.
  intros Hb. induction a as [ | x a IH]; [reflexivity | ].
  cbn [append Str.last_char]. rewrite IH.
  destruct (a ++ b)%string eqn:E; [ | reflexivity].
  destruct a; [simpl in E; congruence | discriminate E].
Qed.

Lemma last_char_forallb (p : ascii -> bool) (s : string) (c : ascii) :
  Str.forallb p s = true -> Str.last_char s = Some c -> p c = true.
Proof.
  induction s as [ | x s IH]; [discriminate | ].
  cbn [Str.forallb Str.last_char]. intros Hs Hl.
  apply andb_prop in Hs as [Hx Hs].
  destruct s; [injection Hl as <-; exact Hx | now apply IH].
Qed.

Lemma last_char_some (s : string) :
  s <> EmptyString -> exists c, Str.last_char s = Some c.
Proof.
  induction s as [ | x s IH]; [congruence | intros _].
  cbn [Str.last_char]. destruct s; [eauto | ].
  apply IH. discriminate.
Qed.

Lemma number_shape_last (n : string) :
  number_shape n ->
  exists c, Str.last_char n = Some c /\ Str.is_digit c = true.
Proof.
  intros [Hn | (a & b & -> & _ & Hb)].
  - destruct (last_char_some n (all_digits_nonempty n Hn)) as [c Hc].
    exists c. split; [exact Hc | ].
    apply andb_prop in Hn as [Hn _].
    exact (last_char_forallb _ _ _ Hn Hc).
  - assert (Hne : b <> EmptyString) by now apply all_digits_nonempty.
    destruct (last_char_some b Hne) as [c Hc].
    exists c. split.
    + rewrite last_char_app by (destruct b; [congruence | discriminate]).
      change ("." ++ b)%string with (String "." b).
      cbn [Str.last_char]. destruct b; [congruence | exact Hc].
    + apply andb_prop in Hb as [Hb _].
      exact (last_char_forallb _ _ _ Hb Hc).
Qed.



Lemma norm_key_nonempty (a b : string) :
  norm_key (a ++ "x" ++ b) <> EmptyString.
Proof.
  unfold norm_key, Str.remove_blanks.
  rewrite remove_if_app, lower_app.
  change ("x" ++ b)%string with (String "x" b). cbn.
  destruct (Str.lower _); discriminate.
Qed.

(** ** Candidates and their refinement *)

Lemma filter_none {A : Type} (f : A -> bool) (l : list A) :
  (forall x, In x l -> f x = false) -> filter f l = [].
Proof.
  induction l as [ | a l IH]; intros Hf; [reflexivity | ].
  cbn [filter]. rewrite (Hf a (or_introl eq_refl)).
  apply IH. intros x Hx. apply Hf. now right.
Qed.

Section RefineFacts.
Context {F : Type} `{PyFloat F}.
Variable re_compile : string -> option (string -> bool).



Lemma refine_two (df : DataFrame F) (matches : list (Row F))
  (p0 p1 : string) :
  refine df matches [p0; p1]
  = match matches with
    | row :: _ => Some (row, ["lookup_key"])
    | [] => None
    end.
Proof. reflexivity. Qed.

Lemma hd_filter_in {A : Type} (f : A -> bool) (l : list A) (a : A)
  (l' : list A) :
  filter f l = a :: l' -> In a l.
Proof.
  intros E. assert (Ha : In a (filter f l)) by (rewrite E; now left).
  now apply filter_In in Ha.
Qed.

(** The row that wins is a candidate, and the labels dropped are
    [lookup_key], alone or with [full_lookup_key]. *)
Lemma refine_some (df : DataFrame F) (matches : list (Row F))
  (parts : list string) (row : Row F) (dropped : list string) :
  refine df matches parts = Some (row, dropped) ->
  In row matches /\
  (dropped = ["lookup_key"] \/ dropped = ["lookup_key"; "full_lookup_key"]).
Proof.
  unfold refine.
  assert (Hfall : forall o,
    o = match matches with
        | r :: _ => Some (r, ["lookup_key"])
        | [] => None
        end ->
    o = Some (row, dropped) ->
    In row matches /\
    (dropped = ["lookup_key"]
     \/ dropped = ["lookup_key"; "full_lookup_key"])).
  { intros o -> Ho. destruct matches as [ | r ms]; [discriminate Ho | ].
    injection Ho as -> <-. split; [now left | now left]. }
  assert (Htier : forall (f : Row F -> bool) o,
    match filter f matches with
    | r :: _ => Some (r, ["lookup_key"; "full_lookup_key"])
    | [] => o
    end = Some (row, dropped) ->
    (o = Some (row, dropped) ->
     In row matches /\
     (dropped = ["lookup_key"]
      \/ dropped = ["lookup_key"; "full_lookup_key"])) ->
    In row matches /\
    (dropped = ["lookup_key"]
     \/ dropped = ["lookup_key"; "full_lookup_key"])).
  { intros f o Ho Hnext. destruct (filter f matches) as [ | r ms] eqn:E.
    - now apply Hnext.
    - injection Ho as -> <-. split; [ | now right].
      now apply (hd_filter_in f matches row ms). }
  destruct parts as [ | p0 [ | p1 [ | p2 rest]]];
    try (now apply Hfall).
  assert (H3 : (if mem "section_designation_extra" (columns df)
      then match te_matches matches p2 with
           | r :: _ => Some (r, ["lookup_key"; "full_lookup_key"])
           | [] => match matches with
                   | r :: _ => Some (r, ["lookup_key"])
                   | [] => None
                   end
           end
      else match matches with
           | r :: _ => Some (r, ["lookup_key"])
           | [] => None
           end) = Some (row, dropped) ->
     In row matches /\
     (dropped = ["lookup_key"]
      \/ dropped = ["lookup_key"; "full_lookup_key"])).
  { destruct (mem "section_designation_extra" (columns df));
      [ | now apply Hfall].
    unfold te_matches. intros Ho. apply (Htier _ _ Ho). now apply Hfall. }
  assert (H2 : match float_of_str p2 with
      | Some v =>
          match en_matches matches v with
          | r :: _ => Some (r, ["lookup_key"; "full_lookup_key"])
          | [] =>
            (if mem "section_designation_extra" (columns df)
             then match te_matches matches p2 with
                  | r :: _ => Some (r, ["lookup_key"; "full_lookup_key"])
                  | [] => match matches with
                          | r :: _ => Some (r, ["lookup_key"])
                          | [] => None
                          end
                  end
             else match matches with
                  | r :: _ => Some (r, ["lookup_key"])
                  | [] => None
                  end)
          end
      | None =>
            (if mem "section_designation_extra" (columns df)
             then match te_matches matches p2 with
                  | r :: _ => Some (r, ["lookup_key"; "full_lookup_key"])
                  | [] => match matches with
                          | r :: _ => Some (r, ["lookup_key"])
                          | [] => None
                          end
                  end
             else match matches with
                  | r :: _ => Some (r, ["lookup_key"])
                  | [] => None
                  end)
      end = Some (row, dropped) ->
     In row matches /\
     (dropped = ["lookup_key"]
      \/ dropped = ["lookup_key"; "full_lookup_key"])).
  { destruct (float_of_str p2) as [v | ]; [ | exact H3].
    unfold en_matches at 1. intros Ho. apply (Htier _ _ Ho). exact H3. }
  destruct (negb (is_empty p2) && _); [ | exact H2].
  unfold fk_matches at 1. intros Ho. apply (Htier _ _ Ho). exact H2.
Qed.

End RefineFacts.

Section CandidateFacts.
Context {F : Type} `{PyFloat F}.
Variable re_compile : string -> option (string -> bool).

(** On a table with a row, the candidates as the two filters give
    them. *)
Lemma candidates_rows (df : DataFrame F) (key : string) :
  rows df <> [] ->
  candidates re_compile df key
  = match filter (fun r => String.eqb (lookup_key r) key) (rows df) with
    | a :: l => Ok (a :: l)
    | [] =>
        match re_compile key with
        | None => Raise ReError
        | Some found => Ok (filter (fun r => found (lookup_key r)) (rows df))
        end
    end.
Proof.
  unfold candidates. destruct (rows df) as [ | r rs]; [congruence | ].
  intros _. cbv zeta. now destruct (filter _ (r :: rs)).
Qed.

Lemma candidates_no_rows (df : DataFrame F) (key : string) :
  rows df = [] -> candidates re_compile df key = Raise (KeyError "lookup_key").
Proof. unfold candidates. now intros ->. Qed.

Lemma in_not_nil {A : Type} (x : A) (l : list A) : In x l -> l <> [].
Proof. now destruct l. Qed.

Lemma candidates_exact (df : DataFrame F) (key : string) (r : Row F) :
  In r (rows df) -> lookup_key r = key ->
  candidates re_compile df key
  = Ok (filter (fun r => String.eqb (lookup_key r) key) (rows df)).
Proof.
  intros Hin Hkey. rewrite (candidates_rows df key (in_not_nil r _ Hin)).
  destruct (filter _ (rows df)) as [ | a l] eqn:E; [ | reflexivity].
  exfalso.
  assert (Hr : In r (filter (fun r => String.eqb (lookup_key r) key) (rows df))).
  { apply filter_In. split; [exact Hin | now apply String.eqb_eq]. }
  rewrite E in Hr. exact Hr.
Qed.



Lemma refine_nonempty (df : DataFrame F) (r : Row F) (ms : list (Row F))
  (parts : list string) :
  exists row dropped, refine df (r :: ms) parts = Some (row, dropped).
Proof.
  unfold refine.
  destruct parts as [ | p0 [ | p1 [ | p2 rest]]]; try (eexists; eexists; reflexivity).
  repeat match goal with
         | |- context [match ?x with _ => _ end] => destruct x
         end;
    eexists; eexists; reflexivity.
Qed.

Lemma uc_ub_request_found (tables : list (string * DataFrame F))
  (section_type designation : string) (df : DataFrame F)
  (matches : list (Row F)) (row : Row F) (dropped : list string) :
  lookup_table section_type tables = Some df ->
  candidates re_compile df (query_key designation (Re.split designation))
  = Ok matches ->
  refine df matches (Re.split designation) = Some (row, dropped) ->
  uc_ub_request re_compile tables section_type designation
  = Ok {| type := section_type;
          section := designation;
          properties := format_row (drop_labels dropped (to_series row)) |}.
Proof.
  intros Ht Hm Hr. unfold uc_ub_request. rewrite Ht, Hm. cbn [bind].
  now rewrite Hr.
Qed.

End CandidateFacts.

Section FormatFacts.
Context {F : Type} `{PyFloat F}.


End FormatFacts.

(** C3.  When some record has the query key for lookup key, the candidates
    are exactly the records with that key, whatever the regular-expression
    engine would answer: [str.contains] is not consulted.  The lookup then
    succeeds with a record whose lookup key equals the query key.  In the
    sample UB table, whose first row has a key that merely holds
    [1016x305], the query [ub 1016x305] returns the first row keyed
    [1016x305]. *)
Theorem exact_match_precedence :
  (forall (F : Type) (PF : PyFloat F)
          (re_compile : string -> option (string -> bool))
          (tables : list (string * DataFrame F)) (input ty g : string)
          (df : DataFrame F) (r : Row F),
      Re.match_h (Str.strip (Str.lower input)) = None ->
      Re.match_uc_ub (Str.strip (Str.lower input)) = Some (ty, g) ->
      lookup_table (upper ty) tables = Some df ->
      let key := query_key (Str.strip g) (Re.split (Str.strip g)) in
      In r (rows df) -> lookup_key r = key ->
      (forall engine,
          candidates engine df key
          = Ok (filter (fun r => String.eqb (lookup_key r) key) (rows df))) /\
      exists row dropped,
        In row (rows df) /\ lookup_key row = key /\
        find_section re_compile tables input
        = Ok {| type := upper ty;
                section := Str.strip g;
                properties :=
                  format_row (drop_labels dropped (to_series row)) |})
  /\ Sample.lookup Sample.tables "ub 1016x305"
     = Ok {| type := "UB";
             section := "1016x305";
             properties :=
               [ ("Section designation", VStr "1016 x 305 x 584");
                 ("full_lookup_key", VStr "1016x305x584") ] |}.
Proof.
  split; [ | vm_compute; reflexivity].
  intros F PF re_compile tables input ty g df r Hh Hm Ht key Hin Hkey.
  assert (Hc : forall engine,
             candidates engine df key
             = Ok (filter (fun r => String.eqb (lookup_key r) key) (rows df)))
    by (intros engine; now apply (candidates_exact engine df key r)).
  split; [exact Hc | ].
  destruct (filter (fun r => String.eqb (lookup_key r) key) (rows df))
    as [ | a l] eqn:E.
  { exfalso.
    assert (Hr : In r (filter (fun r => String.eqb (lookup_key r) key)
                              (rows df)))
      by (apply filter_In; split; [exact Hin | now apply String.eqb_eq]).
    rewrite E in Hr. exact Hr. }
  destruct (refine_nonempty df a l (Re.split (Str.strip g)))
    as (row & dropped & Hr).
  exists row, dropped.
  destruct (refine_some df (a :: l) _ row dropped Hr) as [Hrow _].
  rewrite <- E in Hrow. apply filter_In in Hrow as [Hrow Hk].
  split; [exact Hrow | ]. split; [now apply String.eqb_eq | ].
  rewrite (find_section_uc_ub re_compile tables input ty g Hh Hm).
  apply (uc_ub_request_found re_compile tables (upper ty) (Str.strip g) df
           (a :: l) row dropped Ht); [ | exact Hr].
  fold key. now rewrite Hc.
Qed.

Lemma exact_match_precedence_witness :
  exists row dropped,
    In row (rows Sample.ub) /\ lookup_key row = "1016x305" /\
    Sample.lookup Sample.tables "UB, 1016 x 305"
    = Ok {| type := "UB";
            section := "1016 x 305";
            properties :=
              format_row (drop_labels dropped (to_series row)) |}.
Proof.
  destruct (proj1 exact_match_precedence Q Exact.pyfloat PlainRe.compile
              Sample.tables "UB, 1016 x 305" "ub" "1016 x 305" Sample.ub
              (Sample.ub_row "1016 x 305 x 584" "1016x305" "1016x305x584")
              eq_refl eq_refl eq_refl (or_intror (or_introl eq_refl)) eq_refl)
    as [_ Hex].
  exact Hex.
Defined.




(** ** The tiers of the disambiguation *)















Section TierFacts.
Context {F : Type} `{PyFloat F}.






End TierFacts.



(** ** Properties of the result *)





(** ** Not found *)

Section NotFoundFacts.
Context {F : Type} `{PyFloat F}.
Variable re_compile : string -> option (string -> bool).

(** The candidates raise the [KeyError] of a table without rows, the
    error of [re], and nothing else. *)
Lemma candidates_raise (df : DataFrame F) (key : string) (e : exn) :
  candidates re_compile df key = Raise e ->
  (rows df = [] /\ e = KeyError "lookup_key") \/
  (rows df <> [] /\ e = ReError).
Proof.
  destruct (rows df) as [ | r0 rs0] eqn:Erows.
  { rewrite (candidates_no_rows re_compile df key Erows).
    intros E. injection E as <-. left. now split. }
  rewrite candidates_rows by (rewrite Erows; discriminate).
  destruct (filter _ (rows df)); [ | discriminate].
  destruct (re_compile key); [discriminate | ].
  intros E. injection E as <-. right. split; [discriminate | reflexivity].
Qed.

Lemma refine_nil (df : DataFrame F) (parts : list string) :
  refine df [] parts = None.
Proof.
  unfold refine. destruct parts as [ | p0 [ | p1 [ | p2 rest]]];
    try reflexivity.
  unfold fk_matches, en_matches, te_matches. cbn [filter existsb].
  rewrite andb_false_r.
  destruct (float_of_str p2);
    destruct (mem "section_designation_extra" (columns df)); reflexivity.
Qed.

(** What the source does: the lookup is answered [not found] exactly when
    the candidate set, exact or by [str.contains], is empty. *)
Lemma not_found_iff (tables : list (string * DataFrame F))
  (input ty g : string) (df : DataFrame F) :
  Re.match_h (Str.strip (Str.lower input)) = None ->
  Re.match_uc_ub (Str.strip (Str.lower input)) = Some (ty, g) ->
  lookup_table (upper ty) tables = Some df ->
  (find_section re_compile tables input
   = Raise (err_not_found (upper ty) (Str.strip g)) <->
   candidates re_compile df
              (query_key (Str.strip g) (Re.split (Str.strip g))) = Ok []).
Proof.
  intros Hh Hm Ht.
  rewrite (find_section_uc_ub re_compile tables input ty g Hh Hm).
  unfold uc_ub_request. rewrite Ht.
  destruct (candidates re_compile df _) as [[ | r ms] | e] eqn:Hc;
    cbn [bind].
  - rewrite refine_nil. split; reflexivity.
  - destruct (refine_nonempty df r ms (Re.split (Str.strip g)))
      as (row & dropped & ->).
    split; discriminate.
  - destruct (candidates_raise _ _ _ Hc) as [[_ ->] | [_ ->]];
      split; discriminate.
Qed.

End NotFoundFacts.

(** C8.  Where the code departs from the claim.  No lookup key of the
    sample UC table equals [3.6x406] or holds it as a substring, yet the
    lookup [uc 3.6x406] is answered with the first row: [str.contains]
    reads the key as a regular expression, whose dot matches the [5] of
    [356x406].  A key that is no regular expression, as [35(x406], makes
    the lookup raise the error of [re] and not [not found]. *)
Theorem contains_reads_key_as_regex :
  (forall r, In r (rows Sample.uc) ->
     lookup_key r <> "3.6x406" /\
     Str.is_substring "3.6x406" (lookup_key r) = false) /\
  Sample.lookup Sample.tables "uc 3.6x406"
  = Ok {| type := "UC";
          section := "3.6x406";
          properties :=
            format_row (drop_labels ["lookup_key"]
                                    (to_series Sample.r1299)) |} /\
  Sample.lookup Sample.tables "uc 35(x406" = Raise ReError.
Proof.
  split; [ | split; vm_compute; reflexivity].
  intros r [<- | [<- | []]]; split; (discriminate || reflexivity).
Qed.

(** ** The matchers on sample texts *)

Example split_dimensions :
  Re.split "300x150x20x10" = ["300"; "150"; "20"; "10"].
Proof. reflexivity. Qed.

Example split_mixed_separators :
  Re.split "914, 305 , 576" = ["914"; "305"; "576"].
Proof. reflexivity. Qed.

Example split_times_sign :
  Re.split ("300" ++ String Re.times_sign "150") = ["300"; "150"].
Proof. reflexivity. Qed.

Example split_separators_at_the_ends : Re.split ",a," = [""; "a"; ""].
Proof. reflexivity. Qed.

Example findall_decimal :
  Re.findall_numbers "1016 x 305.5 x 584." = ["1016"; "305.5"; "584"].
Proof. reflexivity. Qed.

Example findall_second_dot :
  Re.findall_numbers "1.2.3 ..4" = ["1.2"; "3"; "4"].
Proof. reflexivity. Qed.

Example match_h_plain :
  Re.match_h "h 300x150x20x10" = Some "300x150x20x10".
Proof. reflexivity. Qed.

Example match_h_gives_back_a_comma : Re.match_h "h ," = Some ",".
Proof. reflexivity. Qed.

Example match_h_alone : Re.match_h "h" = None.
Proof. reflexivity. Qed.

Example match_ub_comma :
  Re.match_uc_ub "ub,914x305x576" = Some ("ub", "914x305x576").
Proof. reflexivity. Qed.

Example unknown_prefix :
  Sample.lookup Sample.tables "xyz 100x200" = Raise err_prefix.
Proof. vm_compute. reflexivity. Qed.

Example unknown_section :
  Sample.lookup Sample.tables "uc 999x999"
  = Raise (err_not_found "UC" "999x999").
Proof. vm_compute. reflexivity. Qed.

Example end_to_end :
  Sample.lookup Sample.tables "ub 1016x305x584"
  = Ok {| type := "UB";
          section := "1016x305x584";
          properties := [ ("Section designation", VStr "1016 x 305 x 584") ] |}.
Proof. vm_compute. reflexivity. Qed.

(** * Further properties of the lookup *)

(** ** Case and surrounding whitespace *)

Lemma lower_char_idem (c : ascii) :
  Str.lower_char (Str.lower_char c) = Str.lower_char c.
Proof. destruct c as [[] [] [] [] [] [] [] []]; reflexivity. Qed.

Lemma lower_idem (s : string) : Str.lower (Str.lower s) = Str.lower s.
Proof.
  induction s as [ | c s IH]; simpl; [reflexivity | ].
  now rewrite lower_char_idem, IH.
Qed.

Lemma is_space_lower_char (c : ascii) :
  Str.is_space (Str.lower_char c) = Str.is_space c.
Proof. destruct c as [[] [] [] [] [] [] [] []]; reflexivity. Qed.

Lemma lower_lstrip (s : string) :
  Str.lower (Str.lstrip s) = Str.lstrip (Str.lower s).
Proof.
  induction s as [ | c s IH]; [reflexivity | ].
  cbn [Str.lstrip Str.lower]. rewrite is_space_lower_char.
  destruct (Str.is_space c); [exact IH | reflexivity].
Qed.

Lemma all_space_lower (s : string) :
  Str.all_space (Str.lower s) = Str.all_space s.
Proof.
  induction s as [ | c s IH]; [reflexivity | ].
  cbn [Str.all_space Str.lower]. now rewrite is_space_lower_char, IH.
Qed.

Lemma lower_rstrip (s : string) :
  Str.lower (Str.rstrip s) = Str.rstrip (Str.lower s).
Proof.
  induction s as [ | c s IH]; [reflexivity | ].
  change (Str.lower (String c s))
    with (String (Str.lower_char c) (Str.lower s)).
  cbn [Str.rstrip].
  change (String (Str.lower_char c) (Str.lower s))
    with (Str.lower (String c s)) at 1.
  rewrite all_space_lower.
  destruct (Str.all_space (String c s)); [reflexivity | ].
  cbn [Str.lower]. now rewrite IH.
Qed.

Lemma lower_strip (s : string) :
  Str.lower (Str.strip s) = Str.strip (Str.lower s).
Proof. unfold Str.strip. now rewrite lower_rstrip, lower_lstrip. Qed.

Lemma all_space_rstrip (s : string) :
  Str.all_space (Str.rstrip s) = Str.all_space s.
Proof.
  induction s as [ | c s IH]; [reflexivity | ].
  cbn [Str.rstrip]. destruct (Str.all_space (String c s)) eqn:E;
    [reflexivity | ].
  cbn [Str.all_space] in *. now rewrite IH.
Qed.

Lemma rstrip_idem (s : string) : Str.rstrip (Str.rstrip s) = Str.rstrip s.
Proof.
  induction s as [ | c s IH]; [reflexivity | ].
  cbn [Str.rstrip]. destruct (Str.all_space (String c s)) eqn:E;
    [reflexivity | ].
  cbn [Str.rstrip].
  change (Str.all_space (String c (Str.rstrip s)))
    with (Str.is_space c && Str.all_space (Str.rstrip s)).
  rewrite all_space_rstrip.
  change (Str.is_space c && Str.all_space s)
    with (Str.all_space (String c s)).
  now rewrite E, IH.
Qed.

(** The text does not begin with whitespace. *)
Lemma lstrip_fixed (s : string) :
  match s with
  | String c _ => Str.is_space c = false
  | EmptyString => True
  end -> Str.lstrip s = s.
Proof. destruct s as [ | c s]; [reflexivity | ]. cbn. now intros ->. Qed.

Lemma lstrip_head (s : string) :
  match Str.lstrip s with
  | String c _ => Str.is_space c = false
  | EmptyString => True
  end.
Proof.
  induction s as [ | c s IH]; [exact I | ].
  cbn [Str.lstrip]. destruct (Str.is_space c) eqn:E; [exact IH | exact E].
Qed.

Lemma rstrip_head (s : string) :
  match s with
  | String c _ => Str.is_space c = false
  | EmptyString => True
  end ->
  match Str.rstrip s with
  | String c _ => Str.is_space c = false
  | EmptyString => True
  end.
Proof.
  destruct s as [ | c s]; [intros _; exact I | ].
  intros Hc. cbn [Str.rstrip].
  destruct (Str.all_space (String c s)); [exact I | exact Hc].
Qed.

Lemma strip_idem (s : string) : Str.strip (Str.strip s) = Str.strip s.
Proof.
  unfold Str.strip.
  rewrite (lstrip_fixed (Str.rstrip (Str.lstrip s))).
  - apply rstrip_idem.
  - apply rstrip_head, lstrip_head.
Qed.

(** The lookup reads its input through [lower] and [strip] only: the case
    of the letters and the whitespace around the text change nothing. *)
Theorem find_section_case_and_trim {F : Type} `{PyFloat F}
  (re_compile : string -> option (string -> bool))
  (tables : list (string * DataFrame F)) (input : string) :
  find_section re_compile tables (Str.lower input)
  = find_section re_compile tables input /\
  find_section re_compile tables (Str.strip input)
  = find_section re_compile tables input.
Proof.
  unfold find_section. split.
  - now rewrite lower_idem.
  - now rewrite lower_strip, strip_idem.
Qed.

(** ** The failures of a lookup *)

Lemma match_uc_ub_type (s ty g : string) :
  Re.match_uc_ub s = Some (ty, g) -> ty = "uc" \/ ty = "ub".
Proof.
  unfold Re.match_uc_ub.
  destruct (Str.starts_with "uc" (Str.lstrip s)) as [t | ].
  - destruct (Re.match_tail t); [ | discriminate].
    cbn. intros E. injection E as <- _. now left.
  - destruct (Str.starts_with "ub" (Str.lstrip s)) as [t | ];
      [ | discriminate].
    destruct (Re.match_tail t); [ | discriminate].
    cbn. intros E. injection E as <- _. now right.
Qed.

Section FailureFacts.
Context {F : Type} `{PyFloat F}.
Variable re_compile : string -> option (string -> bool).

Lemma h_request_raises (designation : string) (e : exn) :
  h_request (F:=F) designation = Raise e ->
  (List.length (Re.split designation) < 4 /\ e = err_h_dimensions) \/
  (4 <= List.length (Re.split designation) /\
   Exists (fun p => float_of_str (F:=F) p = None)
          (firstn 4 (Re.split designation)) /\
   e = err_h_numbers) \/
  (4 <= List.length (Re.split designation) /\
   Forall (fun p => float_of_str (F:=F) p <> None)
          (firstn 4 (Re.split designation)) /\
   e = OverflowError).
Proof.
  intros He.
  destruct (Nat.lt_ge_cases (List.length (Re.split designation)) 4)
    as [Hlen | Hlen].
  { left. rewrite (h_request_short _ Hlen) in He.
    injection He as <-. now split. }
  right.
  destruct (parsed_or_not (F:=F) (firstn 4 (Re.split designation)))
    as [Hex | Hall].
  { left. rewrite (h_request_unparsed _ Hlen Hex) in He.
    injection He as <-. repeat split; assumption. }
  right. split; [exact Hlen | ]. split; [exact Hall | ].
  destruct (h_request_all_parsed _ Hlen Hall)
    as (p0 & p1 & p2 & p3 & rest & D & B & T & t & Hs & H0 & H1 & H2 & H3).
  rewrite (h_request_parsed _ p0 p1 p2 p3 rest D B T t Hs H0 H1 H2 H3) in He.
  destruct (h_section_cases D B T t) as [E | [ai E]]; rewrite E in He;
    cbn [bind] in He; [ | discriminate He].
  now injection He as <-.
Qed.

Lemma uc_ub_request_raises (tables : list (string * DataFrame F))
  (section_type designation : string) (e : exn) :
  uc_ub_request re_compile tables section_type designation = Raise e ->
  (lookup_table section_type tables = None /\
   e = err_not_loaded section_type) \/
  (exists df,
     lookup_table section_type tables = Some df /\
     ((rows df = [] /\ e = KeyError "lookup_key") \/
      (rows df <> [] /\
       let key := query_key designation (Re.split designation) in
       (forall r, In r (rows df) -> lookup_key r <> key) /\
       ((e = ReError /\ re_compile key = None) \/
        (e = err_not_found section_type designation /\
         exists found, re_compile key = Some found /\
                       forall r, In r (rows df) ->
                                 found (lookup_key r) = false))))).
Proof.
  unfold uc_ub_request.
  destruct (lookup_table section_type tables) as [df | ] eqn:Ht.
  2:{ intros E. injection E as <-. left. now split. }
  intros E. right. exists df. split; [reflexivity | ].
  destruct (rows df) as [ | r0 rs0] eqn:Erows.
  { left. rewrite (candidates_no_rows re_compile df _ Erows) in E.
    cbn [bind] in E. injection E as <-. now split. }
  right. split; [discriminate | ].
  rewrite candidates_rows in E by (rewrite Erows; discriminate).
  rewrite <- Erows in *. clear Erows r0 rs0.
  cbn zeta.
  set (key := query_key designation (Re.split designation)) in *.
  destruct (filter (fun r => String.eqb (lookup_key r) key) (rows df))
    as [ | a l] eqn:Ef.
  - assert (Hno : forall r, In r (rows df) -> lookup_key r <> key).
    { intros r Hr Hk.
      assert (Hin : In r (filter (fun r => String.eqb (lookup_key r) key)
                                 (rows df)))
        by (apply filter_In; split; [exact Hr | now apply String.eqb_eq]).
      rewrite Ef in Hin. exact Hin. }
    split; [exact Hno | ].
    destruct (re_compile key) as [found | ]; cbn [bind] in E.
    + right.
      destruct (filter (fun r => found (lookup_key r)) (rows df))
        as [ | b l'] eqn:Eg.
      * rewrite refine_nil in E. injection E as <-.
        split; [reflexivity | ]. exists found. split; [reflexivity | ].
        intros r Hr. destruct (found (lookup_key r)) eqn:Efr;
          [ | reflexivity].
        exfalso.
        assert (Hin : In r (filter (fun r => found (lookup_key r)) (rows df)))
          by (apply filter_In; now split).
        rewrite Eg in Hin. exact Hin.
      * destruct (refine_nonempty df b l' (Re.split designation))
          as (row & dropped & Hr).
        rewrite Hr in E. discriminate E.
    + left. injection E as <-. now split.
  - cbn [bind] in E.
    destruct (refine_nonempty df a l (Re.split designation))
      as (row & dropped & Hr).
    rewrite Hr in E. discriminate E.
Qed.

End FailureFacts.

(** Every way in which [find_section] fails.  Without a prefix it raises
    the prefix [ValueError].  A built-up H request raises the dimensions
    [ValueError], the numbers [ValueError] or the [OverflowError] of a
    power, and nothing else.  A UC/UB lookup raises the [ValueError] of the
    missing table; on a loaded table without rows, which has no key column,
    the [KeyError] of [df['lookup_key']]; and on a loaded table with rows,
    only when no row has the query key: the [ValueError] of the section not
    found when the search of [str.contains] finds no row, or the exception
    of [re] when it refuses the key as a pattern.  Nothing else is raised
    on tables of distinct labels, none of them computed. *)
Theorem find_section_failures {F : Type} `{PyFloat F}
  (re_compile : string -> option (string -> bool))
  (tables : list (string * DataFrame F)) (input : string) (e : exn) :
  well_labelled_tables tables = true ->
  find_section re_compile tables input = Raise e ->
  let text := Str.strip (Str.lower input) in
  (Re.match_h text = None /\ Re.match_uc_ub text = None /\ e = err_prefix)
  \/
  (exists g, Re.match_h text = Some g /\
     let parts := Re.split (Str.strip g) in
     (List.length parts < 4 /\ e = err_h_dimensions) \/
     (4 <= List.length parts /\
      Exists (fun p => float_of_str p = None) (firstn 4 parts) /\
      e = err_h_numbers) \/
     (4 <= List.length parts /\
      Forall (fun p => float_of_str p <> None) (firstn 4 parts) /\
      e = OverflowError))
  \/
  (exists ty g, Re.match_h text = None /\
     Re.match_uc_ub text = Some (ty, g) /\ (ty = "uc" \/ ty = "ub") /\
     ((lookup_table (upper ty) tables = None /\
       e = err_not_loaded (upper ty)) \/
      (exists df,
         lookup_table (upper ty) tables = Some df /\
         ((rows df = [] /\ e = KeyError "lookup_key") \/
          (rows df <> [] /\
           let key := query_key (Str.strip g) (Re.split (Str.strip g)) in
           (forall r, In r (rows df) -> lookup_key r <> key) /\
           ((e = ReError /\ re_compile key = None) \/
            (e = err_not_found (upper ty) (Str.strip g) /\
             exists found, re_compile key = Some found /\
                           forall r, In r (rows df) ->
                                     found (lookup_key r) = false))))))).
Proof.
  intros _ He text. unfold find_section in He. fold text in He.
  destruct (Re.match_h text) as [g | ] eqn:Hh.
  - right; left. exists g. split; [reflexivity | ].
    now apply h_request_raises.
  - destruct (Re.match_uc_ub text) as [[ty g] | ] eqn:Hm.
    + right; right. exists ty, g. split; [reflexivity | ].
      split; [reflexivity | ].
      split; [exact (match_uc_ub_type text ty g Hm) | ].
      now apply (uc_ub_request_raises re_compile).
    + left. injection He as <-. repeat split.
Qed.

Lemma find_section_failures_witness :
  exists found,
    PlainRe.compile "999x999" = Some found /\
    forall r, In r (rows Sample.uc) -> found (lookup_key r) = false.
Proof.
  destruct (@find_section_failures Q Exact.pyfloat PlainRe.compile
              Sample.tables "uc 999x999" (err_not_found "UC" "999x999")
              eq_refl ltac:(vm_compute; reflexivity))
    as [(_ & Hm & _) | [(g & Hh & _) | (ty & g & _ & Hm & _ & Hcase)]].
  - discriminate Hm.
  - discriminate Hh.
  - vm_compute in Hm. injection Hm as <- <-.
    destruct Hcase
      as [[Ht _]
         | (df & Ht & [[_ He] | (_ & _ & [[He _] | [_ Hfound]])])].
    + discriminate Ht.
    + discriminate He.
    + discriminate He.
    + vm_compute in Ht. injection Ht as <-. exact Hfound.
Defined.

(** ** Separators *)

Lemma query_key_parts (d1 d2 : string) (parts : list string) :
  2 <= List.length parts -> query_key d1 parts = query_key d2 parts.
Proof.
  destruct parts as [ | p0 [ | p1 rest]]; cbn [List.length]; try lia.
  reflexivity.
Qed.

(** A UC/UB lookup of two tokens or more depends on the designation
    through its tokens alone: two inputs of the same family whose
    designations split into the same tokens, whatever separators they are
    written with, give the same type and properties, or fail alike. *)
Theorem uc_ub_separator_tolerance {F : Type} `{PyFloat F}
  (re_compile : string -> option (string -> bool))
  (tables : list (string * DataFrame F)) (input1 input2 ty g1 g2 : string) :
  Re.match_h (Str.strip (Str.lower input1)) = None ->
  Re.match_uc_ub (Str.strip (Str.lower input1)) = Some (ty, g1) ->
  Re.match_h (Str.strip (Str.lower input2)) = None ->
  Re.match_uc_ub (Str.strip (Str.lower input2)) = Some (ty, g2) ->
  Re.split (Str.strip g1) = Re.split (Str.strip g2) ->
  2 <= List.length (Re.split (Str.strip g1)) ->
  match find_section re_compile tables input1,
        find_section re_compile tables input2 with
  | Ok r1, Ok r2 =>
      type r1 = type r2 /\ properties r1 = properties r2 /\
      section r1 = Str.strip g1 /\ section r2 = Str.strip g2
  | Raise e1, Raise e2 =>
      e1 = e2 \/
      (e1 = err_not_found (upper ty) (Str.strip g1) /\
       e2 = err_not_found (upper ty) (Str.strip g2))
  | _, _ => False
  end.
Proof.
  intros Hh1 Hm1 Hh2 Hm2 Hs Hlen.
  rewrite (find_section_uc_ub re_compile tables input1 ty g1 Hh1 Hm1).
  rewrite (find_section_uc_ub re_compile tables input2 ty g2 Hh2 Hm2).
  unfold uc_ub_request.
  destruct (lookup_table (upper ty) tables) as [df | ]; [ | now left].
  rewrite <- Hs.
  rewrite (query_key_parts (Str.strip g2) (Str.strip g1) _ Hlen).
  destruct (candidates re_compile df _) as [matches | e]; cbn [bind];
    [ | now left].
  destruct (refine df matches (Re.split (Str.strip g1)))
    as [[row dropped] | ]; cbn [type properties section].
  - repeat split; reflexivity.
  - right. now split.
Qed.

Lemma uc_ub_separator_tolerance_witness :
  match Sample.lookup Sample.tables "uc 356x406x283",
        Sample.lookup Sample.tables "UC, 356 406 , 283" with
  | Ok r1, Ok r2 =>
      type r1 = type r2 /\ properties r1 = properties r2 /\
      section r1 = "356x406x283" /\ section r2 = "356 406 , 283"
  | Raise e1, Raise e2 =>
      e1 = e2 \/
      (e1 = err_not_found "UC" "356x406x283" /\
       e2 = err_not_found "UC" "356 406 , 283")
  | _, _ => False
  end.
Proof.
  apply (@uc_ub_separator_tolerance Q Exact.pyfloat PlainRe.compile
           Sample.tables "uc 356x406x283" "UC, 356 406 , 283" "uc"
           "356x406x283" "356 406 , 283"
           eq_refl eq_refl eq_refl eq_refl eq_refl).
  vm_compute. lia.
Defined.

(** A built-up H request depends on its remainder through the tokens
    alone: two requests whose remainders split into the same tokens give
    the same type and properties, or raise the same exception. *)
Theorem h_separator_tolerance {F : Type} `{PyFloat F}
  (re_compile : string -> option (string -> bool))
  (tables1 tables2 : list (string * DataFrame F))
  (input1 input2 g1 g2 : string) :
  Re.match_h (Str.strip (Str.lower input1)) = Some g1 ->
  Re.match_h (Str.strip (Str.lower input2)) = Some g2 ->
  Re.split (Str.strip g1) = Re.split (Str.strip g2) ->
  match find_section re_compile tables1 input1,
        find_section re_compile tables2 input2 with
  | Ok r1, Ok r2 =>
      type r1 = type r2 /\ properties r1 = properties r2 /\
      section r1 = ("h " ++ Str.strip g1)%string /\
      section r2 = ("h " ++ Str.strip g2)%string
  | Raise e1, Raise e2 => e1 = e2
  | _, _ => False
  end.
Proof.
  intros Hm1 Hm2 Hs.
  rewrite (find_section_h re_compile tables1 input1 g1 Hm1).
  rewrite (find_section_h re_compile tables2 input2 g2 Hm2).
  unfold h_request. rewrite <- Hs.
  destruct (List.length (Re.split (Str.strip g1)) <? 4); [reflexivity | ].
  destruct (map float_of_str (firstn 4 (Re.split (Str.strip g1))))
    as [ | [D | ] [ | [B | ] [ | [T | ] [ | [t | ] [ | ? ?]]]]];
    try reflexivity.
  destruct (h_section_properties D B T t) as [ai | e]; cbn [bind];
    [ | reflexivity].
  cbn [type properties section]. repeat split; reflexivity.
Qed.

Lemma h_separator_tolerance_witness :
  match Sample.lookup [] "h 300x150x20x10",
        Sample.lookup Sample.tables "H, 300 150,20 x 10" with
  | Ok r1, Ok r2 =>
      type r1 = type r2 /\ properties r1 = properties r2 /\
      section r1 = "h 300x150x20x10" /\ section r2 = "h 300 150,20 x 10"
  | Raise e1, Raise e2 => e1 = e2
  | _, _ => False
  end.
Proof.
  exact (@h_separator_tolerance Q Exact.pyfloat PlainRe.compile
           [] Sample.tables "h 300x150x20x10" "H, 300 150,20 x 10"
           "300x150x20x10" "300 150,20 x 10" eq_refl eq_refl eq_refl).
Defined.

(** ** Lookups by the full key *)

Lemma count_char_app (x : ascii) (a b : string) :
  count_char x (a ++ b) = count_char x a + count_char x b.
Proof.
  induction a as [ | c a IH]; [reflexivity | ].
  cbn [append count_char]. rewrite IH. lia.
Qed.

Lemma plain_no_x (s : string) :
  plain s = true -> count_char Re.letter_x s = 0.
Proof.
  induction s as [ | c s IH]; [reflexivity | ].
  cbn [plain Str.forallb count_char]. intros Hs.
  apply andb_prop in Hs as [Hc Hs]. rewrite (IH Hs).
  destruct c as [[] [] [] [] [] [] [] []]; try reflexivity;
    discriminate Hc.
Qed.

Lemma number_no_x (n : string) :
  number_shape n -> count_char Re.letter_x n = 0.
Proof. intros Hn. apply plain_no_x. now apply number_shape_plain. Qed.

(** A text is cut at its first [x] in one way only. *)
Lemma cut_at_x (a a' b b' : string) :
  count_char Re.letter_x a = 0 -> count_char Re.letter_x a' = 0 ->
  (a ++ String Re.letter_x b)%string = (a' ++ String Re.letter_x b')%string ->
  a = a' /\ b = b'.
Proof.
  revert a'. induction a as [ | c a IH]; intros a' Ha Ha' E.
  - destruct a' as [ | c' a'].
    + cbn in E. injection E as ->. now split.
    + cbn [append] in E. injection E as <- _.
      cbn [count_char] in Ha'. rewrite Ascii.eqb_refl in Ha'. lia.
  - destruct a' as [ | c' a'].
    + cbn [append] in E. injection E as -> _.
      cbn [count_char] in Ha. rewrite Ascii.eqb_refl in Ha. lia.
    + cbn [append] in E. injection E as -> E.
      cbn [count_char] in Ha, Ha'.
      destruct (IH a') as [-> ->]; try lia; [exact E | now split].
Qed.

Lemma norm_key_app (a b : string) :
  norm_key (a ++ b) = (norm_key a ++ norm_key b)%string.
Proof.
  unfold norm_key, Str.remove_blanks. now rewrite remove_if_app, lower_app.
Qed.

Lemma norm_key_triple (p0 p1 p2 : string) :
  norm_key (p0 ++ "x" ++ p1 ++ "x" ++ p2)
  = (norm_key p0 ++ String Re.letter_x
       (norm_key p1 ++ String Re.letter_x (norm_key p2)))%string.
Proof. rewrite !norm_key_app. reflexivity. Qed.

Lemma norm_key_pair (p0 p1 : string) :
  norm_key (p0 ++ "x" ++ p1)
  = (norm_key p0 ++ String Re.letter_x (norm_key p1))%string.
Proof. rewrite !norm_key_app. reflexivity. Qed.

(** The keys that the loader builds: none, the first alone, or both, the
    second being the first with [x] and a third number. *)
Lemma build_keys_forms (s : option string) :
  build_keys s = (EmptyString, EmptyString) \/
  (exists n0 n1,
     number_shape n0 /\ number_shape n1 /\
     build_keys s = ((n0 ++ String Re.letter_x n1)%string, EmptyString)) \/
  (exists n0 n1 n2,
     number_shape n0 /\ number_shape n1 /\ number_shape n2 /\
     build_keys s
     = ((n0 ++ String Re.letter_x n1)%string,
        (n0 ++ String Re.letter_x (n1 ++ String Re.letter_x n2))%string)).
Proof.
  unfold build_keys.
  set (txt := match s with Some t => t | None => EmptyString end).
  pose proof (findall_numbers_shape txt) as Hshape.
  destruct (Re.findall_numbers txt) as [ | n0 [ | n1 [ | n2 rest]]];
    try (left; reflexivity).
  - right; left.
    inversion Hshape as [ | ? ? H0 Hs]; subst.
    inversion Hs as [ | ? ? H1 _]; subst.
    exists n0, n1. repeat (split; [assumption | ]).
    rewrite (lower_number n0 _ H0).
    change ("x" ++ n1)%string with (String "x" n1). cbn [Str.lower].
    now rewrite (lower_number_end n1 H1).
  - right; right.
    inversion Hshape as [ | ? ? H0 Hs]; subst.
    inversion Hs as [ | ? ? H1 Hs']; subst.
    inversion Hs' as [ | ? ? H2 _]; subst.
    exists n0, n1, n2. repeat (split; [assumption | ]).
    rewrite !(lower_number n0 _ H0).
    change ("x" ++ n1 ++ "x" ++ n2)%string
      with (String "x" (n1 ++ "x" ++ n2)).
    change ("x" ++ n1)%string with (String "x" n1).
    cbn [Str.lower]. rewrite (lower_number n1 _ H1).
    change ("x" ++ n2)%string with (String "x" n2). cbn [Str.lower].
    now rewrite (lower_number_end n1 H1), (lower_number_end n2 H2).
Qed.

Lemma count_x_cons (b : string) :
  count_char Re.letter_x (String Re.letter_x b)
  = S (count_char Re.letter_x b).
Proof. reflexivity. Qed.

(** A row of the loader whose full key is that of the query has the
    lookup key of the query, and the third token is not empty. *)
Lemma full_key_gives_lookup_key {F : Type} (r : Row F) (p0 p1 p2 : string) :
  keys_built r ->
  full_lookup_key r = norm_key (p0 ++ "x" ++ p1 ++ "x" ++ p2) ->
  lookup_key r = norm_key (p0 ++ "x" ++ p1) /\ p2 <> EmptyString.
Proof.
  intros [s Hs] Hfull.
  assert (Hlk : lookup_key r = fst (build_keys s)) by (now rewrite <- Hs).
  assert (Hfk : full_lookup_key r = snd (build_keys s))
    by (now rewrite <- Hs).
  destruct (build_keys_forms s)
    as [E | [(n0 & n1 & _ & _ & E)
            | (n0 & n1 & n2 & H0 & H1 & H2 & E)]];
    rewrite E in Hlk, Hfk; cbn [fst snd] in Hlk, Hfk.
  - exfalso. rewrite Hfk in Hfull. symmetry in Hfull. revert Hfull.
    apply norm_key_nonempty.
  - exfalso. rewrite Hfk in Hfull. symmetry in Hfull. revert Hfull.
    apply norm_key_nonempty.
  - rewrite Hfk, norm_key_triple in Hfull.
    assert (Hcount := f_equal (count_char Re.letter_x) Hfull).
    rewrite !count_char_app, !count_x_cons, !count_char_app, !count_x_cons
      in Hcount.
    rewrite (number_no_x n0 H0), (number_no_x n1 H1), (number_no_x n2 H2)
      in Hcount.
    assert (C0 : count_char Re.letter_x (norm_key p0) = 0) by lia.
    assert (C1 : count_char Re.letter_x (norm_key p1) = 0) by lia.
    destruct (cut_at_x _ _ _ _ (number_no_x n0 H0) C0 Hfull) as [E0 Hrest].
    destruct (cut_at_x _ _ _ _ (number_no_x n1 H1) C1 Hrest) as [E1 E2].
    split.
    + rewrite Hlk, norm_key_pair. now rewrite E0, E1.
    + intros ->. apply (number_shape_nonempty n2 H2). now rewrite E2.
Qed.

Lemma filter_cons_in {A : Type} (f : A -> bool) (l : list A) (x : A) :
  In x l -> f x = true -> exists a l', filter f l = a :: l'.
Proof.
  intros Hin Hf.
  assert (Hx : In x (filter f l)) by (apply filter_In; now split).
  destruct (filter f l) as [ | a l']; [destruct Hx | eauto].
Qed.

(** The same on the request, past the prefix. *)
Lemma uc_ub_request_full_key {F : Type} `{PyFloat F}
  (re_compile : string -> option (string -> bool))
  (tables : list (string * DataFrame F))
  (section_type designation p0 p1 p2 : string) (rest : list string)
  (df : DataFrame F) (r : Row F) :
  lookup_table section_type tables = Some df ->
  Re.split designation = p0 :: p1 :: p2 :: rest ->
  In r (rows df) -> keys_built r ->
  full_lookup_key r = norm_key (p0 ++ "x" ++ p1 ++ "x" ++ p2) ->
  exists w,
    In w (rows df) /\
    lookup_key w = norm_key (p0 ++ "x" ++ p1) /\
    full_lookup_key w = full_lookup_key r /\
    uc_ub_request re_compile tables section_type designation
    = Ok {| type := section_type;
            section := designation;
            properties :=
              format_row (drop_labels ["lookup_key"; "full_lookup_key"]
                                      (to_series w)) |}.
Proof.
  intros Ht Hs Hin Hkeys Hfull.
  destruct (full_key_gives_lookup_key r p0 p1 p2 Hkeys Hfull)
    as [Hlk Hp2].
  set (key := norm_key (p0 ++ "x" ++ p1)) in *.
  set (matches := filter (fun r => String.eqb (lookup_key r) key) (rows df)).
  assert (Hc : candidates re_compile df key = Ok matches)
    by (now apply (candidates_exact re_compile df key r)).
  assert (Hrm : In r matches)
    by (apply filter_In; split; [exact Hin | now apply String.eqb_eq]).
  assert (Hfr : String.eqb (full_lookup_key r)
                           (norm_key (p0 ++ "x" ++ p1 ++ "x" ++ p2)) = true)
    by (now apply String.eqb_eq).
  destruct (filter_cons_in
              (fun r0 : Row F =>
                 String.eqb (full_lookup_key r0)
                            (norm_key (p0 ++ "x" ++ p1 ++ "x" ++ p2)))
              matches r Hrm Hfr) as (w & l' & Hfk).
  assert (Hw : In w matches /\
               String.eqb (full_lookup_key w)
                          (norm_key (p0 ++ "x" ++ p1 ++ "x" ++ p2)) = true).
  { apply (filter_In
             (fun r0 : Row F =>
                String.eqb (full_lookup_key r0)
                           (norm_key (p0 ++ "x" ++ p1 ++ "x" ++ p2)))).
    rewrite Hfk. now left. }
  destruct Hw as [Hwm Hwf]. apply String.eqb_eq in Hwf.
  apply filter_In in Hwm as [Hwin Hwk]. apply String.eqb_eq in Hwk.
  exists w. split; [exact Hwin | ]. split; [exact Hwk | ].
  split; [now rewrite Hwf | ].
  apply (uc_ub_request_found re_compile tables section_type designation df
           matches w ["lookup_key"; "full_lookup_key"] Ht).
  - rewrite Hs. exact Hc.
  - rewrite Hs. unfold refine.
    assert (Hguard :
      negb (is_empty p2)
      && existsb (fun r => 0 <? String.length (full_lookup_key r)) matches
      = true).
    { apply andb_true_intro. split.
      - destruct p2; [congruence | reflexivity].
      - apply existsb_exists. exists r. split; [exact Hrm | ].
        rewrite Hfull. apply Nat.ltb_lt.
        pose proof (norm_key_nonempty p0 (p1 ++ "x" ++ p2)) as Hne.
        destruct (norm_key (p0 ++ "x" ++ p1 ++ "x" ++ p2));
          [congruence | cbn; lia]. }
    rewrite Hguard. unfold fk_matches. now rewrite Hfk.
Qed.

(** A lookup by the three tokens of a full key that some row of the
    loader carries succeeds, and the record returned has that very full
    key; its properties leave out both keys. *)
Theorem full_key_lookup {F : Type} `{PyFloat F}
  (re_compile : string -> option (string -> bool))
  (tables : list (string * DataFrame F))
  (input ty g p0 p1 p2 : string) (rest : list string)
  (df : DataFrame F) (r : Row F) :
  Re.match_h (Str.strip (Str.lower input)) = None ->
  Re.match_uc_ub (Str.strip (Str.lower input)) = Some (ty, g) ->
  lookup_table (upper ty) tables = Some df ->
  Re.split (Str.strip g) = p0 :: p1 :: p2 :: rest ->
  In r (rows df) -> keys_built r ->
  full_lookup_key r = norm_key (p0 ++ "x" ++ p1 ++ "x" ++ p2) ->
  exists w,
    In w (rows df) /\
    lookup_key w = norm_key (p0 ++ "x" ++ p1) /\
    full_lookup_key w = full_lookup_key r /\
    find_section re_compile tables input
    = Ok {| type := upper ty;
            section := Str.strip g;
            properties :=
              format_row (drop_labels ["lookup_key"; "full_lookup_key"]
                                      (to_series w)) |}.
Proof.
  intros Hh Hm Ht Hs Hin Hkeys Hfull.
  destruct (uc_ub_request_full_key re_compile tables (upper ty) (Str.strip g)
              p0 p1 p2 rest df r Ht Hs Hin Hkeys Hfull)
    as (w & Hw & Hwk & Hwf & Hres).
  exists w. split; [exact Hw | ]. split; [exact Hwk | ].
  split; [exact Hwf | ].
  now rewrite (find_section_uc_ub re_compile tables input ty g Hh Hm).
Qed.

Lemma full_key_lookup_witness :
  exists w,
    In w (rows Sample.ub) /\
    lookup_key w = "1016x305" /\
    full_lookup_key w = "1016x305x494" /\
    Sample.lookup Sample.tables "UB 1016 x 305 x 494"
    = Ok {| type := "UB";
            section := "1016 x 305 x 494";
            properties :=
              format_row (drop_labels ["lookup_key"; "full_lookup_key"]
                                      (to_series w)) |}.
Proof.
  apply (@full_key_lookup Q Exact.pyfloat PlainRe.compile Sample.tables
           "UB 1016 x 305 x 494" "ub" "1016 x 305 x 494"
           "1016" "305" "494" [] Sample.ub
           (Sample.ub_row "1016 x 305 x 494" "1016x305" "1016x305x494")
           eq_refl eq_refl eq_refl eq_refl).
  - right; right; left; reflexivity.
  - exists (Some "1016 x 305 x 494"). reflexivity.
  - reflexivity.
Defined.

(** ** The designation and the key of a lookup are not empty *)

Lemma rstrip_empty (s : string) :
  Str.rstrip s = EmptyString <-> Str.all_space s = true.
Proof.
  destruct s as [ | c s]; [split; reflexivity | ].
  cbn [Str.rstrip]. destruct (Str.all_space (String c s));
    split; try reflexivity; discriminate.
Qed.

Lemma all_space_last (s : string) (c : ascii) :
  Str.all_space s = true -> Str.last_char s = Some c ->
  Str.is_space c = true.
Proof.
  induction s as [ | x s IH]; [discriminate | ].
  cbn [Str.all_space Str.last_char]. intros Hs Hl.
  apply andb_prop in Hs as [Hx Hs].
  destruct s; [injection Hl as <-; exact Hx | now apply IH].
Qed.

(** After [rstrip] the text does not end with whitespace. *)
Lemma rstrip_last (s : string) (c : ascii) :
  Str.last_char (Str.rstrip s) = Some c -> Str.is_space c = false.
Proof.
  induction s as [ | x s IH]; [discriminate | ].
  cbn [Str.rstrip]. destruct (Str.all_space (String x s)) eqn:E;
    [discriminate | ].
  cbn [Str.last_char]. destruct (Str.rstrip s) eqn:Er.
  - intros Hl. injection Hl as <-.
    cbn [Str.all_space] in E.
    assert (Hs : Str.all_space s = true) by (now apply rstrip_empty).
    rewrite Hs, andb_true_r in E. exact E.
  - exact IH.
Qed.

Lemma lstrip_suffix (s : string) :
  exists pre, s = (pre ++ Str.lstrip s)%string.
Proof.
  induction s as [ | c s [pre IH]]; [now exists EmptyString | ].
  cbn [Str.lstrip]. destruct (Str.is_space c).
  - exists (String c pre). cbn [append]. now rewrite <- IH.
  - now exists EmptyString.
Qed.

Lemma starts_with_app (p s t : string) :
  Str.starts_with p s = Some t -> s = (p ++ t)%string.
Proof.
  revert s. induction p as [ | a p IH]; intros s.
  - cbn. intros E. now injection E as ->.
  - destruct s as [ | b s]; [discriminate | ].
    cbn [Str.starts_with]. destruct (Ascii.eqb a b) eqn:E; [ | discriminate].
    apply Ascii.eqb_eq in E. subst b. intros Hs.
    cbn [append]. now rewrite (IH s Hs).
Qed.

Lemma drop_suffix (n : nat) (s : string) :
  exists pre, s = (pre ++ Str.drop n s)%string.
Proof.
  revert s. induction n as [ | n IH]; intros s; [now exists EmptyString | ].
  destruct s as [ | c s]; [now exists EmptyString | ].
  destruct (IH s) as [pre Hpre]. exists (String c pre).
  cbn [Str.drop append]. now rewrite <- Hpre.
Qed.

Lemma drop_length (n : nat) (s : string) :
  String.length (Str.drop n s) = String.length s - n.
Proof.
  revert s. induction n as [ | n IH]; intros s; [cbn; lia | ].
  destruct s as [ | c s]; [reflexivity | ]. cbn [Str.drop String.length].
  now rewrite IH.
Qed.

(** A text that does not end with a newline is not shortened by [$]. *)
Lemma chomp_fixed (s : string) (c : ascii) :
  Str.last_char s = Some c -> Ascii.eqb c Re.newline = false ->
  Re.chomp s = s.
Proof.
  induction s as [ | x s IH]; [reflexivity | ].
  cbn [Str.last_char Re.chomp]. destruct s as [ | y s].
  - intros E Hc. injection E as <-. now rewrite Hc.
  - intros E Hc. now rewrite (IH E Hc).
Qed.

Lemma space_not_newline (c : ascii) :
  Str.is_space c = false -> Ascii.eqb c Re.newline = false.
Proof. destruct c as [[] [] [] [] [] [] [] []]; try reflexivity; discriminate. Qed.

(** The group of [match_tail] on a text that does not end with whitespace
    is not empty and ends as the text does. *)
Lemma match_tail_last (t g : string) (c : ascii) :
  Str.last_char t = Some c -> Str.is_space c = false ->
  Re.match_tail t = Some g ->
  Str.last_char g = Some c.
Proof.
  intros Hl Hc. unfold Re.match_tail.
  rewrite (chomp_fixed t c Hl (space_not_newline c Hc)).
  destruct (String.length t) as [ | k] eqn:Ek; [discriminate | ].
  set (p := Nat.min (Re.span_len Re.is_gap t) k).
  destruct (Str.forallb _ (Str.drop p t)); [ | discriminate].
  intros E. injection E as <-.
  destruct (drop_suffix p t) as [pre Hpre].
  assert (Hne : Str.drop p t <> EmptyString).
  { intros E. pose proof (drop_length p t) as Hd.
    assert (Hp : p <= k) by apply Nat.le_min_r.
    rewrite E, Ek in Hd. change (String.length EmptyString) with 0 in Hd.
    lia. }
  rewrite Hpre in Hl. now rewrite last_char_app in Hl.
Qed.

Lemma match_tail_text (t g : string) :
  Re.match_tail t = Some g -> t <> EmptyString.
Proof. intros E ->. discriminate E. Qed.

Lemma all_space_lstrip (s : string) :
  Str.all_space (Str.lstrip s) = Str.all_space s.
Proof.
  induction s as [ | c s IH]; [reflexivity | ].
  cbn [Str.lstrip Str.all_space]. destruct (Str.is_space c) eqn:E.
  - exact IH.
  - cbn [Str.all_space]. now rewrite E.
Qed.

Lemma last_char_strip (g : string) (c : ascii) :
  Str.last_char g = Some c -> Str.is_space c = false ->
  Str.strip g <> EmptyString.
Proof.
  intros Hl Hc E. unfold Str.strip in E.
  apply rstrip_empty in E. rewrite all_space_lstrip in E.
  pose proof (all_space_last g c E Hl). congruence.
Qed.

Lemma request_group_last (input p t g : string) :
  Str.starts_with p (Str.lstrip (Str.strip input)) = Some t ->
  Re.match_tail t = Some g ->
  exists c, Str.last_char g = Some c /\ Str.is_space c = false.
Proof.
  intros Hp Hg.
  assert (Ht : t <> EmptyString) by exact (match_tail_text t g Hg).
  destruct (last_char_some t Ht) as [c Hc]. exists c.
  assert (Hlast : Str.last_char (Str.strip input) = Some c).
  { destruct (lstrip_suffix (Str.strip input)) as [pre Hpre].
    rewrite Hpre, (starts_with_app _ _ _ Hp).
    rewrite last_char_app.
    - now rewrite last_char_app.
    - destruct p; [exact Ht | discriminate]. }
  assert (Hsp : Str.is_space c = false)
    by exact (rstrip_last _ c Hlast).
  split; [ | exact Hsp].
  exact (match_tail_last t g c Hc Hsp Hg).
Qed.

Lemma match_uc_ub_group (input ty g : string) :
  Re.match_uc_ub (Str.strip input) = Some (ty, g) ->
  exists c, Str.last_char g = Some c /\ Str.is_space c = false.
Proof.
  unfold Re.match_uc_ub.
  destruct (Str.starts_with "uc" (Str.lstrip (Str.strip input)))
    as [t | ] eqn:Euc.
  - destruct (Re.match_tail t) as [g' | ] eqn:Eg; [ | discriminate].
    cbn. intros E. injection E as _ <-.
    exact (request_group_last input "uc" t g' Euc Eg).
  - destruct (Str.starts_with "ub" (Str.lstrip (Str.strip input)))
      as [t | ] eqn:Eub; [ | discriminate].
    destruct (Re.match_tail t) as [g' | ] eqn:Eg; [ | discriminate].
    cbn. intros E. injection E as _ <-.
    exact (request_group_last input "ub" t g' Eub Eg).
Qed.

Lemma split_go_nonempty (s cur : string) (skipping : bool) :
  Re.split_go s cur skipping <> [].
Proof.
  revert cur skipping. induction s as [ | c s IH]; intros cur skipping;
    [discriminate | ].
  cbn [Re.split_go]. destruct (Re.is_sep c); [ | apply IH].
  destruct skipping; [apply IH | discriminate].
Qed.

Lemma not_space_not_blank (c : ascii) :
  Str.is_space c = false -> (Str.code c =? 32) = false.
Proof.
  destruct c as [[] [] [] [] [] [] [] []]; try reflexivity; discriminate.
Qed.

Lemma strip_head (s : string) :
  match Str.strip s with
  | String c _ => Str.is_space c = false
  | EmptyString => True
  end.
Proof. unfold Str.strip. apply rstrip_head, lstrip_head. Qed.

(** In a UC/UB lookup neither the designation nor the key derived from it
    is empty: a row whose lookup key is empty, as the loader gives to a
    designation of fewer than two numbers, is never an exact match. *)
Theorem query_key_not_empty (input ty g : string) :
  Re.match_uc_ub (Str.strip (Str.lower input)) = Some (ty, g) ->
  Str.strip g <> EmptyString /\
  query_key (Str.strip g) (Re.split (Str.strip g)) <> EmptyString /\
  forall (F : Type) (r : Row F),
    lookup_key r = EmptyString ->
    String.eqb (lookup_key r)
               (query_key (Str.strip g) (Re.split (Str.strip g))) = false.
Proof.
  intros Hm.
  destruct (match_uc_ub_group (Str.lower input) ty g Hm) as (c & Hc & Hsp).
  assert (Hd : Str.strip g <> EmptyString)
    by exact (last_char_strip g c Hc Hsp).
  assert (Hk : query_key (Str.strip g) (Re.split (Str.strip g))
               <> EmptyString).
  { unfold query_key.
    destruct (Re.split (Str.strip g)) as [ | p0 [ | p1 rest]] eqn:Es.
    - exfalso. revert Es. apply split_go_nonempty.
    - pose proof (strip_head g) as Hhead.
      destruct (Str.strip g) as [ | x d]; [congruence | ].
      unfold norm_key, Str.remove_blanks. cbn [Str.remove_if].
      rewrite (not_space_not_blank x Hhead). discriminate.
    - apply norm_key_nonempty. }
  split; [exact Hd | ]. split; [exact Hk | ].
  intros F r Hr. apply String.eqb_neq. rewrite Hr. congruence.
Qed.

Lemma query_key_not_empty_witness :
  query_key (Str.strip "356") (Re.split (Str.strip "356")) <> EmptyString.
Proof.
  exact (proj1 (proj2 (query_key_not_empty "uc 356" "uc" "356" eq_refl))).
Defined.

(** * Properties of the loader *)

Section LoaderFacts.
Context {F : Type} `{PyFloat F}.

Lemma load_rows_forall2 (has_extra : bool)
  (rs : list (list (string * value F))) (rows : list (Row F)) :
  load_rows has_extra rs = Some rows ->
  Forall2 (fun r row => load_row has_extra r = Some row) rs rows.
Proof.
  revert rows. induction rs as [ | r rs IH]; intros rows.
  - cbn. intros E. injection E as <-. constructor.
  - cbn [load_rows]. destruct (load_row has_extra r) as [row | ] eqn:Er;
      [ | discriminate].
    destruct (load_rows has_extra rs) as [rows' | ]; [ | discriminate].
    intros E. injection E as <-. constructor; [exact Er | now apply IH].
Qed.

Lemma load_row_spec (has_extra : bool) (r : list (string * value F))
  (row : Row F) :
  load_row has_extra r = Some row ->
  cells row = r /\
  (lookup_key row, full_lookup_key row)
  = build_keys (cell_text (cell designation_label r)) /\
  (if has_extra then extra_num (cell extra_label r) = Some (extra_numeric row)
   else extra_numeric row = None).
Proof.
  unfold load_row. destruct has_extra.
  - destruct (extra_num (cell extra_label r)) as [en | ]; [ | discriminate].
    intros E. injection E as <-. cbn [cells lookup_key full_lookup_key
                                     extra_numeric].
    split; [reflexivity | ]. split; [ | reflexivity].
    symmetry. apply surjective_pairing.
  - intros E. injection E as <-. cbn [cells lookup_key full_lookup_key
                                     extra_numeric].
    split; [reflexivity | ]. split; [ | reflexivity].
    symmetry. apply surjective_pairing.
Qed.

End LoaderFacts.

(** Every table of the loader has, in each row, a designation that is
    not null, the two keys that [build_keys] derives from it, and for
    [extra_numeric] the number read off the extra column when the sheet
    has one and null otherwise.  Such a table meets the condition under
    which the tiers of a lookup were shown to be tried in order. *)
Theorem loaded_rows {F : Type} `{PyFloat F} (raw : RawFrame F)
  (df : DataFrame F) :
  load_frame raw = Some df ->
  rename_columns (raw_columns raw) = Some (columns df) /\
  Forall keys_built (rows df) /\
  Forall (fun row =>
            notna (cell designation_label (cells row)) = true /\
            (lookup_key row, full_lookup_key row)
            = build_keys (cell_text (cell designation_label (cells row))) /\
            (if mem extra_label (columns df)
             then extra_num (cell extra_label (cells row))
                  = Some (extra_numeric row)
             else extra_numeric row = None))
         (rows df).
Proof.
  unfold load_frame.
  destruct (rename_columns (raw_columns raw)) as [cols | ]; [ | discriminate].
  destruct (single_labels cols); [ | discriminate].
  set (rs := dropna designation_label
               (ffill designation_label VNull
                      (map (combine cols) (raw_rows raw)))).
  destruct (load_rows (mem extra_label cols) rs) as [loaded | ] eqn:El;
    [ | discriminate].
  intros E. injection E as <-. cbn [columns rows].
  split; [reflexivity | ].
  pose proof (load_rows_forall2 _ _ _ El) as Hall.
  assert (Hrs : Forall (fun r => notna (cell designation_label r) = true) rs).
  { apply Forall_forall. intros r Hr. unfold rs, dropna in Hr.
    now apply filter_In in Hr. }
  clear El. revert Hrs.
  induction Hall as [ | r row rs' rows' Hrow _ IH]; intros Hrs.
  - split; constructor.
  - inversion Hrs as [ | ? ? Hr Hrs']; subst.
    destruct (IH Hrs') as [IH1 IH2].
    destruct (load_row_spec _ _ _ Hrow) as (Hc & Hk & He).
    split; constructor; try assumption.
    + eexists. exact Hk.
    + rewrite Hc. repeat split; assumption.
Qed.

Lemma loaded_rows_witness :
  exists df,
    load_frame SampleSheet.raw = Some df /\
    columns df = [ "Section designation"; "section_designation_extra";
                   "Mass per metre        kg/m" ] /\
    map (fun r => (lookup_key r, full_lookup_key r, extra_numeric r))
        (rows df)
    = [ ("356x406", "", Some (1299 # 1)%Q);
        ("356x406", "", Some (1202 # 1)%Q);
        ("305x305", "305x305x283", None) ] /\
    Forall keys_built (rows df).
Proof.
  eexists.
  assert (Hl : load_frame SampleSheet.raw = Some _)
    by (vm_compute; reflexivity).
  split; [exact Hl | ].
  split; [reflexivity | ]. split; [reflexivity | ].
  exact (proj1 (proj2 (loaded_rows SampleSheet.raw _ Hl))).
Defined.

(** ** Forward filling of the designation *)

Section FillFacts.
Context {F : Type} `{PyFloat F}.

Lemma cell_set_cell (k : string) (v : value F)
  (r : list (string * value F)) :
  headed k r -> cell k (set_cell k v r) = v.
Proof.
  destruct r as [ | [k' v'] r]; [intros [] | ].
  cbn [headed]. intros ->. cbn [set_cell cell].
  rewrite String.eqb_refl. cbn [cell]. now rewrite String.eqb_refl.
Qed.

Lemma cell_set_cell_other (k k' : string) (v : value F)
  (r : list (string * value F)) :
  k' <> k -> cell k' (set_cell k v r) = cell k' r.
Proof.
  intros Hk. induction r as [ | [k0 v0] r IH]; [reflexivity | ].
  cbn [set_cell]. destruct (String.eqb k k0) eqn:E.
  - apply String.eqb_eq in E. subst k0. cbn [cell].
    apply String.eqb_neq in Hk. now rewrite Hk.
  - cbn [cell]. now rewrite IH.
Qed.

Lemma ffill_length (k : string) (last : value F)
  (rs : list (list (string * value F))) :
  List.length (ffill k last rs) = List.length rs.
Proof.
  revert last. induction rs as [ | r rs IH]; intros last; [reflexivity | ].
  cbn [ffill]. destruct (notna (cell k r)); cbn [List.length];
    now rewrite IH.
Qed.

(** With something to fill from, no row is left without the cell. *)
Lemma dropna_ffill_kept (k : string) (last : value F)
  (rs : list (list (string * value F))) :
  notna last = true -> Forall (headed k) rs ->
  dropna k (ffill k last rs) = ffill k last rs.
Proof.
  revert last. induction rs as [ | r rs IH]; intros last Hlast Hall;
    [reflexivity | ].
  inversion Hall as [ | ? ? Hr Hrs]; subst.
  cbn [ffill]. destruct (notna (cell k r)) eqn:E.
  - unfold dropna. cbn [filter]. rewrite E. f_equal.
    now apply IH.
  - rewrite Hlast. unfold dropna. cbn [filter].
    rewrite (cell_set_cell k last r Hr), Hlast. f_equal.
    now apply IH.
Qed.

(** With nothing to fill from, the rows above the first cell are
    dropped, and only they. *)
Lemma dropna_ffill_skip (k : string) (last : value F)
  (rs : list (list (string * value F))) :
  notna last = false -> Forall (headed k) rs ->
  dropna k (ffill k last rs) = ffill k last (skip_null k rs).
Proof.
  intros Hlast. induction rs as [ | r rs IH]; intros Hall; [reflexivity | ].
  inversion Hall as [ | ? ? Hr Hrs]; subst.
  cbn [ffill skip_null]. destruct (notna (cell k r)) eqn:E.
  - cbn [ffill]. rewrite E. unfold dropna. cbn [filter]. rewrite E.
    f_equal. now apply dropna_ffill_kept.
  - rewrite Hlast. unfold dropna. cbn [filter]. rewrite E.
    now apply IH.
Qed.

Lemma last_seen_cons (last v : value F) (vs : list (value F)) :
  last_seen last (v :: vs)
  = last_seen (if notna v then v else last) vs.
Proof. reflexivity. Qed.

(** Each row after the filling: its cell [k] is its own, or when that is
    null the last one above it that is not; its other cells are as they
    were. *)
Lemma ffill_nth (k : string) (rs : list (list (string * value F))) :
  forall (last : value F) (i : nat) (r : list (string * value F)),
    Forall (headed k) rs ->
    nth_error (ffill k last rs) i = Some r ->
    exists r0,
      nth_error rs i = Some r0 /\
      cell k r = filled (last_seen last (map (cell k) (firstn i rs)))
                        (cell k r0) /\
      forall k', k' <> k -> cell k' r = cell k' r0.
Proof.
  induction rs as [ | r1 rs IH]; intros last i r Hall Hn.
  - destruct i; discriminate Hn.
  - inversion Hall as [ | ? ? Hr Hrs]; subst.
    cbn [ffill] in Hn. destruct i as [ | i].
    + exists r1. split; [reflexivity | ].
      cbn [firstn map last_seen fold_left]. unfold filled.
      destruct (notna (cell k r1)) eqn:E; cbn [nth_error] in Hn;
        injection Hn as <-.
      * now split.
      * destruct (notna last) eqn:El.
        -- split; [now apply cell_set_cell | ].
           intros k' Hk. now apply cell_set_cell_other.
        -- now split.
    + cbn [firstn map]. rewrite last_seen_cons.
      destruct (notna (cell k r1)) eqn:E; cbn [nth_error] in Hn;
        destruct (IH _ i r Hrs Hn) as (r0 & Hr0 & Hc & Ho);
        exists r0; (split; [exact Hr0 | ]); (split; [exact Hc | exact Ho]).
Qed.

Lemma skip_null_headed (k : string) (rs : list (list (string * value F))) :
  Forall (headed k) rs -> Forall (headed k) (skip_null k rs).
Proof.
  induction rs as [ | r rs IH]; intros Hall; [constructor | ].
  cbn [skip_null]. destruct (notna (cell k r)); [exact Hall | ].
  apply IH. now inversion Hall.
Qed.

Lemma forall2_nth_error {A B : Type} (P : A -> B -> Prop)
  (l : list A) (l' : list B) :
  Forall2 P l l' ->
  forall i y, nth_error l' i = Some y ->
              exists x, nth_error l i = Some x /\ P x y.
Proof.
  induction 1 as [ | x y l l' Hxy _ IH]; intros i z Hz.
  - destruct i; discriminate Hz.
  - destruct i as [ | i].
    + injection Hz as <-. exists x. now split.
    + now apply IH.
Qed.

Lemma forall2_length {A B : Type} (P : A -> B -> Prop)
  (l : list A) (l' : list B) :
  Forall2 P l l' -> List.length l = List.length l'.
Proof. induction 1; cbn; congruence. Qed.

(** After the renamings the first label is that of the designation. *)
Lemma rename_columns_head (cols cols' : list string) :
  rename_columns cols = Some cols' ->
  exists rest, cols' = designation_label :: rest /\
               List.length cols' = List.length cols.
Proof.
  destruct cols as [ | c cols]; [discriminate | ].
  unfold rename_columns. intros E. injection E as <-.
  cbn [map]. cbn [rename_label]. rewrite String.eqb_refl.
  eexists. split; [reflexivity | ].
  cbn [List.length]. now rewrite !length_map.
Qed.

Lemma combine_headed (rest : list string) (vals : list (value F)) :
  vals <> [] -> headed designation_label
                       (combine (designation_label :: rest) vals).
Proof. destruct vals; [congruence | reflexivity]. Qed.

End FillFacts.

Lemma load_frame_columns {F : Type} `{PyFloat F} (raw : RawFrame F)
  (df : DataFrame F) :
  load_frame raw = Some df ->
  rename_columns (raw_columns raw) = Some (columns df).
Proof.
  unfold load_frame.
  destruct (rename_columns (raw_columns raw)) as [cols | ]; [ | discriminate].
  destruct (single_labels cols); [ | discriminate].
  destruct (load_rows _ _); [ | discriminate].
  intros E. now injection E as <-.
Qed.

(** The rows of a loaded table are the rows of the sheet from the first
    one on that has a designation, in their order and none left out.  Each
    has its own designation or, when the sheet gives it none, that of the
    nearest row above that has one; its other cells are those of the
    sheet. *)
Theorem loaded_designations {F : Type} `{PyFloat F} (raw : RawFrame F)
  (df : DataFrame F) :
  rectangular raw ->
  load_frame raw = Some df ->
  let kept := skip_null designation_label
                        (map (combine (columns df)) (raw_rows raw)) in
  List.length (rows df) = List.length kept /\
  forall i row,
    nth_error (rows df) i = Some row ->
    exists r0,
      nth_error kept i = Some r0 /\
      cell designation_label (cells row)
      = filled (last_seen VNull
                          (map (cell designation_label) (firstn i kept)))
               (cell designation_label r0) /\
      notna (cell designation_label (cells row)) = true /\
      forall k', k' <> designation_label ->
                 cell k' (cells row) = cell k' r0.
Proof.
  intros Hrect Hload.
  pose proof (load_frame_columns raw df Hload) as Hcols.
  unfold load_frame in Hload. rewrite Hcols in Hload.
  destruct (single_labels (columns df)); [ | discriminate Hload].
  destruct (rename_columns_head _ _ Hcols) as (rest & Ecols & Hlen).
  set (rs := map (combine (columns df)) (raw_rows raw)) in *.
  assert (Hhead : Forall (headed designation_label) rs).
  { apply Forall_forall. intros r Hr. unfold rs in Hr.
    apply in_map_iff in Hr as (vals & <- & Hvals).
    unfold rectangular in Hrect. rewrite Forall_forall in Hrect.
    pose proof (Hrect vals Hvals) as Hv. rewrite Ecols.
    apply combine_headed. intros ->. rewrite <- Hlen, Ecols in Hv.
    discriminate Hv. }
  rewrite (dropna_ffill_skip designation_label VNull rs eq_refl Hhead)
    in Hload.
  cbn zeta.
  set (kept := skip_null designation_label rs) in *.
  destruct (load_rows (mem extra_label (columns df))
                      (ffill designation_label VNull kept))
    as [loaded | ] eqn:El; [ | discriminate Hload].
  assert (Erows : rows df = loaded)
    by (injection Hload as <-; reflexivity).
  pose proof (load_rows_forall2 _ _ _ El) as Hall.
  rewrite Erows. split.
  - rewrite <- (forall2_length _ _ _ Hall). apply ffill_length.
  - intros i row Hrow.
    destruct (forall2_nth_error _ _ _ Hall i row Hrow) as (r & Hr & Hlr).
    destruct (load_row_spec _ _ _ Hlr) as (Hc & _ & _).
    destruct (ffill_nth designation_label kept VNull i r
                (skip_null_headed _ _ Hhead) Hr) as (r0 & Hr0 & Hcell & Ho).
    exists r0. rewrite Hc. split; [exact Hr0 | ]. split; [exact Hcell | ].
    split; [ | exact Ho].
    apply nth_error_In in Hr. unfold kept in Hr.
    rewrite <- (dropna_ffill_skip designation_label VNull rs eq_refl Hhead)
      in Hr.
    unfold dropna in Hr. now apply filter_In in Hr.
Qed.

Lemma loaded_designations_witness :
  exists df row,
    load_frame SampleSheet.raw = Some df /\
    List.length (rows df) = 3 /\
    nth_error (rows df) 1 = Some row /\
    cell designation_label (cells row) = VStr "356 x 406" /\
    cell extra_label (cells row) = VStr "x 1202".
Proof.
  eexists.
  assert (Hl : load_frame SampleSheet.raw = Some _)
    by (vm_compute; reflexivity).
  assert (Hrect : rectangular SampleSheet.raw)
    by (repeat constructor).
  destruct (loaded_designations SampleSheet.raw _ Hrect Hl) as [Hlen Hnth].
  eexists. split; [exact Hl | ]. split; [exact Hlen | ].
  split; [reflexivity | ].
  destruct (Hnth 1 _ eq_refl) as (r0 & Hr0 & Hcell & _ & Ho).
  vm_compute in Hr0. injection Hr0 as <-.
  split; [exact Hcell | ].
  exact (Ho extra_label ltac:(discriminate)).
Defined.

(** ** The loader does not fail on a number *)

Lemma search_number_shape (s n : string) :
  Re.search_number s = Some n -> number_shape n.
Proof.
  unfold Re.search_number. pose proof (findall_numbers_shape s) as Hall.
  destruct (Re.findall_numbers s) as [ | m l]; [discriminate | ].
  intros E. injection E as <-. now inversion Hall.
Qed.

Section LoaderTotal.
Context {F : Type} `{PyFloat F}.
Hypothesis float_reads_numbers :
  forall n, number_shape n -> float_of_str (F:=F) n <> None.

Lemma extra_num_returns (v : value F) : extra_num v <> None.
Proof.
  unfold extra_num. destruct (notna v); [ | discriminate].
  destruct (Re.search_number (astype_str v)) as [n | ] eqn:E;
    [ | discriminate].
  pose proof (float_reads_numbers n (search_number_shape _ _ E)) as Hn.
  destruct (float_of_str n); [discriminate | congruence].
Qed.

Lemma load_rows_returns (has_extra : bool)
  (rs : list (list (string * value F))) :
  load_rows has_extra rs <> None.
Proof.
  induction rs as [ | r rs IH]; [discriminate | ].
  cbn [load_rows]. unfold load_row.
  destruct has_extra.
  - pose proof (extra_num_returns (cell extra_label r)) as He.
    destruct (extra_num (cell extra_label r)); [ | congruence].
    destruct (load_rows true rs); [discriminate | congruence].
  - destruct (load_rows false rs); [discriminate | congruence].
Qed.

End LoaderTotal.

(** When [float] reads every integer and decimal, as that of Python does,
    and the renaming leaves one column of designations and at most one
    extra column, the loader fails on a frame for one reason only: the
    frame has no column. *)
Theorem load_frame_fails_without_columns {F : Type} `{PyFloat F}
  (raw : RawFrame F) :
  (forall n, number_shape n -> float_of_str (F:=F) n <> None) ->
  renamed_single (raw_columns raw) = true ->
  (load_frame raw = None <-> raw_columns raw = []).
Proof.
  intros Hfloat Hsingle. unfold load_frame. unfold renamed_single in Hsingle.
  destruct (raw_columns raw) as [ | c cols] eqn:Ecols;
    [split; reflexivity | ].
  destruct (rename_columns (c :: cols)) as [cols' | ] eqn:Er;
    [ | discriminate Er].
  rewrite Hsingle. split; [ | discriminate].
  intros E. exfalso. revert E.
  match goal with
  | |- context [load_rows ?b ?rs] =>
      pose proof (load_rows_returns Hfloat b rs) as Hl;
      destruct (load_rows b rs); [discriminate | congruence]
  end.
Qed.

(** The decimal reader of the exact model reads every integer and
    decimal. *)
Lemma take_digits_app (a rest : string) :
  Str.forallb Str.is_digit a = true ->
  Exact.take_digits (a ++ rest)
  = ((a ++ fst (Exact.take_digits rest))%string,
     snd (Exact.take_digits rest)).
Proof.
  induction a as [ | c a IH]; intros Ha.
  - cbn [append]. now destruct (Exact.take_digits rest).
  - cbn [Str.forallb] in Ha. apply andb_prop in Ha as [Hc Ha].
    cbn [append Exact.take_digits]. rewrite Hc, (IH Ha). reflexivity.
Qed.

Lemma take_digits_all (a : string) :
  Str.forallb Str.is_digit a = true ->
  Exact.take_digits a = (a, EmptyString).
Proof.
  intros Ha. rewrite <- (append_empty_r a) at 1.
  rewrite (take_digits_app a EmptyString Ha). cbn [Exact.take_digits fst snd].
  now rewrite append_empty_r.
Qed.

Lemma digit_no_sign (c : ascii) :
  Str.is_digit c = true ->
  Ascii.eqb c (ascii_of_nat 45) = false /\
  Ascii.eqb c (ascii_of_nat 43) = false.
Proof.
  destruct c as [[] [] [] [] [] [] [] []]; intros Hc;
    try discriminate Hc; split; reflexivity.
Qed.

Lemma take_sign_digits (a rest : string) :
  all_digits a = true ->
  Exact.take_sign (a ++ rest) = (false, (a ++ rest)%string).
Proof.
  intros Ha. destruct a as [ | c a]; [discriminate Ha | ].
  apply andb_prop in Ha as [Ha _]. cbn [Str.forallb] in Ha.
  apply andb_prop in Ha as [Hc _].
  destruct (digit_no_sign c Hc) as [Hm Hp].
  cbn [append Exact.take_sign]. now rewrite Hm, Hp.
Qed.

Lemma exact_reads_numbers (n : string) :
  number_shape n -> Exact.parse_decimal n <> None.
Proof.
  intros [Hn | (a & b & -> & Ha & Hb)].
  - unfold Exact.parse_decimal.
    rewrite <- (append_empty_r n), (take_sign_digits n EmptyString Hn).
    rewrite append_empty_r.
    pose proof Hn as Hd. apply andb_prop in Hd as [Hd _].
    rewrite (take_digits_all n Hd). rewrite append_empty_r.
    destruct n; [discriminate Hn | ]. discriminate.
  - unfold Exact.parse_decimal.
    rewrite (take_sign_digits a _ Ha).
    pose proof Ha as Hda. apply andb_prop in Hda as [Hda _].
    pose proof Hb as Hdb. apply andb_prop in Hdb as [Hdb _].
    rewrite (take_digits_app a _ Hda).
    change ("." ++ b)%string with (String Re.dot b).
    cbn [Exact.take_digits]. change (Str.is_digit Re.dot) with false.
    cbn [fst snd]. rewrite Ascii.eqb_refl, (take_digits_all b Hdb).
    rewrite append_empty_r.
    destruct a; [discriminate Ha | ]. discriminate.
Qed.

Lemma load_frame_fails_without_columns_witness :
  load_frame SampleSheet.raw <> None /\
  load_frame {| raw_columns := []; raw_rows := [[VNum (1 # 1)%Q]] |} = None.
Proof.
  split.
  - intros E.
    apply (proj1 (@load_frame_fails_without_columns Q Exact.pyfloat
                    SampleSheet.raw exact_reads_numbers eq_refl)) in E.
    discriminate E.
  - apply (proj2 (@load_frame_fails_without_columns Q Exact.pyfloat
                    {| raw_columns := []; raw_rows := [[VNum (1 # 1)%Q]] |}
                    exact_reads_numbers eq_refl)).
    reflexivity.
Defined.

(** A sheet whose second column is headed [Section designation]: the
    renaming gives that label to two columns, and the loader raises. *)
Example repeated_designation_label :
  load_frame (F:=Q)
    {| raw_columns := ["foo"; "Section designation"];
       raw_rows := [[VStr "a"; VStr "356 x 406"]] |}
  = None.
Proof. reflexivity. Qed.

(** A sheet without rows under its header is loaded into a table without
    rows, and a lookup in that table raises [KeyError]. *)
Example sheet_without_rows :
  exists df,
    load_frame (F:=Q)
      {| raw_columns := ["Unnamed: 0"; "Unnamed: 1"]; raw_rows := [] |}
    = Some df /\
    rows df = [] /\
    find_section PlainRe.compile [("UC", df)] "uc 356x406"
    = Raise (KeyError "lookup_key").
Proof. eexists. repeat split; vm_compute; reflexivity. Qed.

(** * A designation looked up by its own text *)

(** ** Splitting a text of numbers and separators *)

Lemma plain_char_no_sep (c : ascii) :
  Str.is_digit c || Ascii.eqb c Re.dot = true -> Re.is_sep c = false.
Proof.
  destruct c as [[] [] [] [] [] [] [] []]; intros Hc;
    try reflexivity; discriminate Hc.
Qed.

Lemma split_go_token (t rest cur : string) (skipping : bool) :
  plain t = true -> t <> EmptyString ->
  Re.split_go (t ++ rest) cur skipping
  = Re.split_go rest (cur ++ t) false.
Proof.
  revert cur skipping. induction t as [ | c t IH]; intros cur skipping Ht Hne;
    [congruence | ].
  cbn [plain Str.forallb] in Ht. apply andb_prop in Ht as [Hc Ht].
  cbn [append Re.split_go]. rewrite (plain_char_no_sep c Hc).
  destruct t as [ | d t].
  - reflexivity.
  - rewrite (IH _ false Ht ltac:(discriminate)).
    now rewrite append_assoc_s.
Qed.

Lemma split_go_skip (s rest : string) :
  Str.forallb Re.is_sep s = true ->
  Re.split_go (s ++ rest) EmptyString true
  = Re.split_go rest EmptyString true.
Proof.
  induction s as [ | c s IH]; intros Hs; [reflexivity | ].
  cbn [Str.forallb] in Hs. apply andb_prop in Hs as [Hc Hs].
  cbn [append Re.split_go]. rewrite Hc. now apply IH.
Qed.

Lemma split_go_separators (s rest cur : string) :
  Str.forallb Re.is_sep s = true -> s <> EmptyString ->
  Re.split_go (s ++ rest) cur false
  = cur :: Re.split_go rest EmptyString true.
Proof.
  destruct s as [ | c s]; [congruence | intros Hs _].
  cbn [Str.forallb] in Hs. apply andb_prop in Hs as [Hc Hs].
  cbn [append Re.split_go]. rewrite Hc. f_equal. now apply split_go_skip.
Qed.

Lemma separator_run_seps (s : string) :
  separator_run s = true ->
  s <> EmptyString /\ Str.forallb Re.is_sep s = true /\
  Str.forallb (fun c => negb (Ascii.eqb c Re.newline)) s = true.
Proof.
  unfold separator_run. intros Hs. apply andb_prop in Hs as [Hne Hs].
  split; [destruct s; [discriminate Hne | discriminate] | ].
  split; revert Hs; apply forallb_weaken; intros c Hc;
    apply andb_prop in Hc; tauto.
Qed.

(** Three numbers with separators between them split into the three. *)
Lemma split_three (n0 n1 n2 s1 s2 : string) :
  number_shape n0 -> number_shape n1 -> number_shape n2 ->
  separator_run s1 = true -> separator_run s2 = true ->
  Re.split (n0 ++ s1 ++ n1 ++ s2 ++ n2) = [n0; n1; n2].
Proof.
  intros H0 H1 H2 Hs1 Hs2.
  destruct (separator_run_seps s1 Hs1) as (Hne1 & Hsep1 & _).
  destruct (separator_run_seps s2 Hs2) as (Hne2 & Hsep2 & _).
  unfold Re.split.
  rewrite (split_go_token n0 _ _ _ (number_shape_plain n0 H0)
             (number_shape_nonempty n0 H0)).
  cbn [append].
  rewrite (split_go_separators s1 _ _ Hsep1 Hne1).
  rewrite (split_go_token n1 _ _ _ (number_shape_plain n1 H1)
             (number_shape_nonempty n1 H1)).
  cbn [append].
  rewrite (split_go_separators s2 _ _ Hsep2 Hne2).
  rewrite <- (append_empty_r n2) at 1.
  rewrite (split_go_token n2 _ _ _ (number_shape_plain n2 H2)
             (number_shape_nonempty n2 H2)).
  reflexivity.
Qed.

(** ** The numbers of such a text *)

Lemma findall_go_int (a rest cur : string) :
  Str.forallb Str.is_digit a = true ->
  Re.findall_go (Re.Int cur) (a ++ rest)
  = Re.findall_go (Re.Int (cur ++ a)) rest.
Proof.
  revert cur. induction a as [ | c a IH]; intros cur Ha.
  - now rewrite append_empty_r.
  - cbn [Str.forallb] in Ha. apply andb_prop in Ha as [Hc Ha].
    cbn [append Re.findall_go]. rewrite Hc, (IH _ Ha).
    now rewrite snoc_app.
Qed.

Lemma findall_go_frac (a rest cur : string) :
  Str.forallb Str.is_digit a = true ->
  Re.findall_go (Re.Frac cur) (a ++ rest)
  = Re.findall_go (Re.Frac (cur ++ a)) rest.
Proof.
  revert cur. induction a as [ | c a IH]; intros cur Ha.
  - now rewrite append_empty_r.
  - cbn [Str.forallb] in Ha. apply andb_prop in Ha as [Hc Ha].
    cbn [append Re.findall_go]. rewrite Hc, (IH _ Ha).
    now rewrite snoc_app.
Qed.

Lemma findall_go_out_digits (a rest : string) :
  all_digits a = true ->
  Re.findall_go Re.Out (a ++ rest) = Re.findall_go (Re.Int a) rest.
Proof.
  intros Ha. destruct a as [ | c a]; [discriminate Ha | ].
  apply andb_prop in Ha as [Ha _]. cbn [Str.forallb] in Ha.
  apply andb_prop in Ha as [Hc Ha].
  cbn [append Re.findall_go]. rewrite Hc.
  now rewrite (findall_go_int a rest _ Ha).
Qed.

Lemma sep_char_no_digit (c : ascii) :
  Re.is_sep c = true ->
  Str.is_digit c = false /\ Ascii.eqb c Re.dot = false.
Proof.
  destruct c as [[] [] [] [] [] [] [] []]; intros Hc;
    try discriminate Hc; split; reflexivity.
Qed.

Lemma findall_go_seps (s rest : string) :
  Str.forallb Re.is_sep s = true ->
  Re.findall_go Re.Out (s ++ rest) = Re.findall_go Re.Out rest.
Proof.
  induction s as [ | c s IH]; intros Hs; [reflexivity | ].
  cbn [Str.forallb] in Hs. apply andb_prop in Hs as [Hc Hs].
  destruct (sep_char_no_digit c Hc) as [Hd _].
  cbn [append Re.findall_go]. rewrite Hd. now apply IH.
Qed.

(** A number at the head of the text, before its end or a separator, is
    the first number found. *)
Lemma findall_go_number (n rest : string) :
  number_shape n ->
  match rest with
  | EmptyString => True
  | String c _ => Re.is_sep c = true
  end ->
  Re.findall_go Re.Out (n ++ rest) = n :: Re.findall_go Re.Out rest.
Proof.
  intros Hn Hrest.
  assert (Hend : forall st cur,
            st = Re.Int cur \/ st = Re.Frac cur ->
            Re.findall_go st rest = cur :: Re.findall_go Re.Out rest).
  { intros st cur Hst. destruct rest as [ | c rest].
    - destruct Hst as [-> | ->]; reflexivity.
    - destruct (sep_char_no_digit c Hrest) as [Hd Hdot].
      destruct Hst as [-> | ->]; cbn [Re.findall_go]; rewrite Hd;
        [now rewrite Hdot | reflexivity]. }
  destruct Hn as [Hn | (a & b & -> & Ha & Hb)].
  - rewrite (findall_go_out_digits n rest Hn).
    apply (Hend _ n). now left.
  - rewrite !append_assoc_s, (findall_go_out_digits a _ Ha).
    change ("." ++ b ++ rest)%string with (String Re.dot (b ++ rest)).
    cbn [Re.findall_go]. change (Str.is_digit Re.dot) with false.
    cbn match. rewrite Ascii.eqb_refl.
    destruct b as [ | d b]; [discriminate Hb | ].
    apply andb_prop in Hb as [Hb _]. cbn [Str.forallb] in Hb.
    apply andb_prop in Hb as [Hd Hb].
    cbn [append Re.findall_go]. rewrite Hd.
    rewrite (findall_go_frac b rest _ Hb), snoc_snoc.
    rewrite append_assoc_s. cbn [append].
    rewrite (Hend _ (a ++ String Re.dot (String d b))%string
               ltac:(now right)).
    reflexivity.
Qed.

Lemma separator_run_head (s rest : string) :
  separator_run s = true ->
  match (s ++ rest)%string with
  | EmptyString => True
  | String c _ => Re.is_sep c = true
  end.
Proof.
  intros Hs. destruct (separator_run_seps s Hs) as (Hne & Hsep & _).
  destruct s as [ | c s]; [congruence | ].
  cbn [Str.forallb] in Hsep. apply andb_prop in Hsep as [Hc _].
  exact Hc.
Qed.

Lemma findall_three (n0 n1 n2 s1 s2 : string) :
  number_shape n0 -> number_shape n1 -> number_shape n2 ->
  separator_run s1 = true -> separator_run s2 = true ->
  Re.findall_numbers (n0 ++ s1 ++ n1 ++ s2 ++ n2) = [n0; n1; n2].
Proof.
  intros H0 H1 H2 Hs1 Hs2.
  destruct (separator_run_seps s1 Hs1) as (_ & Hsep1 & _).
  destruct (separator_run_seps s2 Hs2) as (_ & Hsep2 & _).
  unfold Re.findall_numbers.
  rewrite (findall_go_number n0 _ H0 (separator_run_head s1 _ Hs1)).
  rewrite (findall_go_seps s1 _ Hsep1).
  rewrite (findall_go_number n1 _ H1 (separator_run_head s2 _ Hs2)).
  rewrite (findall_go_seps s2 _ Hsep2).
  rewrite <- (append_empty_r n2) at 1.
  rewrite (findall_go_number n2 EmptyString H2 I).
  reflexivity.
Qed.

(** ** The request made of such a text *)

Lemma rstrip_fixed (s : string) (c : ascii) :
  Str.last_char s = Some c -> Str.is_space c = false -> Str.rstrip s = s.
Proof.
  induction s as [ | x s IH]; [discriminate | ].
  intros Hl Hc. cbn [Str.rstrip].
  destruct (Str.all_space (String x s)) eqn:E.
  - pose proof (all_space_last _ c E Hl). congruence.
  - destruct s as [ | y s]; [reflexivity | ].
    cbn [Str.last_char] in Hl. now rewrite (IH Hl Hc).
Qed.

Lemma good_char (c : ascii) :
  (Str.is_digit c || Ascii.eqb c Re.dot)
  || (Re.is_sep c && negb (Ascii.eqb c Re.newline)) = true ->
  Str.lower_char c = c /\ negb (Ascii.eqb c Re.newline) = true.
Proof.
  destruct c as [[] [] [] [] [] [] [] []]; intros Hc;
    try discriminate Hc; split; reflexivity.
Qed.

Lemma good_text (n0 n1 n2 s1 s2 : string) :
  number_shape n0 -> number_shape n1 -> number_shape n2 ->
  separator_run s1 = true -> separator_run s2 = true ->
  Str.forallb (fun c => (Str.is_digit c || Ascii.eqb c Re.dot)
                        || (Re.is_sep c && negb (Ascii.eqb c Re.newline)))
              (n0 ++ s1 ++ n1 ++ s2 ++ n2) = true.
Proof.
  intros H0 H1 H2 Hs1 Hs2.
  assert (Hn : forall n, number_shape n ->
     Str.forallb (fun c => (Str.is_digit c || Ascii.eqb c Re.dot)
                           || (Re.is_sep c && negb (Ascii.eqb c Re.newline)))
                 n = true).
  { intros n Hn. apply number_shape_plain in Hn. revert Hn.
    apply forallb_weaken. intros c ->. reflexivity. }
  assert (Hs : forall s, separator_run s = true ->
     Str.forallb (fun c => (Str.is_digit c || Ascii.eqb c Re.dot)
                           || (Re.is_sep c && negb (Ascii.eqb c Re.newline)))
                 s = true).
  { intros s Hs. unfold separator_run in Hs.
    apply andb_prop in Hs as [_ Hs]. revert Hs.
    apply forallb_weaken. intros c ->. apply orb_true_r. }
  rewrite !forallb_app.
  now rewrite (Hn n0 H0), (Hn n1 H1), (Hn n2 H2), (Hs s1 Hs1), (Hs s2 Hs2).
Qed.

Lemma good_text_lower (t : string) :
  Str.forallb (fun c => (Str.is_digit c || Ascii.eqb c Re.dot)
                        || (Re.is_sep c && negb (Ascii.eqb c Re.newline)))
              t = true ->
  Str.lower t = t /\
  Str.forallb (fun c => negb (Ascii.eqb c Re.newline)) t = true.
Proof.
  induction t as [ | c t IH]; [now split | ].
  cbn [Str.forallb]. intros Ht. apply andb_prop in Ht as [Hc Ht].
  destruct (good_char c Hc) as [Hl Hn]. destruct (IH Ht) as [IHl IHn].
  cbn [Str.lower]. now rewrite Hl, IHl, Hn, IHn.
Qed.

Lemma digit_char (c : ascii) :
  Str.is_digit c = true -> Str.is_space c = false /\ Re.is_gap c = false.
Proof.
  destruct c as [[] [] [] [] [] [] [] []]; intros Hc;
    try discriminate Hc; split; reflexivity.
Qed.

Lemma number_shape_head (n : string) :
  number_shape n -> exists c n', n = String c n' /\ Str.is_digit c = true.
Proof.
  intros [Hn | (a & b & -> & Ha & _)].
  - destruct n as [ | c n]; [discriminate Hn | ].
    apply andb_prop in Hn as [Hn _]. cbn [Str.forallb] in Hn.
    apply andb_prop in Hn as [Hc _]. eauto.
  - destruct a as [ | c a]; [discriminate Ha | ].
    apply andb_prop in Ha as [Ha _]. cbn [Str.forallb] in Ha.
    apply andb_prop in Ha as [Hc _]. cbn [append]. eauto.
Qed.

(** After a blank, a text that begins with a digit, ends with a digit and
    holds no newline is the group of the tail pattern. *)
Lemma match_tail_blank (t : string) (c d : ascii) (t' : string) :
  t = String c t' -> Str.is_digit c = true ->
  Str.last_char t = Some d -> Str.is_digit d = true ->
  Str.forallb (fun c => negb (Ascii.eqb c Re.newline)) t = true ->
  Re.match_tail (String " " t) = Some t.
Proof.
  intros -> Hc Hl Hd Hnl.
  destruct (digit_char c Hc) as [_ Hgap].
  destruct (digit_char d Hd) as [Hsp _].
  unfold Re.match_tail.
  rewrite (chomp_fixed (String " " (String c t')) d Hl
             (space_not_newline d Hsp)).
  cbn [String.length Re.span_len]. change (Re.is_gap " ") with true.
  cbn match. rewrite Hgap. cbn [Nat.min Str.drop].
  now rewrite Hnl.
Qed.

Lemma numeric_request (ty t t' : string) (c d : ascii) :
  ty = "uc" \/ ty = "ub" ->
  t = String c t' -> Str.is_digit c = true ->
  Str.last_char t = Some d -> Str.is_digit d = true ->
  Str.lower t = t ->
  Str.forallb (fun c => negb (Ascii.eqb c Re.newline)) t = true ->
  Re.match_h (Str.strip (Str.lower (ty ++ " " ++ t))) = None /\
  Re.match_uc_ub (Str.strip (Str.lower (ty ++ " " ++ t))) = Some (ty, t) /\
  Str.strip t = t.
Proof.
  intros Hty Ht Hc Hl Hd Hlow Hnl.
  destruct (digit_char c Hc) as [Hcsp _].
  destruct (digit_char d Hd) as [Hdsp _].
  assert (Hstrip : Str.strip t = t).
  { unfold Str.strip. rewrite (lstrip_fixed t).
    - exact (rstrip_fixed t d Hl Hdsp).
    - rewrite Ht. exact Hcsp. }
  assert (Hlast : forall p, Str.last_char (p ++ t) = Some d).
  { intros p. rewrite last_char_app; [exact Hl | ].
    rewrite Ht. discriminate. }
  assert (Htext : Str.strip (Str.lower (ty ++ " " ++ t))
                  = (ty ++ " " ++ t)%string).
  { rewrite lower_app, lower_app, Hlow.
    replace (Str.lower ty) with ty by (destruct Hty as [-> | ->]; reflexivity).
    change (Str.lower " ") with " ".
    unfold Str.strip. rewrite (lstrip_fixed (ty ++ " " ++ t)).
    - apply (rstrip_fixed _ d); [ | exact Hdsp].
      rewrite last_char_app; [apply (Hlast " ") | ].
      rewrite Ht. discriminate.
    - destruct Hty as [-> | ->]; reflexivity. }
  rewrite Htext. split; [ | split; [ | exact Hstrip]].
  - destruct Hty as [-> | ->]; reflexivity.
  - pose proof (match_tail_blank t c d t' Ht Hc Hl Hd Hnl) as Htail.
    unfold Re.match_uc_ub.
    destruct Hty as [-> | ->]; cbn [append Str.lstrip];
      change (Str.is_space "u") with false; cbn match;
      cbn [Str.starts_with]; cbn; rewrite Htail; reflexivity.
Qed.

Lemma plain_char_not_blank (c : ascii) :
  Str.is_digit c || Ascii.eqb c Re.dot = true -> (Str.code c =? 32) = false.
Proof.
  destruct c as [[] [] [] [] [] [] [] []]; intros Hc;
    try reflexivity; discriminate Hc.
Qed.

Lemma norm_key_plain (n : string) : plain n = true -> norm_key n = n.
Proof.
  intros Hn. unfold norm_key.
  assert (Hb : Str.remove_blanks n = n).
  { unfold Str.remove_blanks. revert Hn. unfold plain.
    induction n as [ | c n IH]; [reflexivity | ].
    cbn [Str.forallb Str.remove_if]. intros Hn.
    apply andb_prop in Hn as [Hc Hn].
    now rewrite (plain_char_not_blank c Hc), (IH Hn). }
  rewrite Hb. now apply lower_plain.
Qed.

Lemma build_keys_three (n0 n1 n2 s1 s2 : string) :
  number_shape n0 -> number_shape n1 -> number_shape n2 ->
  separator_run s1 = true -> separator_run s2 = true ->
  build_keys (Some (n0 ++ s1 ++ n1 ++ s2 ++ n2)%string)
  = (norm_key (n0 ++ "x" ++ n1), norm_key (n0 ++ "x" ++ n1 ++ "x" ++ n2)).
Proof.
  intros H0 H1 H2 Hs1 Hs2. unfold build_keys.
  rewrite (findall_three n0 n1 n2 s1 s2 H0 H1 H2 Hs1 Hs2).
  rewrite norm_key_pair, norm_key_triple.
  rewrite !(norm_key_plain n0 (number_shape_plain n0 H0)).
  rewrite !(norm_key_plain n1 (number_shape_plain n1 H1)).
  rewrite !(norm_key_plain n2 (number_shape_plain n2 H2)).
  rewrite !(lower_number n0 _ H0).
  change ("x" ++ n1 ++ "x" ++ n2)%string with (String "x" (n1 ++ "x" ++ n2)).
  change ("x" ++ n1)%string with (String "x" n1).
  cbn [Str.lower]. rewrite (lower_number n1 _ H1).
  change ("x" ++ n2)%string with (String "x" n2). cbn [Str.lower].
  now rewrite (lower_number_end n1 H1), (lower_number_end n2 H2).
Qed.

(** A row whose keys the loader built from a designation of three numbers
    with separators between them is found by a lookup of that very text:
    the record returned has the same two keys as the row. *)
Theorem designation_round_trip {F : Type} `{PyFloat F}
  (re_compile : string -> option (string -> bool))
  (tables : list (string * DataFrame F)) (ty n0 n1 n2 s1 s2 : string)
  (df : DataFrame F) (r : Row F) :
  ty = "uc" \/ ty = "ub" ->
  number_shape n0 -> number_shape n1 -> number_shape n2 ->
  separator_run s1 = true -> separator_run s2 = true ->
  lookup_table (upper ty) tables = Some df ->
  In r (rows df) ->
  (lookup_key r, full_lookup_key r)
  = build_keys (Some (n0 ++ s1 ++ n1 ++ s2 ++ n2)%string) ->
  exists w,
    In w (rows df) /\
    lookup_key w = lookup_key r /\ full_lookup_key w = full_lookup_key r /\
    find_section re_compile tables (ty ++ " " ++ n0 ++ s1 ++ n1 ++ s2 ++ n2)
    = Ok {| type := upper ty;
            section := (n0 ++ s1 ++ n1 ++ s2 ++ n2)%string;
            properties :=
              format_row (drop_labels ["lookup_key"; "full_lookup_key"]
                                      (to_series w)) |}.
Proof.
  intros Hty H0 H1 H2 Hs1 Hs2 Ht Hin Hkeys.
  set (t := (n0 ++ s1 ++ n1 ++ s2 ++ n2)%string) in *.
  destruct (number_shape_head n0 H0) as (c & n0' & E0 & Hc).
  destruct (number_shape_last n2 H2) as (d & Hl2 & Hd).
  assert (Hhead : t = String c (n0' ++ s1 ++ n1 ++ s2 ++ n2))
    by (unfold t; now rewrite E0).
  assert (Hlast : Str.last_char t = Some d).
  { unfold t. pose proof (number_shape_nonempty n2 H2) as Hne.
    assert (Hx : forall a b, b <> EmptyString ->
                             (a ++ b)%string <> EmptyString)
      by (intros a b Hb; destruct a; [exact Hb | discriminate]).
    rewrite !last_char_app; auto. }
  destruct (good_text_lower t (good_text n0 n1 n2 s1 s2 H0 H1 H2 Hs1 Hs2))
    as [Hlow Hnl].
  destruct (numeric_request ty t _ c d Hty Hhead Hc Hlast Hd Hlow Hnl)
    as (Hh & Hm & Hstrip).
  pose proof (build_keys_three n0 n1 n2 s1 s2 H0 H1 H2 Hs1 Hs2) as Hb.
  fold t in Hb. rewrite Hb in Hkeys.
  assert (Hlk : lookup_key r = norm_key (n0 ++ "x" ++ n1))
    by (now injection Hkeys).
  assert (Hfk : full_lookup_key r
                = norm_key (n0 ++ "x" ++ n1 ++ "x" ++ n2))
    by (now injection Hkeys).
  assert (Hsplit : Re.split (Str.strip t) = [n0; n1; n2]).
  { rewrite Hstrip. apply split_three; assumption. }
  assert (Hbuilt : keys_built r).
  { exists (Some t). now rewrite Hb, Hlk, Hfk. }
  destruct (uc_ub_request_full_key re_compile tables (upper ty)
              (Str.strip t) n0 n1 n2 [] df r Ht Hsplit Hin Hbuilt Hfk)
    as (w & Hw & Hwk & Hwf & Hres).
  exists w. split; [exact Hw | ]. split; [now rewrite Hwk, Hlk | ].
  split; [exact Hwf | ].
  rewrite (find_section_uc_ub re_compile tables _ ty t Hh Hm).
  now rewrite Hstrip in Hres |- *.
Qed.

Lemma designation_round_trip_witness :
  exists w,
    In w (rows Sample.ub) /\
    lookup_key w = "1016x305" /\ full_lookup_key w = "1016x305x584" /\
    Sample.lookup Sample.tables "ub 1016 x 305 x 584"
    = Ok {| type := "UB";
            section := "1016 x 305 x 584";
            properties :=
              format_row (drop_labels ["lookup_key"; "full_lookup_key"]
                                      (to_series w)) |}.
Proof.
  apply (@designation_round_trip Q Exact.pyfloat PlainRe.compile
           Sample.tables "ub" "1016" "305" "584" " x " " x " Sample.ub
           (Sample.ub_row "1016 x 305 x 584" "1016x305" "1016x305x584")
           (or_intror eq_refl)
           (or_introl eq_refl) (or_introl eq_refl) (or_introl eq_refl)
           eq_refl eq_refl eq_refl).
  - right; left; reflexivity.
  - reflexivity.
Defined.

(** * Properties of the callers *)

Section TableFacts.
Context {F : Type} `{PyFloat F}.

Lemma lookup_set_same (k : string) (d : DataFrame F)
  (tables : list (string * DataFrame F)) :
  lookup_table k (set_table k d tables) = Some d.
Proof.
  induction tables as [ | [k' d'] tables IH]; cbn [set_table lookup_table].
  - now rewrite String.eqb_refl.
  - destruct (String.eqb k k') eqn:E; cbn [lookup_table].
    + now rewrite String.eqb_refl.
    + now rewrite E.
Qed.

Lemma lookup_set_other (k k0 : string) (d : DataFrame F)
  (tables : list (string * DataFrame F)) :
  k0 <> k -> lookup_table k0 (set_table k d tables) = lookup_table k0 tables.
Proof.
  intros Hk. apply String.eqb_neq in Hk.
  induction tables as [ | [k' d'] tables IH]; cbn [set_table lookup_table].
  - now rewrite Hk.
  - destruct (String.eqb k k') eqn:E; cbn [lookup_table].
    + apply String.eqb_eq in E. subst k'. now rewrite Hk.
    + now rewrite IH.
Qed.

End TableFacts.

Section LoadFacts.
Context {F : Type} `{PyFloat F}.
Variable path_join : string -> string -> string.
Variable path_exists : string -> bool.
Variable read_sheet : string -> option (RawFrame F).

Lemma load_table_lookup
  (state : list (string * DataFrame F) * list (printed F))
  (section_type file_path k : string) :
  lookup_table k
    (fst (load_table path_exists read_sheet state (section_type, file_path)))
  = if String.eqb k section_type then
      match (if path_exists file_path
             then load_single_table read_sheet file_path else None) with
      | Some df => Some df
      | None => lookup_table k (fst state)
      end
    else lookup_table k (fst state).
Proof.
  destruct state as [tables out]. unfold load_table. cbn [fst].
  destruct (String.eqb k section_type) eqn:E.
  - apply String.eqb_eq in E. subst k.
    destruct (path_exists file_path); [ | reflexivity].
    destruct (load_single_table read_sheet file_path); [ | reflexivity].
    cbn [fst]. apply lookup_set_same.
  - apply String.eqb_neq in E.
    destruct (path_exists file_path); [ | reflexivity].
    destruct (load_single_table read_sheet file_path); [ | reflexivity].
    cbn [fst]. now apply lookup_set_other.
Qed.

End LoadFacts.

(** After [load_all_tables] the table of a family is the one just loaded
    when its file exists and loads; otherwise it is the table that was
    there before, if any: a failure on one file touches neither that
    family's earlier table nor the other family.  No other entry is
    changed. *)
Theorem load_all_tables_lookup {F : Type} `{PyFloat F}
  (path_join : string -> string -> string) (path_exists : string -> bool)
  (read_sheet : string -> option (RawFrame F))
  (tables : list (string * DataFrame F)) (folder_path : string) :
  let after :=
    fst (load_all_tables path_join path_exists read_sheet tables folder_path)
  in
  let attempt section_type :=
    let path := path_join folder_path (table_file section_type) in
    if path_exists path then load_single_table read_sheet path else None in
  (forall section_type,
     section_type = "UC" \/ section_type = "UB" ->
     lookup_table section_type after
     = match attempt section_type with
       | Some df => Some df
       | None => lookup_table section_type tables
       end) /\
  (forall k, k <> "UC" -> k <> "UB" ->
             lookup_table k after = lookup_table k tables).
Proof.
  cbn zeta. unfold load_all_tables. cbn [fold_left].
  split.
  - intros section_type Hst.
    rewrite !load_table_lookup. cbn [fst].
    destruct Hst as [-> | ->]; cbn [String.eqb Ascii.eqb Bool.eqb];
      [change (table_file "UC") with uc_file
      | change (table_file "UB") with ub_file].
    + reflexivity.
    + reflexivity.
  - intros k Hc Hb. rewrite !load_table_lookup. cbn [fst].
    apply String.eqb_neq in Hc, Hb. now rewrite Hc, Hb.
Qed.

Section NotLoadedFacts.
Context {F : Type} `{PyFloat F}.
Variable re_compile : string -> option (string -> bool).

Lemma not_loaded_iff (tables : list (string * DataFrame F))
  (input ty g : string) :
  Re.match_h (Str.strip (Str.lower input)) = None ->
  Re.match_uc_ub (Str.strip (Str.lower input)) = Some (ty, g) ->
  (find_section re_compile tables input = Raise (err_not_loaded (upper ty))
   <-> lookup_table (upper ty) tables = None).
Proof.
  intros Hh Hm.
  rewrite (find_section_uc_ub re_compile tables input ty g Hh Hm).
  split.
  - intros E.
    destruct (uc_ub_request_raises re_compile tables _ _ _ E)
      as [[Ht _]
         | (df & Ht & [[_ He] | (_ & _ & [[He _] | [He _]])])];
      [exact Ht | discriminate He | discriminate He | exfalso].
    destruct (match_uc_ub_type _ _ _ Hm) as [-> | ->];
      cbn in He; discriminate He.
  - intros Ht. unfold uc_ub_request. now rewrite Ht.
Qed.

End NotLoadedFacts.

(** [lookup_section] loads the tables from the folder [.] and then looks
    the input up: a UC/UB lookup is answered with the [ValueError] of the
    table not loaded exactly when the file of its family is missing or
    its loading raises, whatever becomes of the other family's file. *)
Theorem lookup_section_not_loaded {F : Type} `{PyFloat F}
  (re_compile : string -> option (string -> bool))
  (path_join : string -> string -> string) (path_exists : string -> bool)
  (read_sheet : string -> option (RawFrame F)) (input ty g : string) :
  Re.match_h (Str.strip (Str.lower input)) = None ->
  Re.match_uc_ub (Str.strip (Str.lower input)) = Some (ty, g) ->
  let path := path_join "." (table_file (upper ty)) in
  (lookup_section re_compile path_join path_exists read_sheet input
   = Raise (err_not_loaded (upper ty))
   <-> (path_exists path = false
        \/ load_single_table read_sheet path = None)).
Proof.
  intros Hh Hm path. unfold lookup_section.
  rewrite (not_loaded_iff re_compile _ input ty g Hh Hm).
  subst path. unfold load_all_tables. cbn [fold_left].
  rewrite !load_table_lookup. cbn [fst lookup_table].
  destruct (match_uc_ub_type _ _ _ Hm) as [-> | ->].
  - change (upper "uc") with "UC".
    change (String.eqb "UC" "UB") with false.
    change (String.eqb "UC" "UC") with true.
    change (table_file "UC") with uc_file. cbn beta iota.
    destruct (path_exists (path_join "." uc_file)).
    + destruct (load_single_table read_sheet (path_join "." uc_file)).
      * split; [discriminate | intros [E | E]; discriminate E].
      * split; [now right | reflexivity].
    + split; [now left | reflexivity].
  - change (upper "ub") with "UB".
    change (String.eqb "UB" "UB") with true.
    change (String.eqb "UB" "UC") with false.
    change (table_file "UB") with ub_file. cbn beta iota.
    destruct (path_exists (path_join "." ub_file)).
    + destruct (load_single_table read_sheet (path_join "." ub_file)).
      * split; [discriminate | intros [E | E]; discriminate E].
      * split; [now right | reflexivity].
    + split; [now left | reflexivity].
Qed.

Lemma lookup_section_not_loaded_witness :
  lookup_section PlainRe.compile SampleFiles.join SampleFiles.nothing
                 SampleFiles.read "uc 356x406"
  = Raise (err_not_loaded "UC") /\
  lookup_section PlainRe.compile SampleFiles.join SampleFiles.anything
                 SampleFiles.read "uc 356x406"
  <> Raise (err_not_loaded "UC").
Proof.
  split.
  - apply (proj2 (@lookup_section_not_loaded Q Exact.pyfloat
                    PlainRe.compile SampleFiles.join SampleFiles.nothing
                    SampleFiles.read "uc 356x406" "uc" "356x406"
                    eq_refl eq_refl)).
    now left.
  - intros E.
    apply (proj1 (@lookup_section_not_loaded Q Exact.pyfloat
                    PlainRe.compile SampleFiles.join SampleFiles.anything
                    SampleFiles.read "uc 356x406" "uc" "356x406"
                    eq_refl eq_refl)) in E.
    destruct E as [E | E]; [discriminate E | ].
    vm_compute in E. discriminate E.
Defined.

(** ** The handler of the HTTP route *)

(** The handler [get_section] returns the result of the lookup when the
    lookup returns, and raises [HTTPException] with status 404 and the
    message exactly when the lookup raises a [ValueError], parse errors and
    missing tables included.  Three failures are not caught: the
    [OverflowError] of a power, in a built-up H request whose four
    dimensions were read; the [KeyError] of a UC/UB lookup on a loaded
    table without rows; and the exception of [re], in a UC/UB lookup on a
    loaded table with rows of which none has the query key, when [re]
    refuses the key as a pattern.  The tables have distinct labels, none of
    them computed. *)
Theorem get_section_responses {F : Type} `{PyFloat F}
  (re_compile : string -> option (string -> bool))
  (tables : list (string * DataFrame F)) (input : string) :
  well_labelled_tables tables = true ->
  let text := Str.strip (Str.lower input) in
  (forall r, get_section re_compile tables input = Returned r <->
             find_section re_compile tables input = Ok r) /\
  (forall status detail,
     get_section re_compile tables input = HTTPException status detail <->
     status = 404 /\
     find_section re_compile tables input = Raise (ValueError detail)) /\
  (forall e,
     get_section re_compile tables input = Unhandled e ->
     (e = OverflowError /\
      exists g, Re.match_h text = Some g /\
        4 <= List.length (Re.split (Str.strip g)) /\
        Forall (fun p => float_of_str p <> None)
               (firstn 4 (Re.split (Str.strip g)))) \/
     (e = KeyError "lookup_key" /\
      exists ty g df,
        Re.match_h text = None /\ Re.match_uc_ub text = Some (ty, g) /\
        lookup_table (upper ty) tables = Some df /\ rows df = []) \/
     (e = ReError /\
      exists ty g df,
        Re.match_h text = None /\ Re.match_uc_ub text = Some (ty, g) /\
        lookup_table (upper ty) tables = Some df /\ rows df <> [] /\
        let key := query_key (Str.strip g) (Re.split (Str.strip g)) in
        re_compile key = None /\
        forall r, In r (rows df) -> lookup_key r <> key)) /\
  (forall ty g df,
     Re.match_h text = None -> Re.match_uc_ub text = Some (ty, g) ->
     lookup_table (upper ty) tables = Some df -> rows df = [] ->
     get_section re_compile tables input = Unhandled (KeyError "lookup_key")).
Proof.
  intros _ text. unfold get_section.
  split; [ | split; [ | split]].
  - intros r.
    destruct (find_section re_compile tables input) as [r' | [ | | | ]];
      split; intros E; try discriminate E; now injection E as ->.
  - intros status detail.
    destruct (find_section re_compile tables input) as [r' | [msg | | | ]];
      split; try discriminate; try (intros [_ E]; discriminate E).
    + intros E. injection E as <- <-. now split.
    + intros [-> E]. now injection E as ->.
  - intros e.
    destruct (find_section re_compile tables input) as [r' | e'] eqn:Ef;
      [discriminate | ].
    intros Ee.
    assert (He : e' = e /\ forall msg, e <> ValueError msg).
    { destruct e'; try discriminate Ee; injection Ee as <-;
        split; try reflexivity; intros msg; discriminate. }
    destruct He as [-> Hnv]. clear Ee.
    unfold find_section in Ef. fold text in Ef.
    destruct (Re.match_h text) as [g | ] eqn:Hh.
    + left.
      destruct (h_request_raises _ _ Ef)
        as [[_ ->] | [(_ & _ & ->) | (Hlen & Hall & ->)]].
      * exfalso. eapply Hnv; reflexivity.
      * exfalso. eapply Hnv; reflexivity.
      * split; [reflexivity | ]. exists g. now repeat split.
    + destruct (Re.match_uc_ub text) as [[ty g] | ] eqn:Hm.
      * right.
        destruct (uc_ub_request_raises re_compile tables _ _ _ Ef)
          as [[_ ->]
             | (df & Ht & [[Hrows ->]
                          | (Hrows & Hno & [[-> Hrc] | [-> _]])])].
        -- exfalso. eapply Hnv; reflexivity.
        -- left. split; [reflexivity | ]. exists ty, g, df.
           repeat split; assumption.
        -- right. split; [reflexivity | ]. exists ty, g, df.
           repeat split; assumption.
        -- exfalso. eapply Hnv; reflexivity.
      * injection Ef as <-. exfalso. eapply Hnv; reflexivity.
  - intros ty g df Hh Hm Ht Hrows.
    rewrite (find_section_uc_ub re_compile tables input ty g Hh Hm).
    unfold uc_ub_request. rewrite Ht.
    now rewrite (candidates_no_rows re_compile df _ Hrows).
Qed.

Lemma get_section_responses_witness :
  get_section PlainRe.compile Sample.tables "uc 999x999"
  = HTTPException 404 "UC section '999x999' not found" /\
  get_section (F:=Q) PlainRe.compile
              [("UC", {| columns := ["Section designation"]; rows := [] |})]
              "uc 356x406"
  = Unhandled (KeyError "lookup_key").
Proof.
  split.
  - destruct (@get_section_responses Q Exact.pyfloat PlainRe.compile
                Sample.tables "uc 999x999" eq_refl) as (_ & Hv & _).
    apply Hv. split; [reflexivity | vm_compute; reflexivity].
  - destruct (@get_section_responses Q Exact.pyfloat PlainRe.compile
                [("UC", {| columns := ["Section designation"]; rows := [] |})]
                "uc 356x406" eq_refl) as (_ & _ & _ & Hk).
    exact (Hk "uc" "356x406" _ eq_refl eq_refl eq_refl eq_refl).
Defined.

(** ** The interactive loop *)

Section LoopFacts.
Context {F : Type} `{PyFloat F}.
Variable re_compile : string -> option (string -> bool).

Lemma h_request_ok (designation : string) (res : LookupResult F) :
  h_request designation = Ok res ->
  exists A Ixx,
    res = {| type := "H-BuiltUp";
             section := ("h " ++ designation)%string;
             properties :=
               [ ("Area (A) (mm^2)", VNum A);
                 ("Second moment of area (Ixx) (mm^4)", VNum Ixx) ] |}.
Proof.
  unfold h_request.
  destruct (List.length (Re.split designation) <? 4); [discriminate | ].
  destruct (map float_of_str (firstn 4 (Re.split designation)))
    as [ | [D | ] [ | [B | ] [ | [T | ] [ | [t | ] [ | ? ?]]]]];
    try discriminate.
  destruct (h_section_properties D B T t) as [[A Ixx] | e]; cbn [bind];
    [ | discriminate].
  intros E. injection E as <-. now exists A, Ixx.
Qed.

Lemma quit_is_no_request (text : string) :
  String.eqb (Str.lower text) "quit" = true ->
  Re.match_h (Str.strip (Str.lower text)) = None.
Proof. intros E. apply String.eqb_eq in E. now rewrite E. Qed.

End LoopFacts.

(** The loop reads no line after one that is [quit], in any case and with
    any whitespace around it, nor after one whose lookup raises an
    exception that is no [ValueError]: what follows such a line changes
    neither what is printed nor how the loop ends. *)
Theorem interactive_loop_stops {F : Type} `{PyFloat F}
  (re_compile : string -> option (string -> bool))
  (tables : list (string * DataFrame F))
  (before : list string) (line : string) (after : list string) :
  Str.lower (Str.strip line) = "quit" \/
  (exists e, find_section re_compile tables (Str.strip line) = Raise e /\
             forall msg, e <> ValueError msg) ->
  interactive_loop re_compile tables (before ++ line :: after)
  = interactive_loop re_compile tables (before ++ [line]).
Proof.
  intros Hstop. induction before as [ | l before IH].
  - cbn [app interactive_loop].
    destruct (String.eqb (Str.lower (Str.strip line)) "quit") eqn:Eq;
      [reflexivity | ].
    destruct Hstop as [Hq | (e & He & Hnv)].
    + apply String.eqb_neq in Eq. congruence.
    + rewrite He. destruct e; try reflexivity.
      exfalso. eapply Hnv; reflexivity.
  - cbn [app interactive_loop]. rewrite IH. reflexivity.
Qed.

Lemma interactive_loop_stops_witness :
  interactive_loop PlainRe.compile Sample.tables
                   ["uc 999x999"; "  QuIt "; "h 300x150x20x10"]
  = interactive_loop PlainRe.compile Sample.tables
                     ["uc 999x999"; "  QuIt "] /\
  interactive_loop PlainRe.compile Sample.tables
                   ["uc 35(x406"; "uc 356x406"]
  = interactive_loop PlainRe.compile Sample.tables ["uc 35(x406"].
Proof.
  split.
  - apply (@interactive_loop_stops Q Exact.pyfloat PlainRe.compile
             Sample.tables ["uc 999x999"] "  QuIt " ["h 300x150x20x10"]).
    left. reflexivity.
  - apply (@interactive_loop_stops Q Exact.pyfloat PlainRe.compile
             Sample.tables [] "uc 35(x406" ["uc 356x406"]).
    right. exists ReError. split; [vm_compute; reflexivity | ].
    intros msg. discriminate.
Defined.

(** After a built-up H request that succeeds the loop prints the heading,
    the rule, the two properties, and a count of further properties that
    is [len(props) - 12], here minus ten; then it reads the next line. *)
Theorem interactive_h_request {F : Type} `{PyFloat F}
  (re_compile : string -> option (string -> bool))
  (tables : list (string * DataFrame F))
  (line g : string) (rest : list string) (res : LookupResult F) :
  Re.match_h (Str.strip (Str.lower (Str.strip line))) = Some g ->
  find_section re_compile tables (Str.strip line) = Ok res ->
  exists A Ixx,
    interactive_loop re_compile tables (line :: rest)
    = (Prompt
         :: Found "H-BuiltUp" ("h " ++ Str.strip g) :: Rule
         :: Property "Area (A) (mm^2)" (VNum A)
         :: Property "Second moment of area (Ixx) (mm^4)" (VNum Ixx)
         :: More (-10)
         :: fst (interactive_loop re_compile tables rest),
       snd (interactive_loop re_compile tables rest)).
Proof.
  intros Hm Hres. cbn [interactive_loop].
  destruct (String.eqb (Str.lower (Str.strip line)) "quit") eqn:Eq.
  { rewrite (quit_is_no_request _ Eq) in Hm. discriminate Hm. }
  rewrite Hres.
  rewrite (find_section_h re_compile tables _ g Hm) in Hres.
  destruct (h_request_ok _ _ Hres) as (A & Ixx & ->).
  exists A, Ixx. cbn [properties type section firstn map List.length app].
  destruct (interactive_loop re_compile tables rest) as [out e].
  reflexivity.
Qed.

Lemma interactive_h_request_witness :
  exists A Ixx,
    interactive_loop PlainRe.compile Sample.tables [" H 300x150x20x10"]
    = ([ Prompt; Found "H-BuiltUp" "h 300x150x20x10"; Rule;
         Property "Area (A) (mm^2)" (VNum A);
         Property "Second moment of area (Ixx) (mm^4)" (VNum Ixx);
         More (-10); Prompt ],
       EndOfInput).
Proof.
  exact (@interactive_h_request Q Exact.pyfloat PlainRe.compile Sample.tables
           " H 300x150x20x10" "300x150x20x10" []
           {| type := "H-BuiltUp";
              section := "h 300x150x20x10";
              properties :=
                [ ("Area (A) (mm^2)", VNum (8600 # 1)%Q);
                  ("Second moment of area (Ixx) (mm^4)",
                   VNum (397340000 # 3)%Q) ] |}
           eq_refl ltac:(vm_compute; reflexivity)).
Defined.

(** * Lookups by the extra number *)

(** When no row has the full key of a query of three tokens, the third
    token is read as a number, and some row with the lookup key of the
    query carries that number in [extra_numeric], the lookup succeeds with
    a record of that lookup key whose [extra_numeric] equals the number:
    the variant asked for, not the first row under the heading. *)
Theorem extra_numeric_lookup {F : Type} `{PyFloat F}
  (re_compile : string -> option (string -> bool))
  (tables : list (string * DataFrame F))
  (input ty g p0 p1 p2 : string) (rest : list string)
  (df : DataFrame F) (r : Row F) (x v : F) :
  Re.match_h (Str.strip (Str.lower input)) = None ->
  Re.match_uc_ub (Str.strip (Str.lower input)) = Some (ty, g) ->
  lookup_table (upper ty) tables = Some df ->
  Re.split (Str.strip g) = p0 :: p1 :: p2 :: rest ->
  (forall r', In r' (rows df) ->
              full_lookup_key r' <> norm_key (p0 ++ "x" ++ p1 ++ "x" ++ p2)) ->
  float_of_str p2 = Some v ->
  In r (rows df) -> lookup_key r = norm_key (p0 ++ "x" ++ p1) ->
  extra_numeric r = Some x -> fisnan x = false -> feqb x v = true ->
  exists w y,
    In w (rows df) /\ lookup_key w = norm_key (p0 ++ "x" ++ p1) /\
    extra_numeric w = Some y /\ fisnan y = false /\ feqb y v = true /\
    find_section re_compile tables input
    = Ok {| type := upper ty;
            section := Str.strip g;
            properties :=
              format_row (drop_labels ["lookup_key"; "full_lookup_key"]
                                      (to_series w)) |}.
Proof.
  intros Hh Hm Ht Hs Hnofull Hv Hin Hlk Hx Hnan Heq.
  set (key := norm_key (p0 ++ "x" ++ p1)) in *.
  set (matches := filter (fun r => String.eqb (lookup_key r) key) (rows df)).
  assert (Hc : candidates re_compile df key = Ok matches)
    by (now apply (candidates_exact re_compile df key r)).
  assert (Hrm : In r matches)
    by (apply filter_In; split; [exact Hin | now apply String.eqb_eq]).
  assert (Hfk : fk_matches matches p0 p1 p2 = []).
  { unfold fk_matches. apply filter_none. intros r' Hr'.
    apply String.eqb_neq. apply Hnofull.
    unfold matches in Hr'. now apply filter_In in Hr'. }
  set (test := fun r0 : Row F =>
                 match extra_numeric r0 with
                 | Some x0 => negb (fisnan x0) && feqb x0 v
                 | None => false
                 end).
  assert (Hrt : test r = true)
    by (unfold test; now rewrite Hx, Hnan, Heq).
  destruct (filter_cons_in test matches r Hrm Hrt) as (w & l' & Hen).
  assert (Hw : In w matches /\ test w = true).
  { apply (filter_In test). rewrite Hen. now left. }
  destruct Hw as [Hwm Hwt].
  apply filter_In in Hwm as [Hwin Hwk]. apply String.eqb_eq in Hwk.
  unfold test in Hwt. destruct (extra_numeric w) as [y | ] eqn:Ey;
    [ | discriminate Hwt].
  apply andb_prop in Hwt as [Hy1 Hy2]. apply negb_true_iff in Hy1.
  exists w, y. repeat (split; [assumption | ]).
  rewrite (find_section_uc_ub re_compile tables input ty g Hh Hm).
  apply (uc_ub_request_found re_compile tables (upper ty) (Str.strip g) df
           matches w ["lookup_key"; "full_lookup_key"] Ht).
  - rewrite Hs. exact Hc.
  - rewrite Hs. unfold refine. rewrite Hfk, Hv.
    unfold en_matches. fold test. rewrite Hen.
    now destruct (negb (is_empty p2) && _).
Qed.

Lemma extra_numeric_lookup_witness :
  exists w y,
    In w (rows Sample.uc) /\ lookup_key w = "356x406" /\
    extra_numeric w = Some y /\ fisnan y = false /\
    feqb y (283 # 1)%Q = true /\
    Sample.lookup Sample.tables "uc 356x406x283"
    = Ok {| type := "UC";
            section := "356x406x283";
            properties :=
              format_row (drop_labels ["lookup_key"; "full_lookup_key"]
                                      (to_series w)) |}.
Proof.
  apply (@extra_numeric_lookup Q Exact.pyfloat PlainRe.compile Sample.tables
           "uc 356x406x283" "uc" "356x406x283" "356" "406" "283" []
           Sample.uc Sample.r283 (283 # 1)%Q (283 # 1)%Q
           eq_refl eq_refl eq_refl eq_refl).
  - intros r' [<- | [<- | []]]; discriminate.
  - reflexivity.
  - right; left; reflexivity.
  - reflexivity.
  - reflexivity.
  - reflexivity.
  - reflexivity.
Defined.

(** * The keys are in normal form *)

Lemma findall_two (n0 n1 s1 : string) :
  number_shape n0 -> number_shape n1 -> separator_run s1 = true ->
  Re.findall_numbers (n0 ++ s1 ++ n1) = [n0; n1].
Proof.
  intros H0 H1 Hs1.
  destruct (separator_run_seps s1 Hs1) as (_ & Hsep1 & _).
  unfold Re.findall_numbers.
  rewrite (findall_go_number n0 _ H0 (separator_run_head s1 _ Hs1)).
  rewrite (findall_go_seps s1 _ Hsep1).
  rewrite <- (append_empty_r n1) at 1.
  rewrite (findall_go_number n1 EmptyString H1 I).
  reflexivity.
Qed.

Lemma key_pair_fixed (n0 n1 : string) :
  number_shape n0 -> number_shape n1 ->
  norm_key (n0 ++ "x" ++ n1) = (n0 ++ String Re.letter_x n1)%string.
Proof.
  intros H0 H1. rewrite norm_key_pair.
  now rewrite (norm_key_plain n0 (number_shape_plain n0 H0)),
              (norm_key_plain n1 (number_shape_plain n1 H1)).
Qed.

Lemma key_triple_fixed (n0 n1 n2 : string) :
  number_shape n0 -> number_shape n1 -> number_shape n2 ->
  norm_key (n0 ++ "x" ++ n1 ++ "x" ++ n2)
  = (n0 ++ String Re.letter_x (n1 ++ String Re.letter_x n2))%string.
Proof.
  intros H0 H1 H2. rewrite norm_key_triple.
  now rewrite (norm_key_plain n0 (number_shape_plain n0 H0)),
              (norm_key_plain n1 (number_shape_plain n1 H1)),
              (norm_key_plain n2 (number_shape_plain n2 H2)).
Qed.

(** The keys of the loader are fixed by the loader: [build_keys] on a
    lookup key gives that lookup key back, and on a full key gives back
    both keys of the designation it came from.  A key can stand for the
    designation. *)
Theorem build_keys_of_keys (s : option string) :
  fst (build_keys (Some (fst (build_keys s)))) = fst (build_keys s) /\
  (snd (build_keys s) <> EmptyString ->
   build_keys (Some (snd (build_keys s))) = build_keys s).
Proof.
  destruct (build_keys_forms s)
    as [E | [(n0 & n1 & H0 & H1 & E)
            | (n0 & n1 & n2 & H0 & H1 & H2 & E)]];
    rewrite E; cbn [fst snd].
  - split; [reflexivity | congruence].
  - split; [ | congruence].
    change (n0 ++ String Re.letter_x n1)%string
      with (n0 ++ "x" ++ n1)%string.
    unfold build_keys. rewrite (findall_two n0 n1 "x" H0 H1 eq_refl).
    cbn [fst]. rewrite (lower_number n0 _ H0).
    change ("x" ++ n1)%string with (String "x" n1). cbn [Str.lower].
    now rewrite (lower_number_end n1 H1).
  - split.
    + change (n0 ++ String Re.letter_x n1)%string
        with (n0 ++ "x" ++ n1)%string.
      unfold build_keys. rewrite (findall_two n0 n1 "x" H0 H1 eq_refl).
      cbn [fst]. rewrite (lower_number n0 _ H0).
      change ("x" ++ n1)%string with (String "x" n1). cbn [Str.lower].
      now rewrite (lower_number_end n1 H1).
    + intros _.
      change (n0 ++ String Re.letter_x (n1 ++ String Re.letter_x n2))%string
        with (n0 ++ "x" ++ n1 ++ "x" ++ n2)%string.
      rewrite (build_keys_three n0 n1 n2 "x" "x" H0 H1 H2 eq_refl eq_refl).
      now rewrite (key_pair_fixed n0 n1 H0 H1),
                  (key_triple_fixed n0 n1 n2 H0 H1 H2).
Qed.

(** * The built-up H section against the subtraction formulas *)

From Stdlib Require Import Lqa.

Local Open Scope Q_scope.

(** In exact arithmetic the sum by the parallel-axis theorem that the
    code computes is the value of the formulas by subtraction: the area is
    that of the rectangle [B] by [D] less the two recesses beside the web,
    and the second moment is [(B D^3 - (B - t)(D - 2T)^3) / 12]. *)
Theorem h_section_by_subtraction (D B T t : Q) :
  exists A Ixx,
    h_section_properties D B T t = Ok (A, Ixx) /\
    A == B * D - (B - t) * (D - 2 * T) /\
    Ixx == (B * D ^ 3 - (B - t) * (D - 2 * T) ^ 3) / 12.
Proof.
  destruct (exact_h_section D B T t) as (A & Ixx & E & HA & HI).
  exists A, Ixx. split; [exact E | ]. rewrite HA, HI.
  unfold Qpower, Qpower_positive; cbn [pow_pos]. split; [ring | field].
Qed.

(** In exact arithmetic, positive dimensions with a web of positive
    height, [D > 2T], give a positive area and a positive second moment. *)
Theorem h_section_positive (D B T t : Q) :
  0 < B -> 0 < T -> 0 < t -> 2 * T < D ->
  exists A Ixx,
    h_section_properties D B T t = Ok (A, Ixx) /\ 0 < A /\ 0 < Ixx.
Proof.
  intros HB HT Ht HD.
  destruct (exact_h_section D B T t) as (A & Ixx & E & HA & HI).
  exists A, Ixx. split; [exact E | ]. rewrite HA, HI.
  assert (Hh : 0 < D - 2 * T) by lra.
  assert (H1 : 0 < B * T) by nra.
  assert (H2 : 0 < t * (D - 2 * T)) by nra.
  split; [nra | ].
  unfold Qpower, Qpower_positive; cbn [pow_pos].
  assert (H3 : 0 < T * T) by nra.
  assert (H4 : 0 < (D - 2 * T) * (D - 2 * T)) by nra.
  assert (H5 : 0 < B * (T * (T * T))) by nra.
  assert (H6 : 0 < t * ((D - 2 * T) * ((D - 2 * T) * (D - 2 * T)))) by nra.
  assert (H7 : 0 <= B * T * ((D / 2 - T / 2) * (D / 2 - T / 2))).
  { generalize (D / 2 - T / 2). intros y.
    assert (Hy : 0 <= y * y) by nra. nra. }
  assert (H8 : 0 < B * (T * (T * T)) / 12)
    by (apply Qlt_shift_div_l; lra).
  assert (H9 : 0 < t * ((D - 2 * T) * ((D - 2 * T) * (D - 2 * T))) / 12)
    by (apply Qlt_shift_div_l; lra).
  lra.
Qed.

Lemma h_section_positive_witness :
  exists A Ixx,
    h_section_properties (300 # 1) (150 # 1) (20 # 1) (10 # 1) = Ok (A, Ixx)
    /\ 0 < A /\ 0 < Ixx.
Proof.
  apply (h_section_positive (300 # 1) (150 # 1) (20 # 1) (10 # 1));
    reflexivity.
Defined.

Local Close Scope Q_scope.
